(** * Global identity registry and platform verification registry

    A shallow embedding of the two Solidity contracts of the repository,
    [GlobalIdentityRegistry] and [PlatformVerificationRegistry], and the
    properties of their state machines.

    Conventions of the embedding.
    - [uint256], [bytes32] and [address] values are naturals of type [N];
      Solidity 0.8 arithmetic is checked, so an overflowing [+] or [++]
      aborts the call with [Panic] instead of wrapping.
    - A [mapping(K => V)] is a [gmap K V] read through [sload], which
      returns the zero value of [V] for an absent key, as the EVM does.
    - An external function is a function from the transaction environment
      ([msg.sender], [block.timestamp]), its arguments and the storage to a
      [result]: [Err e] is a revert (no storage survives), [Ok s'] commits
      the new storage [s'].
    - Events are log output only and are left out of the storage model.
    - No function of either contract calls out to another contract, so
      the [nonReentrant] lock is free at every entry and is left out. *)

From stdpp Require Import gmap strings list fin_maps fin_sets.
From Stdlib Require Import NArith Lia.

#[local] Set Warnings "-clear-no-such-hyp".

Local Open Scope N_scope.

(** ** Machine values *)

Abbreviation address := N (only parsing).
Abbreviation bytes32 := N (only parsing).
Abbreviation uint256 := N (only parsing).
Abbreviation uint8 := N (only parsing).

Definition MAX_UINT256 : N := 2 ^ 256 - 1.

(** Checked addition of Solidity 0.8: [None] stands for the overflow panic. *)
Definition checked_add (a b : uint256) : option uint256 :=
  if a + b <=? MAX_UINT256 then Some (a + b) else None.

(** Checked multiplication of Solidity 0.8. *)
Definition checked_mul (a b : uint256) : option uint256 :=
  if a * b <=? MAX_UINT256 then Some (a * b) else None.

(** [arr.length] of a storage or memory array. *)
Definition array_length {A} (l : list A) : uint256 := N.of_nat (length l).

(** ** Zero values and storage reads *)

Class ZeroValue (A : Type) := zero : A.
Global Instance N_zero : ZeroValue N := 0.
Global Instance bool_zero : ZeroValue bool := false.
Global Instance string_zero : ZeroValue string := EmptyString.
Global Instance list_zero {A} : ZeroValue (list A) := [].

(** Reading [m[k] from a Solidity mapping. *)
Definition sload `{Countable K} {V} `{ZeroValue V} (m : gmap K V) (k : K) : V :=
  default zero (m !! k).

Notation "m .[ k ]" := (sload m k) (at level 1, format "m .[ k ]").

(** ** Reverts *)

Inductive Error :=
  | SystemPaused              (* Pausable: EnforcedPause() *)
  | ExpectedPause             (* Pausable: ExpectedPause() *)
  | Unauthorized              (* AccessControl: AccessControlUnauthorizedAccount *)
  | BadConfirmation           (* AccessControl: AccessControlBadConfirmation *)
  | Panic                     (* arithmetic overflow, Panic(0x11) *)
  | DuplicateIdentityHash     (* "Identity already exists" *)
  | PrincipalAlreadyBound     (* "Address already has identity" *)
  | NotOwner                  (* "Not identity owner" *)
  | IdentityInactive          (* "Identity not active" *)
  | IdentityRevoked           (* "Identity revoked" *)
  | InvalidVerificationType   (* "Invalid verification type" *)
  | IndexOutOfRange           (* "Invalid index" *)
  | NotVerificationOwner      (* "Not verification owner" *)
  | NotAuthorized             (* "Not authorized" *)
  | AlreadyRevoked            (* "Already revoked" *)
  | InvalidGuardianAddress    (* "Invalid guardian address" *)
  | CannotBeSelf              (* "Cannot be self" *)
  | NotGuardian               (* "Not a guardian" *)
  | InvalidNewOwner           (* "Invalid new owner" *)
  | RecoveryAlreadyPending    (* "Recovery already pending" *)
  | NoRecoveryPending         (* "No pending recovery" *)
  | AlreadyApproved           (* "Already approved" *)
  | NameEmpty                 (* "Name cannot be empty" *)
  | DomainEmpty               (* "Domain cannot be empty" *)
  | DomainAlreadyRegistered   (* "Domain already registered" *)
  | PlatformInactive          (* "Platform not active" *)
  | PlatformUserIdRequired    (* "Platform user ID required" *)
  | InvalidIdentityDID        (* "Invalid identity DID" *)
  | VerificationAlreadyExists (* "Verification already exists" *)
  | TrustScoreOutOfRange      (* "Score must be 0-100" *)
  | VerificationNotActive.    (* "Verification not active" *)

Inductive result (A : Type) :=
  | Ok (a : A)
  | Err (e : Error).
Arguments Ok {A} a.
Arguments Err {A} e.

Definition bind {A B} (r : result A) (k : A → result B) : result B :=
  match r with
  | Ok a => k a
  | Err e => Err e
  end.

(** [require(c, e)] followed by the rest of the body. *)
Definition require {A} (c : bool) (e : Error) (k : result A) : result A :=
  if c then k else Err e.

(** A checked arithmetic result followed by the rest of the body. *)
Definition checked {A} (o : option uint256) (k : uint256 → result A) : result A :=
  match o with
  | Some n => k n
  | None => Err Panic
  end.

Notation "'REQUIRE' c 'ELSE' e ;; k" := (require c e k)
  (at level 10, c at level 0, e at level 0, k at level 200).
Notation "'LET' x ':=' o ;; k" := (checked o (fun x => k))
  (at level 10, x name, o at level 0, k at level 200).

Definition is_ok {A} (r : result A) : bool :=
  match r with Ok _ => true | Err _ => false end.

(** The transaction environment of a call. *)
Record Env := {
  msg_sender : address;
  block_timestamp : uint256
}.

(** ** Roles (OpenZeppelin AccessControl) *)

(** The role identifiers of the two contracts: [DEFAULT_ADMIN_ROLE] is
    [0x00] and the others are the keccak hashes of their names, pairwise
    distinct constants. *)
Inductive Role :=
  | DEFAULT_ADMIN_ROLE
  | ADMIN_ROLE
  | VERIFIER_ROLE
  | ISSUER_ROLE
  | PLATFORM_ADMIN_ROLE.

Global Instance Role_eq_dec : EqDecision Role.
Proof. solve_decision. Defined.

Definition Role_to_nat (r : Role) : nat :=
  match r with
  | DEFAULT_ADMIN_ROLE => 0
  | ADMIN_ROLE => 1
  | VERIFIER_ROLE => 2
  | ISSUER_ROLE => 3
  | PLATFORM_ADMIN_ROLE => 4
  end%nat.

Definition Role_of_nat (n : nat) : Role :=
  match n with
  | 0 => DEFAULT_ADMIN_ROLE
  | 1 => ADMIN_ROLE
  | 2 => VERIFIER_ROLE
  | 3 => ISSUER_ROLE
  | _ => PLATFORM_ADMIN_ROLE
  end%nat.

Global Instance Role_countable : Countable Role.
Proof.
  refine (inj_countable' Role_to_nat Role_of_nat _).
  intros []; reflexivity.
Defined.

Module AccessControl.

(** Modelled from the spec: the role registry of §4.1 (the imported
    OpenZeppelin AccessControl contract is not among the sources):
    [_roles[role].hasRole[account]. *)
Definition hasRole (roles : gmap (Role * address) bool) (role : Role) (account : address) : bool :=
  roles .[ (role, account) ].

(** Modelled from the spec: [_grantRole] of §4.1. *)
Definition _grantRole (role : Role) (account : address)
    (roles : gmap (Role * address) bool) : gmap (Role * address) bool :=
  <[ (role, account) := true ]> roles.

(** Modelled from the spec: [_revokeRole] of §4.1. *)
Definition _revokeRole (role : Role) (account : address)
    (roles : gmap (Role * address) bool) : gmap (Role * address) bool :=
  <[ (role, account) := false ]> roles.

(** Modelled from the spec: every role is administered by
    [DEFAULT_ADMIN_ROLE] (no [_setRoleAdmin] call in the sources). *)
Definition getRoleAdmin (role : Role) : Role := DEFAULT_ADMIN_ROLE.

End AccessControl.

(** ** GlobalIdentityRegistry *)

Module Registry.

Record Identity := {
  identityHash : bytes32;
  owner : address;
  createdAt : uint256;
  lastUpdated : uint256;
  isActive : bool;
  isRevoked : bool;
  ipfsHash : string;
  verificationLevel : uint256
}.

Record Verification := {
  verifier : address;
  timestamp : uint256;
  verificationType : uint8;
  proofHash : bytes32;
  isValid : bool
}.

Global Instance Identity_zero : ZeroValue Identity :=
  {| identityHash := 0; owner := 0; createdAt := 0; lastUpdated := 0;
     isActive := false; isRevoked := false; ipfsHash := EmptyString;
     verificationLevel := 0 |}.

Global Instance Verification_zero : ZeroValue Verification :=
  {| verifier := 0; timestamp := 0; verificationType := 0; proofHash := 0;
     isValid := false |}.

(** The storage of the contract, with the inherited [Pausable._paused]
    flag and [AccessControl._roles] table. *)
Record State := {
  identities : gmap bytes32 Identity;
  addressToIdentity : gmap address bytes32;
  verifications : gmap bytes32 (list Verification);
  identityHashExists : gmap bytes32 bool;
  guardians : gmap bytes32 (list address);
  recoveryApprovals : gmap (bytes32 * address) bool;
  pendingRecoveryAddress : gmap bytes32 address;
  recoveryApprovalCount : gmap bytes32 uint256;
  totalIdentities : uint256;
  totalVerifications : uint256;
  _paused : bool;
  _roles : gmap (Role * address) bool
}.

(** *** Field assignments *)

Definition set_owner (v : address) (i : Identity) : Identity :=
  {| identityHash := identityHash i; owner := v; createdAt := createdAt i;
     lastUpdated := lastUpdated i; isActive := isActive i; isRevoked := isRevoked i;
     ipfsHash := ipfsHash i; verificationLevel := verificationLevel i |}.

Definition set_lastUpdated (v : uint256) (i : Identity) : Identity :=
  {| identityHash := identityHash i; owner := owner i; createdAt := createdAt i;
     lastUpdated := v; isActive := isActive i; isRevoked := isRevoked i;
     ipfsHash := ipfsHash i; verificationLevel := verificationLevel i |}.

Definition set_isActive (v : bool) (i : Identity) : Identity :=
  {| identityHash := identityHash i; owner := owner i; createdAt := createdAt i;
     lastUpdated := lastUpdated i; isActive := v; isRevoked := isRevoked i;
     ipfsHash := ipfsHash i; verificationLevel := verificationLevel i |}.

Definition set_isRevoked (v : bool) (i : Identity) : Identity :=
  {| identityHash := identityHash i; owner := owner i; createdAt := createdAt i;
     lastUpdated := lastUpdated i; isActive := isActive i; isRevoked := v;
     ipfsHash := ipfsHash i; verificationLevel := verificationLevel i |}.

Definition set_ipfsHash (v : string) (i : Identity) : Identity :=
  {| identityHash := identityHash i; owner := owner i; createdAt := createdAt i;
     lastUpdated := lastUpdated i; isActive := isActive i; isRevoked := isRevoked i;
     ipfsHash := v; verificationLevel := verificationLevel i |}.

Definition set_verificationLevel (v : uint256) (i : Identity) : Identity :=
  {| identityHash := identityHash i; owner := owner i; createdAt := createdAt i;
     lastUpdated := lastUpdated i; isActive := isActive i; isRevoked := isRevoked i;
     ipfsHash := ipfsHash i; verificationLevel := v |}.

Definition set_isValid (v : bool) (r : Verification) : Verification :=
  {| verifier := verifier r; timestamp := timestamp r;
     verificationType := verificationType r; proofHash := proofHash r;
     isValid := v |}.

Definition set_identities (v : gmap bytes32 Identity) (s : State) : State :=
  {| identities := v; addressToIdentity := addressToIdentity s;
     verifications := verifications s; identityHashExists := identityHashExists s;
     guardians := guardians s; recoveryApprovals := recoveryApprovals s;
     pendingRecoveryAddress := pendingRecoveryAddress s;
     recoveryApprovalCount := recoveryApprovalCount s;
     totalIdentities := totalIdentities s; totalVerifications := totalVerifications s;
     _paused := _paused s; _roles := _roles s |}.

Definition set_addressToIdentity (v : gmap address bytes32) (s : State) : State :=
  {| identities := identities s; addressToIdentity := v;
     verifications := verifications s; identityHashExists := identityHashExists s;
     guardians := guardians s; recoveryApprovals := recoveryApprovals s;
     pendingRecoveryAddress := pendingRecoveryAddress s;
     recoveryApprovalCount := recoveryApprovalCount s;
     totalIdentities := totalIdentities s; totalVerifications := totalVerifications s;
     _paused := _paused s; _roles := _roles s |}.

Definition set_verifications (v : gmap bytes32 (list Verification)) (s : State) : State :=
  {| identities := identities s; addressToIdentity := addressToIdentity s;
     verifications := v; identityHashExists := identityHashExists s;
     guardians := guardians s; recoveryApprovals := recoveryApprovals s;
     pendingRecoveryAddress := pendingRecoveryAddress s;
     recoveryApprovalCount := recoveryApprovalCount s;
     totalIdentities := totalIdentities s; totalVerifications := totalVerifications s;
     _paused := _paused s; _roles := _roles s |}.

Definition set_identityHashExists (v : gmap bytes32 bool) (s : State) : State :=
  {| identities := identities s; addressToIdentity := addressToIdentity s;
     verifications := verifications s; identityHashExists := v;
     guardians := guardians s; recoveryApprovals := recoveryApprovals s;
     pendingRecoveryAddress := pendingRecoveryAddress s;
     recoveryApprovalCount := recoveryApprovalCount s;
     totalIdentities := totalIdentities s; totalVerifications := totalVerifications s;
     _paused := _paused s; _roles := _roles s |}.

Definition set_guardians (v : gmap bytes32 (list address)) (s : State) : State :=
  {| identities := identities s; addressToIdentity := addressToIdentity s;
     verifications := verifications s; identityHashExists := identityHashExists s;
     guardians := v; recoveryApprovals := recoveryApprovals s;
     pendingRecoveryAddress := pendingRecoveryAddress s;
     recoveryApprovalCount := recoveryApprovalCount s;
     totalIdentities := totalIdentities s; totalVerifications := totalVerifications s;
     _paused := _paused s; _roles := _roles s |}.

Definition set_recoveryApprovals (v : gmap (bytes32 * address) bool) (s : State) : State :=
  {| identities := identities s; addressToIdentity := addressToIdentity s;
     verifications := verifications s; identityHashExists := identityHashExists s;
     guardians := guardians s; recoveryApprovals := v;
     pendingRecoveryAddress := pendingRecoveryAddress s;
     recoveryApprovalCount := recoveryApprovalCount s;
     totalIdentities := totalIdentities s; totalVerifications := totalVerifications s;
     _paused := _paused s; _roles := _roles s |}.

Definition set_pendingRecoveryAddress (v : gmap bytes32 address) (s : State) : State :=
  {| identities := identities s; addressToIdentity := addressToIdentity s;
     verifications := verifications s; identityHashExists := identityHashExists s;
     guardians := guardians s; recoveryApprovals := recoveryApprovals s;
     pendingRecoveryAddress := v;
     recoveryApprovalCount := recoveryApprovalCount s;
     totalIdentities := totalIdentities s; totalVerifications := totalVerifications s;
     _paused := _paused s; _roles := _roles s |}.

Definition set_recoveryApprovalCount (v : gmap bytes32 uint256) (s : State) : State :=
  {| identities := identities s; addressToIdentity := addressToIdentity s;
     verifications := verifications s; identityHashExists := identityHashExists s;
     guardians := guardians s; recoveryApprovals := recoveryApprovals s;
     pendingRecoveryAddress := pendingRecoveryAddress s;
     recoveryApprovalCount := v;
     totalIdentities := totalIdentities s; totalVerifications := totalVerifications s;
     _paused := _paused s; _roles := _roles s |}.

Definition set_totalIdentities (v : uint256) (s : State) : State :=
  {| identities := identities s; addressToIdentity := addressToIdentity s;
     verifications := verifications s; identityHashExists := identityHashExists s;
     guardians := guardians s; recoveryApprovals := recoveryApprovals s;
     pendingRecoveryAddress := pendingRecoveryAddress s;
     recoveryApprovalCount := recoveryApprovalCount s;
     totalIdentities := v; totalVerifications := totalVerifications s;
     _paused := _paused s; _roles := _roles s |}.

Definition set_totalVerifications (v : uint256) (s : State) : State :=
  {| identities := identities s; addressToIdentity := addressToIdentity s;
     verifications := verifications s; identityHashExists := identityHashExists s;
     guardians := guardians s; recoveryApprovals := recoveryApprovals s;
     pendingRecoveryAddress := pendingRecoveryAddress s;
     recoveryApprovalCount := recoveryApprovalCount s;
     totalIdentities := totalIdentities s; totalVerifications := v;
     _paused := _paused s; _roles := _roles s |}.

Definition set_paused (v : bool) (s : State) : State :=
  {| identities := identities s; addressToIdentity := addressToIdentity s;
     verifications := verifications s; identityHashExists := identityHashExists s;
     guardians := guardians s; recoveryApprovals := recoveryApprovals s;
     pendingRecoveryAddress := pendingRecoveryAddress s;
     recoveryApprovalCount := recoveryApprovalCount s;
     totalIdentities := totalIdentities s; totalVerifications := totalVerifications s;
     _paused := v; _roles := _roles s |}.

Definition set_roles (v : gmap (Role * address) bool) (s : State) : State :=
  {| identities := identities s; addressToIdentity := addressToIdentity s;
     verifications := verifications s; identityHashExists := identityHashExists s;
     guardians := guardians s; recoveryApprovals := recoveryApprovals s;
     pendingRecoveryAddress := pendingRecoveryAddress s;
     recoveryApprovalCount := recoveryApprovalCount s;
     totalIdentities := totalIdentities s; totalVerifications := totalVerifications s;
     _paused := _paused s; _roles := v |}.

(** [hasRole(role, account)] on the contract's role table. *)
Definition hasRole (s : State) (role : Role) (account : address) : bool :=
  AccessControl.hasRole (_roles s) role account.

(** Modelled from the spec: the pause gate of §4.6 (the imported
    OpenZeppelin Pausable contract is not among the sources):
    the [paused()] view. *)
Definition paused (s : State) : bool := _paused s.

(** The constructor: the deployer receives [DEFAULT_ADMIN_ROLE] and
    [ADMIN_ROLE]; every other slot is zero. *)
Definition constructor (deployer : address) : State :=
  {| identities := ∅; addressToIdentity := ∅; verifications := ∅;
     identityHashExists := ∅; guardians := ∅; recoveryApprovals := ∅;
     pendingRecoveryAddress := ∅; recoveryApprovalCount := ∅;
     totalIdentities := 0; totalVerifications := 0; _paused := false;
     _roles := AccessControl._grantRole ADMIN_ROLE deployer
                 (AccessControl._grantRole DEFAULT_ADMIN_ROLE deployer ∅) |}.

Section Contract.

(** [keccak256(abi.encodePacked(_identityHash, msg.sender, block.timestamp))],
    the hash that derives a DID. *)
Variable keccak256 : bytes32 → address → uint256 → bytes32.

(** *** Identity lifecycle *)

Definition createIdentity (e : Env) (_identityHash : bytes32) (_ipfsHash : string)
    (s : State) : result (bytes32 * State) :=
  REQUIRE (negb (paused s)) ELSE SystemPaused ;;
  REQUIRE (negb (identityHashExists s).[_identityHash]) ELSE DuplicateIdentityHash ;;
  REQUIRE ((addressToIdentity s).[msg_sender e] =? 0) ELSE PrincipalAlreadyBound ;;
  let did := keccak256 _identityHash (msg_sender e) (block_timestamp e) in
  let s := set_identities (<[ did :=
             {| identityHash := _identityHash;
                owner := msg_sender e;
                createdAt := block_timestamp e;
                lastUpdated := block_timestamp e;
                isActive := true;
                isRevoked := false;
                ipfsHash := _ipfsHash;
                verificationLevel := 0 |} ]> (identities s)) s in
  let s := set_identityHashExists (<[ _identityHash := true ]> (identityHashExists s)) s in
  let s := set_addressToIdentity (<[ msg_sender e := did ]> (addressToIdentity s)) s in
  LET n := (checked_add (totalIdentities s) 1) ;;
  let s := set_totalIdentities n s in
  Ok (did, s).

Definition updateIdentity (e : Env) (_did : bytes32) (_newIpfsHash : string)
    (s : State) : result State :=
  REQUIRE (negb (paused s)) ELSE SystemPaused ;;
  REQUIRE (owner (identities s).[_did] =? msg_sender e) ELSE NotOwner ;;
  REQUIRE (isActive (identities s).[_did]) ELSE IdentityInactive ;;
  REQUIRE (negb (isRevoked (identities s).[_did])) ELSE IdentityRevoked ;;
  let s := set_identities
             (<[ _did := set_ipfsHash _newIpfsHash (identities s).[_did] ]> (identities s)) s in
  let s := set_identities
             (<[ _did := set_lastUpdated (block_timestamp e) (identities s).[_did] ]> (identities s)) s in
  Ok s.

(** *** Verification ledger *)

Definition addVerification (e : Env) (_did : bytes32) (_verificationType : uint8)
    (_proofHash : bytes32) (s : State) : result State :=
  REQUIRE (negb (paused s)) ELSE SystemPaused ;;
  REQUIRE (hasRole s VERIFIER_ROLE (msg_sender e)) ELSE Unauthorized ;;
  REQUIRE (isActive (identities s).[_did]) ELSE IdentityInactive ;;
  REQUIRE (negb (isRevoked (identities s).[_did])) ELSE IdentityRevoked ;;
  REQUIRE ((1 <=? _verificationType) && (_verificationType <=? 4)) ELSE InvalidVerificationType ;;
  let s := set_verifications (<[ _did := (verifications s).[_did] ++
             [ {| verifier := msg_sender e;
                  timestamp := block_timestamp e;
                  verificationType := _verificationType;
                  proofHash := _proofHash;
                  isValid := true |} ] ]> (verifications s)) s in
  let s := if verificationLevel (identities s).[_did] <? _verificationType
           then set_identities
                  (<[ _did := set_verificationLevel _verificationType (identities s).[_did] ]>
                     (identities s)) s
           else s in
  LET n := (checked_add (totalVerifications s) 1) ;;
  let s := set_totalVerifications n s in
  Ok s.

Definition revokeVerification (e : Env) (_did : bytes32) (_verificationIndex : uint256)
    (s : State) : result State :=
  REQUIRE (hasRole s VERIFIER_ROLE (msg_sender e)) ELSE Unauthorized ;;
  REQUIRE (_verificationIndex <? array_length (verifications s).[_did]) ELSE IndexOutOfRange ;;
  let i := N.to_nat _verificationIndex in
  REQUIRE (verifier (default zero ((verifications s).[_did] !! i)) =? msg_sender e)
    ELSE NotVerificationOwner ;;
  let s := set_verifications
             (<[ _did := <[ i := set_isValid false (default zero ((verifications s).[_did] !! i)) ]>
                            (verifications s).[_did] ]> (verifications s)) s in
  Ok s.

Definition revokeIdentity (e : Env) (_did : bytes32) (s : State) : result State :=
  REQUIRE ((owner (identities s).[_did] =? msg_sender e) || hasRole s ADMIN_ROLE (msg_sender e))
    ELSE NotAuthorized ;;
  REQUIRE (negb (isRevoked (identities s).[_did])) ELSE AlreadyRevoked ;;
  let s := set_identities (<[ _did := set_isRevoked true (identities s).[_did] ]> (identities s)) s in
  let s := set_identities (<[ _did := set_isActive false (identities s).[_did] ]> (identities s)) s in
  let s := set_identities
             (<[ _did := set_lastUpdated (block_timestamp e) (identities s).[_did] ]> (identities s)) s in
  Ok s.

(** *** Social recovery *)

(** The scan of [_isGuardian], returning at the first match. *)
Fixpoint _isGuardian_scan (gs : list address) (_address : address) : bool :=
  match gs with
  | [] => false
  | g :: gs' => if g =? _address then true else _isGuardian_scan gs' _address
  end.

Definition _isGuardian (s : State) (_did : bytes32) (_address : address) : bool :=
  _isGuardian_scan (guardians s).[_did] _address.

Definition addGuardian (e : Env) (_did : bytes32) (_guardian : address)
    (s : State) : result State :=
  REQUIRE (owner (identities s).[_did] =? msg_sender e) ELSE NotOwner ;;
  REQUIRE (negb (_guardian =? 0)) ELSE InvalidGuardianAddress ;;
  REQUIRE (negb (_guardian =? msg_sender e)) ELSE CannotBeSelf ;;
  let s := set_guardians (<[ _did := (guardians s).[_did] ++ [_guardian] ]> (guardians s)) s in
  Ok s.

Definition initiateRecovery (e : Env) (_did : bytes32) (_newOwner : address)
    (s : State) : result State :=
  REQUIRE (_isGuardian s _did (msg_sender e)) ELSE NotGuardian ;;
  REQUIRE (negb (_newOwner =? 0)) ELSE InvalidNewOwner ;;
  REQUIRE ((pendingRecoveryAddress s).[_did] =? 0) ELSE RecoveryAlreadyPending ;;
  let s := set_pendingRecoveryAddress (<[ _did := _newOwner ]> (pendingRecoveryAddress s)) s in
  let s := set_recoveryApprovals (<[ (_did, msg_sender e) := true ]> (recoveryApprovals s)) s in
  let s := set_recoveryApprovalCount (<[ _did := 1 ]> (recoveryApprovalCount s)) s in
  Ok s.

(** The loop of [_executeRecovery] that deletes the approval flag of every
    entry of [guardians[_did], in array order. *)
Definition clearApprovals (_did : bytes32) (gs : list address)
    (approvals : gmap (bytes32 * address) bool) : gmap (bytes32 * address) bool :=
  fold_left (fun m g => delete (_did, g) m) gs approvals.

Definition _executeRecovery (e : Env) (_did : bytes32) (s : State) : State :=
  let oldOwner := owner (identities s).[_did] in
  let newOwner := (pendingRecoveryAddress s).[_did] in
  let s := set_identities (<[ _did := set_owner newOwner (identities s).[_did] ]> (identities s)) s in
  let s := set_identities
             (<[ _did := set_lastUpdated (block_timestamp e) (identities s).[_did] ]> (identities s)) s in
  let s := set_addressToIdentity (delete oldOwner (addressToIdentity s)) s in
  let s := set_addressToIdentity (<[ newOwner := _did ]> (addressToIdentity s)) s in
  let s := set_pendingRecoveryAddress (delete _did (pendingRecoveryAddress s)) s in
  let s := set_recoveryApprovalCount (<[ _did := 0 ]> (recoveryApprovalCount s)) s in
  let s := set_recoveryApprovals (clearApprovals _did (guardians s).[_did] (recoveryApprovals s)) s in
  s.

(** [(guardians[_did].length / 2) + 1]; the length of an array fits a
    word, so this sum cannot overflow. *)
Definition requiredApprovals (s : State) (_did : bytes32) : uint256 :=
  array_length (guardians s).[_did] / 2 + 1.

Definition approveRecovery (e : Env) (_did : bytes32) (s : State) : result State :=
  REQUIRE (_isGuardian s _did (msg_sender e)) ELSE NotGuardian ;;
  REQUIRE (negb ((pendingRecoveryAddress s).[_did] =? 0)) ELSE NoRecoveryPending ;;
  REQUIRE (negb (recoveryApprovals s).[(_did, msg_sender e)]) ELSE AlreadyApproved ;;
  let s := set_recoveryApprovals (<[ (_did, msg_sender e) := true ]> (recoveryApprovals s)) s in
  LET n := (checked_add (recoveryApprovalCount s).[_did] 1) ;;
  let s := set_recoveryApprovalCount (<[ _did := n ]> (recoveryApprovalCount s)) s in
  if requiredApprovals s _did <=? (recoveryApprovalCount s).[_did]
  then Ok (_executeRecovery e _did s)
  else Ok s.

(** *** Views *)

Definition verifyOwnership (s : State) (_did : bytes32) (_owner : address) : bool :=
  (owner (identities s).[_did] =? _owner) &&
  isActive (identities s).[_did] &&
  negb (isRevoked (identities s).[_did]).

Definition getIdentity (s : State) (_did : bytes32)
    : address * uint256 * uint256 * bool * bool * string * uint256 :=
  let identity := (identities s).[_did] in
  (owner identity, createdAt identity, lastUpdated identity, isActive identity,
   isRevoked identity, ipfsHash identity, verificationLevel identity).

Definition getVerificationCount (s : State) (_did : bytes32) : uint256 :=
  array_length (verifications s).[_did].

Definition getVerification (s : State) (_did : bytes32) (_index : uint256)
    : result (address * uint256 * uint8 * bytes32 * bool) :=
  REQUIRE (_index <? array_length (verifications s).[_did]) ELSE IndexOutOfRange ;;
  let verification := default zero ((verifications s).[_did] !! N.to_nat _index) in
  Ok (verifier verification, timestamp verification, verificationType verification,
      proofHash verification, isValid verification).

Definition getGuardians (s : State) (_did : bytes32) : list address :=
  (guardians s).[_did].

(** *** Pause gate and role administration *)

(** Modelled from the spec: [pause()] of §4.6, administrator only. *)
Definition pause (e : Env) (s : State) : result State :=
  REQUIRE (hasRole s ADMIN_ROLE (msg_sender e)) ELSE Unauthorized ;;
  REQUIRE (negb (paused s)) ELSE SystemPaused ;;
  Ok (set_paused true s).

(** Modelled from the spec: [unpause()] of §4.6, administrator only. *)
Definition unpause (e : Env) (s : State) : result State :=
  REQUIRE (hasRole s ADMIN_ROLE (msg_sender e)) ELSE Unauthorized ;;
  REQUIRE (paused s) ELSE ExpectedPause ;;
  Ok (set_paused false s).

(** Modelled from the spec: [grant(role, principal)] of §4.1. *)
Definition grantRole (e : Env) (role : Role) (account : address) (s : State) : result State :=
  REQUIRE (hasRole s (AccessControl.getRoleAdmin role) (msg_sender e)) ELSE Unauthorized ;;
  Ok (if hasRole s role account then s
      else set_roles (AccessControl._grantRole role account (_roles s)) s).

(** Modelled from the spec: [revoke(role, principal)] of §4.1. *)
Definition revokeRole (e : Env) (role : Role) (account : address) (s : State) : result State :=
  REQUIRE (hasRole s (AccessControl.getRoleAdmin role) (msg_sender e)) ELSE Unauthorized ;;
  Ok (if hasRole s role account
      then set_roles (AccessControl._revokeRole role account (_roles s)) s
      else s).

(** Modelled from the spec: a principal giving up its own role (§4.1). *)
Definition renounceRole (e : Env) (role : Role) (callerConfirmation : address)
    (s : State) : result State :=
  REQUIRE (callerConfirmation =? msg_sender e) ELSE BadConfirmation ;;
  Ok (if hasRole s role callerConfirmation
      then set_roles (AccessControl._revokeRole role callerConfirmation (_roles s)) s
      else s).

(** *** The transaction system *)

(** The state-changing external functions of the contract. *)
Inductive Op :=
  | Call_createIdentity (_identityHash : bytes32) (_ipfsHash : string)
  | Call_updateIdentity (_did : bytes32) (_newIpfsHash : string)
  | Call_addVerification (_did : bytes32) (_verificationType : uint8) (_proofHash : bytes32)
  | Call_revokeVerification (_did : bytes32) (_verificationIndex : uint256)
  | Call_revokeIdentity (_did : bytes32)
  | Call_addGuardian (_did : bytes32) (_guardian : address)
  | Call_initiateRecovery (_did : bytes32) (_newOwner : address)
  | Call_approveRecovery (_did : bytes32)
  | Call_pause
  | Call_unpause
  | Call_grantRole (role : Role) (account : address)
  | Call_revokeRole (role : Role) (account : address)
  | Call_renounceRole (role : Role) (callerConfirmation : address).

(** One transaction: the storage after the call, or the revert. *)
Definition step (e : Env) (op : Op) (s : State) : result State :=
  match op with
  | Call_createIdentity h ipfs => bind (createIdentity e h ipfs s) (fun r => Ok (snd r))
  | Call_updateIdentity d ipfs => updateIdentity e d ipfs s
  | Call_addVerification d t p => addVerification e d t p s
  | Call_revokeVerification d i => revokeVerification e d i s
  | Call_revokeIdentity d => revokeIdentity e d s
  | Call_addGuardian d g => addGuardian e d g s
  | Call_initiateRecovery d o => initiateRecovery e d o s
  | Call_approveRecovery d => approveRecovery e d s
  | Call_pause => pause e s
  | Call_unpause => unpause e s
  | Call_grantRole r a => grantRole e r a s
  | Call_revokeRole r a => revokeRole e r a s
  | Call_renounceRole r a => renounceRole e r a s
  end.

(** Transactions are sent by accounts, and no account has the zero
    address. A state is reachable when a deployment followed by
    successful transactions produces it. *)
Inductive reachable : State → Prop :=
  | reachable_deploy (deployer : address) :
      deployer ≠ 0 → reachable (constructor deployer)
  | reachable_step (s s' : State) (e : Env) (op : Op) :
      reachable s → msg_sender e ≠ 0 → step e op s = Ok s' → reachable s'.

(** Running a list of transactions, stopping at the first revert. *)
Fixpoint run (txs : list (Env * Op)) (s : State) : result State :=
  match txs with
  | [] => Ok s
  | (e, op) :: txs' => bind (step e op s) (run txs')
  end.

End Contract.

End Registry.

(** ** PlatformVerificationRegistry *)

Module PlatformRegistry.

Inductive PlatformType :=
  | SocialMedia
  | Financial
  | Healthcare
  | Government
  | Education
  | Other.

Module Platform.
Record t := {
  name : string;
  domain : string;
  adminAddress : address;
  isActive : bool;
  registeredAt : uint256;
  totalVerifications : uint256;
  platformType : PlatformType
}.
End Platform.

Module PlatformVerification.
Record t := {
  identityDID : bytes32;
  platformId : bytes32;
  platformUserId : string;
  verifiedAt : uint256;
  expiresAt : uint256;
  isActive : bool;
  trustScore : uint8;
  attestationHash : bytes32
}.
End PlatformVerification.

Global Instance Platform_zero : ZeroValue Platform.t :=
  {| Platform.name := EmptyString; Platform.domain := EmptyString;
     Platform.adminAddress := 0; Platform.isActive := false;
     Platform.registeredAt := 0; Platform.totalVerifications := 0;
     Platform.platformType := SocialMedia |}.

Global Instance PlatformVerification_zero : ZeroValue PlatformVerification.t :=
  {| PlatformVerification.identityDID := 0; PlatformVerification.platformId := 0;
     PlatformVerification.platformUserId := EmptyString;
     PlatformVerification.verifiedAt := 0; PlatformVerification.expiresAt := 0;
     PlatformVerification.isActive := false; PlatformVerification.trustScore := 0;
     PlatformVerification.attestationHash := 0 |}.

(** The storage of the contract with the inherited role table. The
    contract does not inherit [Pausable]: it has no pause flag. *)
Record State := {
  platforms : gmap bytes32 Platform.t;
  domainToPlatform : gmap string bytes32;
  verifications : gmap (bytes32 * bytes32) PlatformVerification.t;
  platformVerifiedIdentities : gmap bytes32 (list bytes32);
  platformUserToIdentity : gmap (bytes32 * string) bytes32;
  totalPlatforms : uint256;
  totalPlatformVerifications : uint256;
  _roles : gmap (Role * address) bool
}.

(** *** Field assignments *)

Definition set_platform_isActive (v : bool) (p : Platform.t) : Platform.t :=
  {| Platform.name := Platform.name p; Platform.domain := Platform.domain p;
     Platform.adminAddress := Platform.adminAddress p; Platform.isActive := v;
     Platform.registeredAt := Platform.registeredAt p;
     Platform.totalVerifications := Platform.totalVerifications p;
     Platform.platformType := Platform.platformType p |}.

Definition set_platform_totalVerifications (v : uint256) (p : Platform.t) : Platform.t :=
  {| Platform.name := Platform.name p; Platform.domain := Platform.domain p;
     Platform.adminAddress := Platform.adminAddress p;
     Platform.isActive := Platform.isActive p;
     Platform.registeredAt := Platform.registeredAt p;
     Platform.totalVerifications := v;
     Platform.platformType := Platform.platformType p |}.

Definition set_isActive (v : bool) (r : PlatformVerification.t) : PlatformVerification.t :=
  {| PlatformVerification.identityDID := PlatformVerification.identityDID r;
     PlatformVerification.platformId := PlatformVerification.platformId r;
     PlatformVerification.platformUserId := PlatformVerification.platformUserId r;
     PlatformVerification.verifiedAt := PlatformVerification.verifiedAt r;
     PlatformVerification.expiresAt := PlatformVerification.expiresAt r;
     PlatformVerification.isActive := v;
     PlatformVerification.trustScore := PlatformVerification.trustScore r;
     PlatformVerification.attestationHash := PlatformVerification.attestationHash r |}.

Definition set_trustScore (v : uint8) (r : PlatformVerification.t) : PlatformVerification.t :=
  {| PlatformVerification.identityDID := PlatformVerification.identityDID r;
     PlatformVerification.platformId := PlatformVerification.platformId r;
     PlatformVerification.platformUserId := PlatformVerification.platformUserId r;
     PlatformVerification.verifiedAt := PlatformVerification.verifiedAt r;
     PlatformVerification.expiresAt := PlatformVerification.expiresAt r;
     PlatformVerification.isActive := PlatformVerification.isActive r;
     PlatformVerification.trustScore := v;
     PlatformVerification.attestationHash := PlatformVerification.attestationHash r |}.

Definition set_platforms (v : gmap bytes32 Platform.t) (s : State) : State :=
  {| platforms := v; domainToPlatform := domainToPlatform s;
     verifications := verifications s;
     platformVerifiedIdentities := platformVerifiedIdentities s;
     platformUserToIdentity := platformUserToIdentity s;
     totalPlatforms := totalPlatforms s;
     totalPlatformVerifications := totalPlatformVerifications s;
     _roles := _roles s |}.

Definition set_domainToPlatform (v : gmap string bytes32) (s : State) : State :=
  {| platforms := platforms s; domainToPlatform := v;
     verifications := verifications s;
     platformVerifiedIdentities := platformVerifiedIdentities s;
     platformUserToIdentity := platformUserToIdentity s;
     totalPlatforms := totalPlatforms s;
     totalPlatformVerifications := totalPlatformVerifications s;
     _roles := _roles s |}.

Definition set_verifications (v : gmap (bytes32 * bytes32) PlatformVerification.t)
    (s : State) : State :=
  {| platforms := platforms s; domainToPlatform := domainToPlatform s;
     verifications := v;
     platformVerifiedIdentities := platformVerifiedIdentities s;
     platformUserToIdentity := platformUserToIdentity s;
     totalPlatforms := totalPlatforms s;
     totalPlatformVerifications := totalPlatformVerifications s;
     _roles := _roles s |}.

Definition set_platformVerifiedIdentities (v : gmap bytes32 (list bytes32))
    (s : State) : State :=
  {| platforms := platforms s; domainToPlatform := domainToPlatform s;
     verifications := verifications s;
     platformVerifiedIdentities := v;
     platformUserToIdentity := platformUserToIdentity s;
     totalPlatforms := totalPlatforms s;
     totalPlatformVerifications := totalPlatformVerifications s;
     _roles := _roles s |}.

Definition set_platformUserToIdentity (v : gmap (bytes32 * string) bytes32)
    (s : State) : State :=
  {| platforms := platforms s; domainToPlatform := domainToPlatform s;
     verifications := verifications s;
     platformVerifiedIdentities := platformVerifiedIdentities s;
     platformUserToIdentity := v;
     totalPlatforms := totalPlatforms s;
     totalPlatformVerifications := totalPlatformVerifications s;
     _roles := _roles s |}.

Definition set_totalPlatforms (v : uint256) (s : State) : State :=
  {| platforms := platforms s; domainToPlatform := domainToPlatform s;
     verifications := verifications s;
     platformVerifiedIdentities := platformVerifiedIdentities s;
     platformUserToIdentity := platformUserToIdentity s;
     totalPlatforms := v;
     totalPlatformVerifications := totalPlatformVerifications s;
     _roles := _roles s |}.

Definition set_totalPlatformVerifications (v : uint256) (s : State) : State :=
  {| platforms := platforms s; domainToPlatform := domainToPlatform s;
     verifications := verifications s;
     platformVerifiedIdentities := platformVerifiedIdentities s;
     platformUserToIdentity := platformUserToIdentity s;
     totalPlatforms := totalPlatforms s;
     totalPlatformVerifications := v;
     _roles := _roles s |}.

Definition set_roles (v : gmap (Role * address) bool) (s : State) : State :=
  {| platforms := platforms s; domainToPlatform := domainToPlatform s;
     verifications := verifications s;
     platformVerifiedIdentities := platformVerifiedIdentities s;
     platformUserToIdentity := platformUserToIdentity s;
     totalPlatforms := totalPlatforms s;
     totalPlatformVerifications := totalPlatformVerifications s;
     _roles := v |}.

Definition hasRole (s : State) (role : Role) (account : address) : bool :=
  AccessControl.hasRole (_roles s) role account.

(** [bytes(str).length] *)
Definition bytes_length (str : string) : uint256 := N.of_nat (String.length str).

(** The constant [1 days], in seconds. *)
Definition ONE_DAY : uint256 := 86400.

Definition constructor (deployer : address) : State :=
  {| platforms := ∅; domainToPlatform := ∅; verifications := ∅;
     platformVerifiedIdentities := ∅; platformUserToIdentity := ∅;
     totalPlatforms := 0; totalPlatformVerifications := 0;
     _roles := AccessControl._grantRole PLATFORM_ADMIN_ROLE deployer
                 (AccessControl._grantRole DEFAULT_ADMIN_ROLE deployer ∅) |}.

Section Contract.

(** [keccak256(abi.encodePacked(_name, _domain, block.timestamp))], the
    hash that derives a platform id. *)
Variable keccak256 : string → string → uint256 → bytes32.

Definition registerPlatform (e : Env) (_name _domain : string) (_platformType : PlatformType)
    (s : State) : result (bytes32 * State) :=
  REQUIRE (hasRole s PLATFORM_ADMIN_ROLE (msg_sender e)) ELSE Unauthorized ;;
  REQUIRE (0 <? bytes_length _name) ELSE NameEmpty ;;
  REQUIRE (0 <? bytes_length _domain) ELSE DomainEmpty ;;
  REQUIRE ((domainToPlatform s).[_domain] =? 0) ELSE DomainAlreadyRegistered ;;
  let platformId := keccak256 _name _domain (block_timestamp e) in
  let s := set_platforms (<[ platformId :=
             {| Platform.name := _name;
                Platform.domain := _domain;
                Platform.adminAddress := msg_sender e;
                Platform.isActive := true;
                Platform.registeredAt := block_timestamp e;
                Platform.totalVerifications := 0;
                Platform.platformType := _platformType |} ]> (platforms s)) s in
  let s := set_domainToPlatform (<[ _domain := platformId ]> (domainToPlatform s)) s in
  LET n := (checked_add (totalPlatforms s) 1) ;;
  let s := set_totalPlatforms n s in
  Ok (platformId, s).

(** The guard shared by the functions reserved to a platform's
    administrator or a holder of [PLATFORM_ADMIN_ROLE]. *)
Definition isPlatformAuthorized (e : Env) (_platformId : bytes32) (s : State) : bool :=
  (Platform.adminAddress (platforms s).[_platformId] =? msg_sender e)
  || hasRole s PLATFORM_ADMIN_ROLE (msg_sender e).

Definition createVerification (e : Env) (_identityDID _platformId : bytes32)
    (_platformUserId : string) (_expirationDays : uint256) (_attestationHash : bytes32)
    (s : State) : result State :=
  REQUIRE (Platform.isActive (platforms s).[_platformId]) ELSE PlatformInactive ;;
  REQUIRE (isPlatformAuthorized e _platformId s) ELSE NotAuthorized ;;
  REQUIRE (0 <? bytes_length _platformUserId) ELSE PlatformUserIdRequired ;;
  REQUIRE (negb (_identityDID =? 0)) ELSE InvalidIdentityDID ;;
  REQUIRE (negb (PlatformVerification.isActive (verifications s).[(_identityDID, _platformId)]))
    ELSE VerificationAlreadyExists ;;
  LET expiresAt := (if 0 <? _expirationDays
                    then match checked_mul _expirationDays ONE_DAY with
                         | Some d => checked_add (block_timestamp e) d
                         | None => None
                         end
                    else Some 0) ;;
  let s := set_verifications (<[ (_identityDID, _platformId) :=
             {| PlatformVerification.identityDID := _identityDID;
                PlatformVerification.platformId := _platformId;
                PlatformVerification.platformUserId := _platformUserId;
                PlatformVerification.verifiedAt := block_timestamp e;
                PlatformVerification.expiresAt := expiresAt;
                PlatformVerification.isActive := true;
                PlatformVerification.trustScore := 50;
                PlatformVerification.attestationHash := _attestationHash |} ]>
             (verifications s)) s in
  let s := set_platformVerifiedIdentities
             (<[ _platformId := (platformVerifiedIdentities s).[_platformId] ++ [_identityDID] ]>
                (platformVerifiedIdentities s)) s in
  let s := set_platformUserToIdentity
             (<[ (_platformId, _platformUserId) := _identityDID ]> (platformUserToIdentity s)) s in
  LET n := (checked_add (Platform.totalVerifications (platforms s).[_platformId]) 1) ;;
  let s := set_platforms
             (<[ _platformId := set_platform_totalVerifications n (platforms s).[_platformId] ]>
                (platforms s)) s in
  LET m := (checked_add (totalPlatformVerifications s) 1) ;;
  let s := set_totalPlatformVerifications m s in
  Ok s.

Definition revokeVerification (e : Env) (_identityDID _platformId : bytes32)
    (s : State) : result State :=
  REQUIRE (isPlatformAuthorized e _platformId s) ELSE NotAuthorized ;;
  REQUIRE (PlatformVerification.isActive (verifications s).[(_identityDID, _platformId)])
    ELSE VerificationNotActive ;;
  let s := set_verifications
             (<[ (_identityDID, _platformId) :=
                   set_isActive false (verifications s).[(_identityDID, _platformId)] ]>
                (verifications s)) s in
  Ok s.

Definition updateTrustScore (e : Env) (_identityDID _platformId : bytes32) (_newScore : uint8)
    (s : State) : result State :=
  REQUIRE (isPlatformAuthorized e _platformId s) ELSE NotAuthorized ;;
  REQUIRE (_newScore <=? 100) ELSE TrustScoreOutOfRange ;;
  REQUIRE (PlatformVerification.isActive (verifications s).[(_identityDID, _platformId)])
    ELSE VerificationNotActive ;;
  let s := set_verifications
             (<[ (_identityDID, _platformId) :=
                   set_trustScore _newScore (verifications s).[(_identityDID, _platformId)] ]>
                (verifications s)) s in
  Ok s.

Definition deactivatePlatform (e : Env) (_platformId : bytes32) (s : State) : result State :=
  REQUIRE (isPlatformAuthorized e _platformId s) ELSE NotAuthorized ;;
  let s := set_platforms
             (<[ _platformId := set_platform_isActive false (platforms s).[_platformId] ]>
                (platforms s)) s in
  Ok s.

(** *** Views *)

Definition isVerificationValid (e : Env) (s : State) (_identityDID _platformId : bytes32) : bool :=
  let verification := (verifications s).[(_identityDID, _platformId)] in
  if negb (PlatformVerification.isActive verification) then false
  else if (0 <? PlatformVerification.expiresAt verification)
          && (PlatformVerification.expiresAt verification <? block_timestamp e)
  then false
  else true.

(** The [for] loop of [batchVerificationCheck]: [i] is the loop counter
    and [results] the memory array written so far; [fuel] bounds the
    number of iterations. *)
Fixpoint batchVerificationCheck_loop (fuel : nat) (e : Env) (s : State)
    (_identityDIDs : list bytes32) (_platformId : bytes32) (i : nat)
    (results : list bool) : list bool :=
  match fuel with
  | O => results
  | S fuel' =>
      if (i <? length _identityDIDs)%nat then
        let verification :=
          (verifications s).[(default zero (_identityDIDs !! i), _platformId)] in
        let isValid := PlatformVerification.isActive verification in
        let isValid :=
          if (0 <? PlatformVerification.expiresAt verification)
             && (PlatformVerification.expiresAt verification <? block_timestamp e)
          then false else isValid in
        batchVerificationCheck_loop fuel' e s _identityDIDs _platformId (S i)
          (<[ i := isValid ]> results)
      else results
  end.

Definition batchVerificationCheck (e : Env) (s : State) (_identityDIDs : list bytes32)
    (_platformId : bytes32) : list bool :=
  let results := replicate (length _identityDIDs) false in
  batchVerificationCheck_loop (length _identityDIDs) e s _identityDIDs _platformId 0 results.

Definition getIdentityByPlatformUser (s : State) (_platformId : bytes32)
    (_platformUserId : string) : bytes32 :=
  (platformUserToIdentity s).[(_platformId, _platformUserId)].

Definition getVerification (s : State) (_identityDID _platformId : bytes32)
    : string * uint256 * uint256 * bool * uint8 * bytes32 :=
  let verification := (verifications s).[(_identityDID, _platformId)] in
  (PlatformVerification.platformUserId verification,
   PlatformVerification.verifiedAt verification,
   PlatformVerification.expiresAt verification,
   PlatformVerification.isActive verification,
   PlatformVerification.trustScore verification,
   PlatformVerification.attestationHash verification).

Definition getPlatform (s : State) (_platformId : bytes32)
    : string * string * address * bool * uint256 * uint256 * PlatformType :=
  let platform := (platforms s).[_platformId] in
  (Platform.name platform, Platform.domain platform, Platform.adminAddress platform,
   Platform.isActive platform, Platform.registeredAt platform,
   Platform.totalVerifications platform, Platform.platformType platform).

Definition getPlatformVerifiedIdentities (s : State) (_platformId : bytes32) : list bytes32 :=
  (platformVerifiedIdentities s).[_platformId].

(** *** Role administration *)

(** Modelled from the spec: [grant(role, principal)] of §4.1. *)
Definition grantRole (e : Env) (role : Role) (account : address) (s : State) : result State :=
  REQUIRE (hasRole s (AccessControl.getRoleAdmin role) (msg_sender e)) ELSE Unauthorized ;;
  Ok (if hasRole s role account then s
      else set_roles (AccessControl._grantRole role account (_roles s)) s).

(** Modelled from the spec: [revoke(role, principal)] of §4.1. *)
Definition revokeRole (e : Env) (role : Role) (account : address) (s : State) : result State :=
  REQUIRE (hasRole s (AccessControl.getRoleAdmin role) (msg_sender e)) ELSE Unauthorized ;;
  Ok (if hasRole s role account
      then set_roles (AccessControl._revokeRole role account (_roles s)) s
      else s).

(** Modelled from the spec: a principal giving up its own role (§4.1). *)
Definition renounceRole (e : Env) (role : Role) (callerConfirmation : address)
    (s : State) : result State :=
  REQUIRE (callerConfirmation =? msg_sender e) ELSE BadConfirmation ;;
  Ok (if hasRole s role callerConfirmation
      then set_roles (AccessControl._revokeRole role callerConfirmation (_roles s)) s
      else s).

(** *** The transaction system *)

Inductive Op :=
  | Call_registerPlatform (_name _domain : string) (_platformType : PlatformType)
  | Call_createVerification (_identityDID _platformId : bytes32) (_platformUserId : string)
      (_expirationDays : uint256) (_attestationHash : bytes32)
  | Call_revokeVerification (_identityDID _platformId : bytes32)
  | Call_updateTrustScore (_identityDID _platformId : bytes32) (_newScore : uint8)
  | Call_deactivatePlatform (_platformId : bytes32)
  | Call_grantRole (role : Role) (account : address)
  | Call_revokeRole (role : Role) (account : address)
  | Call_renounceRole (role : Role) (callerConfirmation : address).

Definition step (e : Env) (op : Op) (s : State) : result State :=
  match op with
  | Call_registerPlatform n d t => bind (registerPlatform e n d t s) (fun r => Ok (snd r))
  | Call_createVerification i p u d a => createVerification e i p u d a s
  | Call_revokeVerification i p => revokeVerification e i p s
  | Call_updateTrustScore i p n => updateTrustScore e i p n s
  | Call_deactivatePlatform p => deactivatePlatform e p s
  | Call_grantRole r a => grantRole e r a s
  | Call_revokeRole r a => revokeRole e r a s
  | Call_renounceRole r a => renounceRole e r a s
  end.

Inductive reachable : State → Prop :=
  | reachable_deploy (deployer : address) :
      deployer ≠ 0 → reachable (constructor deployer)
  | reachable_step (s s' : State) (e : Env) (op : Op) :
      reachable s → msg_sender e ≠ 0 → step e op s = Ok s' → reachable s'.

Fixpoint run (txs : list (Env * Op)) (s : State) : result State :=
  match txs with
  | [] => Ok s
  | (e, op) :: txs' => bind (step e op s) (run txs')
  end.

End Contract.

End PlatformRegistry.

(** ** Specification-level notions *)

(** A stand-in for the DID hash, used to run concrete transaction
    sequences: the triple, encoded as a positive number. *)
Definition keccak_model (h : bytes32) (a : address) (t : uint256) : bytes32 :=
  Npos (encode (h, a, t)).

(** A stand-in for the platform hash. [abi.encodePacked] writes the bytes
    of the name, the bytes of the domain and the 32 bytes of the timestamp
    one after the other, with no length and no separator between the two
    strings: the hashed bytes are given by the concatenation of name and
    domain together with the timestamp, and the stand-in is the encoding of
    that pair. *)
Definition keccak_platform_model (n d : string) (t : uint256) : bytes32 :=
  Npos (encode ((n ++ d)%string, t)).

(** A platform hash is a function of the packed bytes: two names and
    domains with the same concatenation give the same id at the same
    time. *)
Definition hashes_packed_bytes (keccak256 : string → string → uint256 → bytes32) : Prop :=
  ∀ n d n' d' t, (n ++ d)%string = (n' ++ d')%string → keccak256 n d t = keccak256 n' d' t.


(** What §4.5 says of [batchVerificationCheck]: the validity rule of
    [isVerificationValid] applied to each element, in input order. *)
Definition batchVerificationCheck_spec (e : Env) (s : PlatformRegistry.State)
    (_identityDIDs : list bytes32) (_platformId : bytes32) : list bool :=
  map (fun did => PlatformRegistry.isVerificationValid e s did _platformId) _identityDIDs.

(** The distinct guardians of [did] whose approval flag is set. *)
Definition approvers (s : Registry.State) (did : bytes32) : gset address :=
  filter (fun a => (Registry.recoveryApprovals s).[(did, a)] = true)
         (list_to_set (Registry.guardians s).[did]).

(** The recovery bookkeeping is consistent: only guardians carry an
    approval flag, the counter is the number of distinct approvers, and no
    flag is set while no request is pending. *)
Definition recovery_inv (s : Registry.State) : Prop :=
  ∀ did,
    (∀ a, (Registry.recoveryApprovals s).[(did, a)] = true →
          a ∈ (Registry.guardians s).[did])
    ∧ (Registry.recoveryApprovalCount s).[did] = N.of_nat (size (approvers s did))
    ∧ ((Registry.pendingRecoveryAddress s).[did] = 0 →
       ∀ a, (Registry.recoveryApprovals s).[(did, a)] = false).

(** The storage of [approveRecovery] after its guards and before the
    quorum test: the caller's flag is set and the counter incremented. *)
Definition recordApproval (e : Env) (did : bytes32) (s : Registry.State) : Registry.State :=
  Registry.set_recoveryApprovalCount
    (<[did := (Registry.recoveryApprovalCount s).[did] + 1]> (Registry.recoveryApprovalCount s))
    (Registry.set_recoveryApprovals
       (<[(did, msg_sender e) := true]> (Registry.recoveryApprovals s)) s).

(** The part of the storage that the recovery protocol reads and writes. *)
Definition recovery_fields (s : Registry.State) :=
  (Registry.guardians s, Registry.recoveryApprovals s,
   Registry.pendingRecoveryAddress s, Registry.recoveryApprovalCount s).

(** The highest verification type among all records, valid or not. *)
Definition maxType (vs : list Registry.Verification) : uint256 :=
  foldr (fun v m => N.max (Registry.verificationType v) m) 0 vs.

(** The highest verification type among the records still valid. *)
Definition maxValidType (vs : list Registry.Verification) : uint256 :=
  foldr (fun v m => if Registry.isValid v then N.max (Registry.verificationType v) m else m) 0 vs.

(** The level of every identity is the highest type ever recorded for it. *)
Definition level_inv (s : Registry.State) : Prop :=
  ∀ did, Registry.verificationLevel (Registry.identities s).[did]
         = maxType (Registry.verifications s).[did].

(** Every DID that is active or carries verification records is one of
    the DIDs [ids] that [createIdentity] has returned. *)
Definition created_inv (s : Registry.State) (ids : list bytes32) : Prop :=
  ∀ did,
    Registry.isActive (Registry.identities s).[did] = true
    ∨ (Registry.verifications s).[did] ≠ [] →
    did ∈ ids.


(** The DID that a transaction creates, if it is a [createIdentity]. *)
Definition created_by (keccak256 : bytes32 → address → uint256 → bytes32)
    (e : Env) (op : Registry.Op) : list bytes32 :=
  match op with
  | Registry.Call_createIdentity h _ => [keccak256 h (msg_sender e) (block_timestamp e)]
  | _ => []
  end.


(** The DIDs returned by the successful [createIdentity] calls of a
    transaction sequence, in order, up to its first revert. *)
Fixpoint created_ids (keccak256 : bytes32 → address → uint256 → bytes32)
    (txs : list (Env * Registry.Op)) (s : Registry.State) : list bytes32 :=
  match txs with
  | [] => []
  | (e, op) :: txs' =>
      match op with
      | Registry.Call_createIdentity h ipfs =>
          match Registry.createIdentity keccak256 e h ipfs s with
          | Ok (did, s') => did :: created_ids keccak256 txs' s'
          | Err _ => []
          end
      | _ =>
          match Registry.step keccak256 e op s with
          | Ok s' => created_ids keccak256 txs' s'
          | Err _ => []
          end
      end
  end.

(** *** The deployed system *)

(** The deployment script deploys one instance of each contract. *)
Record System := {
  registry : Registry.State;
  platform : PlatformRegistry.State
}.

Inductive SystemOp :=
  | RegistryCall (op : Registry.Op)
  | PlatformCall (op : PlatformRegistry.Op).

(** A transaction sent to one of the two contracts. *)
Definition system_step (e : Env) (op : SystemOp) (sys : System) : result System :=
  match op with
  | RegistryCall op =>
      bind (Registry.step keccak_model e op (registry sys))
           (fun r => Ok {| registry := r; platform := platform sys |})
  | PlatformCall op =>
      bind (PlatformRegistry.step keccak_platform_model e op (platform sys))
           (fun p => Ok {| registry := registry sys; platform := p |})
  end.

(** The only pause flag of the system is the one of the identity registry. *)
Definition system_paused (sys : System) : bool := Registry.paused (registry sys).

(** The entry points that carry the [whenNotPaused] modifier. *)
Definition pause_gated (op : Registry.Op) : bool :=
  match op with
  | Registry.Call_createIdentity _ _
  | Registry.Call_updateIdentity _ _
  | Registry.Call_addVerification _ _ _ => true
  | _ => false
  end.

(** *** Concrete transaction sequences *)

Definition tx {Op : Type} (sender : address) (time : uint256) (op : Op) : Env * Op :=
  ({| msg_sender := sender; block_timestamp := time |}, op).

(** Every transaction of the list has a sender other than the zero address. *)
Definition senders_nonzero {Op : Type} (txs : list (Env * Op)) : bool :=
  forallb (fun t => negb (msg_sender (fst t) =? 0)) txs.

(** The registry after deployment by account 100 and the transactions
    [txs], or the freshly deployed registry if one of them reverts. *)
Definition registry_after (txs : list (Env * Registry.Op)) : Registry.State :=
  match Registry.run keccak_model txs (Registry.constructor 100) with
  | Ok s => s
  | Err _ => Registry.constructor 100
  end.

(** The DID that account 1 obtains for identity hash 11 at time 1000. *)
Definition did_A : bytes32 := keccak_model 11 1 1000.

(** The DID that account 2 obtains for identity hash 12 at time 1001. *)
Definition did_B : bytes32 := keccak_model 12 2 1001.

(** Account 1 creates identity A and names the guardians 21, 22 and 23;
    guardian 21 opens a recovery in favour of account 2. *)
Definition three_guardians_pending : list (Env * Registry.Op) :=
  [ tx 1 1000 (Registry.Call_createIdentity 11 "QmA");
    tx 1 1002 (Registry.Call_addGuardian did_A 21);
    tx 1 1003 (Registry.Call_addGuardian did_A 22);
    tx 1 1004 (Registry.Call_addGuardian did_A 23);
    tx 21 1005 (Registry.Call_initiateRecovery did_A 2) ].

(** Guardian 22 then approves: the second of three guardians. *)
Definition three_guardians_second_approval : list (Env * Registry.Op) :=
  three_guardians_pending ++ [ tx 22 1006 (Registry.Call_approveRecovery did_A) ].

(** Account 1 creates identity A and names the guardians 21 and 22;
    guardian 21 opens a recovery in favour of account 2. *)
Definition two_guardians_pending : list (Env * Registry.Op) :=
  [ tx 1 1000 (Registry.Call_createIdentity 11 "QmA");
    tx 1 1002 (Registry.Call_addGuardian did_A 21);
    tx 1 1003 (Registry.Call_addGuardian did_A 22);
    tx 21 1005 (Registry.Call_initiateRecovery did_A 2) ].

(** While that request is pending the owner names two more guardians. *)
Definition two_guardians_pending_then_two_more : list (Env * Registry.Op) :=
  two_guardians_pending ++
  [ tx 1 1006 (Registry.Call_addGuardian did_A 23);
    tx 1 1007 (Registry.Call_addGuardian did_A 24) ].

(** Account 1 creates identity A and names guardian 21 three times and
    guardian 22 twice; guardian 21 opens a recovery request in favour of
    account 2. *)
Definition duplicated_guardians_pending : list (Env * Registry.Op) :=
  [ tx 1 1000 (Registry.Call_createIdentity 11 "QmA");
    tx 1 1001 (Registry.Call_addGuardian did_A 21);
    tx 1 1002 (Registry.Call_addGuardian did_A 21);
    tx 1 1003 (Registry.Call_addGuardian did_A 21);
    tx 1 1004 (Registry.Call_addGuardian did_A 22);
    tx 1 1005 (Registry.Call_addGuardian did_A 22);
    tx 21 1006 (Registry.Call_initiateRecovery did_A 2) ].

(** Account 1 creates identity A, then the administrator pauses the
    registry. *)
Definition identity_then_pause : list (Env * Registry.Op) :=
  [ tx 1 1000 (Registry.Call_createIdentity 11 "QmA");
    tx 100 1001 Registry.Call_pause ].

(** The paused registry next to a freshly deployed platform registry. *)
Definition paused_system : System :=
  {| registry := registry_after identity_then_pause;
     platform := PlatformRegistry.constructor 100 |}.

(** Account 1 creates identity A; the administrator makes account 50 a
    verifier; the verifier records a government-id verification (type 3)
    and later revokes it. *)
Definition verification_added_then_revoked : list (Env * Registry.Op) :=
  [ tx 1 1000 (Registry.Call_createIdentity 11 "QmA");
    tx 100 1001 (Registry.Call_grantRole VERIFIER_ROLE 50);
    tx 50 1002 (Registry.Call_addVerification did_A 3 77);
    tx 50 1003 (Registry.Call_revokeVerification did_A 0) ].

(** Accounts 1 and 2 each create an identity (A and B). The guardians 21
    and 22 of identity A then recover it in favour of account 2, which
    already owns identity B. *)
Definition recovery_to_bound_owner : list (Env * Registry.Op) :=
  [ tx 1 1000 (Registry.Call_createIdentity 11 "QmA");
    tx 2 1001 (Registry.Call_createIdentity 12 "QmB");
    tx 1 1002 (Registry.Call_addGuardian did_A 21);
    tx 1 1003 (Registry.Call_addGuardian did_A 22);
    tx 21 1004 (Registry.Call_initiateRecovery did_A 2);
    tx 22 1005 (Registry.Call_approveRecovery did_A) ].

(** Account 1 creates identity A. *)
Definition identity_created : list (Env * Registry.Op) :=
  [ tx 1 1000 (Registry.Call_createIdentity 11 "QmA") ].

(** Account 1 creates identity A and revokes it. *)
Definition identity_created_then_revoked : list (Env * Registry.Op) :=
  [ tx 1 1000 (Registry.Call_createIdentity 11 "QmA");
    tx 1 1001 (Registry.Call_revokeIdentity did_A) ].

(** The platform registry after deployment by account 100 and the
    transactions [txs], or the freshly deployed one if one of them reverts. *)
Definition platform_after (txs : list (Env * PlatformRegistry.Op)) : PlatformRegistry.State :=
  match PlatformRegistry.run keccak_platform_model txs (PlatformRegistry.constructor 100) with
  | Ok s => s
  | Err _ => PlatformRegistry.constructor 100
  end.

(** The id of the platform registered at time 1000 for "example.com". *)
Definition pid_X : bytes32 := keccak_platform_model "Example" "example.com" 1000.

(** The administrator registers the platform and verifies identity A on
    it for one day. *)
Definition verified_for_one_day : list (Env * PlatformRegistry.Op) :=
  [ tx 100 1000 (PlatformRegistry.Call_registerPlatform
                   "Example" "example.com" PlatformRegistry.SocialMedia);
    tx 100 1001 (PlatformRegistry.Call_createVerification did_A pid_X "user-1" 1 99) ].

(** The platform is then deactivated. *)
Definition verified_then_deactivated : list (Env * PlatformRegistry.Op) :=
  verified_for_one_day ++ [ tx 100 1002 (PlatformRegistry.Call_deactivatePlatform pid_X) ].

(** *** Notions used by the further properties *)

(** A revoked identity is not active. *)
Definition flags_inv (s : Registry.State) : Prop :=
  ∀ did, Registry.isRevoked (Registry.identities s).[did] = true →
         Registry.isActive (Registry.identities s).[did] = false.

(** What a verification record attests: everything but its validity flag. *)
Definition attestation (v : Registry.Verification)
    : address * uint256 * uint8 * bytes32 :=
  (Registry.verifier v, Registry.timestamp v, Registry.verificationType v,
   Registry.proofHash v).

(** The validity flags of [vs'] are those of [vs], except that some may
    have gone from true to false. *)
Definition validity_only_lost (vs vs' : list Registry.Verification) : Prop :=
  ∀ i v v', vs !! i = Some v → vs' !! i = Some v' →
            Registry.isValid v' = true → Registry.isValid v = true.

(** The counter of identities agrees with the table of used hashes: the
    table has one entry per created identity, and every entry is [true]. *)
Definition totalIdentities_inv (s : Registry.State) : Prop :=
  Registry.totalIdentities s = N.of_nat (size (Registry.identityHashExists s))
  ∧ ∀ h b, Registry.identityHashExists s !! h = Some b → b = true.

(** The platform hash never produces the null id [bytes32(0)]. *)
Definition platform_never_null (keccak256 : string → string → uint256 → bytes32) : Prop :=
  ∀ n d t, keccak256 n d t ≠ 0.

(** The expiry that [createVerification] computes at time [now]. *)
Definition expiry (now _expirationDays : uint256) : uint256 :=
  if 0 <? _expirationDays then now + _expirationDays * PlatformRegistry.ONE_DAY else 0.

(** The ids returned by the successful [registerPlatform] calls of a
    transaction sequence, in order, up to its first revert. *)
Fixpoint registered_ids (keccak256 : string → string → uint256 → bytes32)
    (txs : list (Env * PlatformRegistry.Op)) (s : PlatformRegistry.State) : list bytes32 :=
  match txs with
  | [] => []
  | (e, op) :: txs' =>
      match op with
      | PlatformRegistry.Call_registerPlatform n d ty =>
          match PlatformRegistry.registerPlatform keccak256 e n d ty s with
          | Ok (pid, s') => pid :: registered_ids keccak256 txs' s'
          | Err _ => []
          end
      | _ =>
          match PlatformRegistry.step keccak256 e op s with
          | Ok s' => registered_ids keccak256 txs' s'
          | Err _ => []
          end
      end
  end.

(** The platform id that a transaction registers, if it is a
    [registerPlatform]. *)
Definition registered_by (keccak256 : string → string → uint256 → bytes32)
    (e : Env) (op : PlatformRegistry.Op) : list bytes32 :=
  match op with
  | PlatformRegistry.Call_registerPlatform n d _ => [keccak256 n d (block_timestamp e)]
  | _ => []
  end.

(** The per-platform counter agrees with the list of the platform, and a
    platform that is active or has a list is one of the platforms [ids]
    that [registerPlatform] has returned. *)
Definition platform_counter_inv (s : PlatformRegistry.State) (ids : list bytes32) : Prop :=
  ∀ pid,
    PlatformRegistry.Platform.totalVerifications (PlatformRegistry.platforms s).[pid]
      = N.of_nat (length (PlatformRegistry.platformVerifiedIdentities s).[pid])
    ∧ (PlatformRegistry.Platform.isActive (PlatformRegistry.platforms s).[pid] = true
       ∨ (PlatformRegistry.platformVerifiedIdentities s).[pid] ≠ [] →
       pid ∈ ids).

(** The administrator verifies identity A and then identity B under the
    same platform user id. *)
Definition two_identities_one_user : list (Env * PlatformRegistry.Op) :=
  verified_for_one_day ++
  [ tx 100 1002 (PlatformRegistry.Call_createVerification did_B pid_X "user-1" 0 98) ].

(** The id derived at time 1000 from the name "ab" and the domain "c". *)
Definition pid_ab_c : bytes32 := keccak_platform_model "ab" "c" 1000.

(** The deployer makes account 8 a platform administrator and registers
    the platform "ab" under the domain "c"; in the same block identity A is
    verified on it. *)
Definition platform_ab_c_verified : list (Env * PlatformRegistry.Op) :=
  [ tx 100 999 (PlatformRegistry.Call_grantRole PLATFORM_ADMIN_ROLE 8);
    tx 100 1000 (PlatformRegistry.Call_registerPlatform "ab" "c" PlatformRegistry.SocialMedia);
    tx 100 1000 (PlatformRegistry.Call_createVerification did_A pid_ab_c "user-1" 0 99) ].

(** * Properties *)

(** ** Storage reads after writes *)

Section Sload.
Context `{Countable K} {V : Type} `{ZeroValue V}.
Implicit Types (m : gmap K V) (k : K) (v : V).

Lemma sload_empty k : (∅ : gmap K V).[k] = zero.
Proof. unfold sload. by rewrite lookup_empty. Qed.

Lemma sload_insert_eq m k v : (<[k := v]> m).[k] = v.
Proof. unfold sload. by rewrite lookup_insert_eq. Qed.

Lemma sload_insert_ne m k k' v : k ≠ k' → (<[k := v]> m).[k'] = m.[k'].
Proof. intros. unfold sload. by rewrite lookup_insert_ne. Qed.

Lemma sload_insert m k k' v :
  (<[k := v]> m).[k'] = if decide (k = k') then v else m.[k'].
Proof.
  case_decide as Hk; [subst; apply sload_insert_eq | by apply sload_insert_ne].
Qed.

Lemma sload_delete_eq m k : (delete k m).[k] = zero.
Proof. unfold sload. by rewrite lookup_delete_eq. Qed.

Lemma sload_delete_ne m k k' : k ≠ k' → (delete k m).[k'] = m.[k'].
Proof. intros. unfold sload. by rewrite lookup_delete_ne. Qed.

Lemma sload_delete m k k' :
  (delete k m).[k'] = if decide (k = k') then zero else m.[k'].
Proof.
  case_decide as Hk; [subst; apply sload_delete_eq | by apply sload_delete_ne].
Qed.

End Sload.

Lemma require_ok {A} (c : bool) (e : Error) (k : result A) (a : A) :
  require c e k = Ok a → c = true ∧ k = Ok a.
Proof. destruct c; simpl; [done | discriminate]. Qed.

Lemma checked_ok {A} (o : option uint256) (k : uint256 → result A) (a : A) :
  checked o k = Ok a → ∃ n, o = Some n ∧ k n = Ok a.
Proof. destruct o as [n|]; simpl; [eauto | discriminate]. Qed.

Lemma checked_add_Some (a b n : uint256) :
  checked_add a b = Some n → n = a + b ∧ a + b ≤ MAX_UINT256.
Proof.
  unfold checked_add. destruct (N.leb_spec (a + b) MAX_UINT256); [|discriminate].
  intros Heq. injection Heq as Heq. by subst.
Qed.

Lemma checked_add_fits (a b : uint256) :
  a + b ≤ MAX_UINT256 → checked_add a b = Some (a + b).
Proof.
  intros Hle. unfold checked_add. by destruct (N.leb_spec (a + b) MAX_UINT256); [|lia].
Qed.

(** ** Platform verification validity *)

(** C7: [isVerificationValid] answers true exactly when the record is
    active and either never expires ([expiresAt = 0]) or the query time is
    not past [expiresAt]; an expired record is invalid without any
    revocation. *)
Theorem isVerificationValid_iff (e : Env) (s : PlatformRegistry.State)
    (_identityDID _platformId : bytes32) :
  let record := (PlatformRegistry.verifications s).[(_identityDID, _platformId)] in
  (PlatformRegistry.isVerificationValid e s _identityDID _platformId = true ↔
     PlatformRegistry.PlatformVerification.isActive record = true ∧
     (PlatformRegistry.PlatformVerification.expiresAt record = 0 ∨
      block_timestamp e ≤ PlatformRegistry.PlatformVerification.expiresAt record))
  ∧ (PlatformRegistry.PlatformVerification.expiresAt record ≠ 0 →
     PlatformRegistry.PlatformVerification.expiresAt record < block_timestamp e →
     PlatformRegistry.isVerificationValid e s _identityDID _platformId = false).
Proof.
  intros record. unfold PlatformRegistry.isVerificationValid. fold record.
  destruct (PlatformRegistry.PlatformVerification.isActive record); simpl.
  2: { split; [split; [done | by intros [? _]] | done]. }
  destruct (N.ltb_spec 0 (PlatformRegistry.PlatformVerification.expiresAt record))
    as [Hpos|Hzero]; simpl.
  - destruct (N.ltb_spec (PlatformRegistry.PlatformVerification.expiresAt record)
                (block_timestamp e)) as [Hpast|Hnot].
    + split; [split; [done | intros [_ [Hx|Hx]]; lia] | done].
    + split; [split; [intros _; split; [done | right; lia] | done] | lia].
  - split; [split; [intros _; split; [done | left; lia] | done] | lia].
Qed.

(** C7, witness: the one-day verification of identity A is invalid once
    the day has passed, without any revocation. *)
Lemma isVerificationValid_iff_witness :
  PlatformRegistry.isVerificationValid {| msg_sender := 5; block_timestamp := 200000 |}
    (platform_after verified_for_one_day) did_A pid_X = false.
Proof.
  apply (isVerificationValid_iff {| msg_sender := 5; block_timestamp := 200000 |}
           (platform_after verified_for_one_day) did_A pid_X).
  - vm_compute; discriminate.
  - vm_compute; reflexivity.
Defined.

(** ** Batch verification check *)

(** One iteration of the loop body computes the validity of one record. *)
Lemma batch_body_isVerificationValid (e : Env) (s : PlatformRegistry.State)
    (did pid : bytes32) :
  (let verification := (PlatformRegistry.verifications s).[(did, pid)] in
   let isValid := PlatformRegistry.PlatformVerification.isActive verification in
   if (0 <? PlatformRegistry.PlatformVerification.expiresAt verification)
      && (PlatformRegistry.PlatformVerification.expiresAt verification <? block_timestamp e)
   then false else isValid)
  = PlatformRegistry.isVerificationValid e s did pid.
Proof.
  unfold PlatformRegistry.isVerificationValid. simpl.
  destruct (PlatformRegistry.PlatformVerification.isActive _); simpl; [done|].
  by destruct (_ && _).
Qed.

(** The loop invariant: once the first [i] cells agree with the
    per-element rule, the loop fills in the remaining ones. *)
Lemma batch_loop_invariant (e : Env) (s : PlatformRegistry.State)
    (ids : list bytes32) (pid : bytes32) (fuel i : nat) (results : list bool) :
  length results = length ids →
  (length ids ≤ i + fuel)%nat →
  take i results = take i (batchVerificationCheck_spec e s ids pid) →
  PlatformRegistry.batchVerificationCheck_loop fuel e s ids pid i results
  = batchVerificationCheck_spec e s ids pid.
Proof.
  revert i results. induction fuel as [|fuel IH]; intros i results Hlen Hfuel Hpre.
  - simpl. rewrite !take_ge in Hpre; [done | |].
    + unfold batchVerificationCheck_spec. rewrite length_map. lia.
    + lia.
  - simpl. destruct (Nat.ltb_spec i (length ids)) as [Hi|Hi].
    + destruct (lookup_lt_is_Some_2 ids i Hi) as [did Hdid].
      rewrite Hdid. simpl.
      pose proof (batch_body_isVerificationValid e s did pid) as Hbody.
      simpl in Hbody. rewrite Hbody.
      apply IH; [by rewrite length_insert | lia |].
      assert (Hspec : batchVerificationCheck_spec e s ids pid !! i
                      = Some (PlatformRegistry.isVerificationValid e s did pid)).
      { unfold batchVerificationCheck_spec. by rewrite list_lookup_fmap, Hdid. }
      rewrite (take_S_r _ _ _ Hspec).
      assert (Hins : <[i := PlatformRegistry.isVerificationValid e s did pid]> results !! i
                     = Some (PlatformRegistry.isVerificationValid e s did pid)).
      { apply list_lookup_insert_eq. lia. }
      rewrite (take_S_r _ _ _ Hins).
      rewrite take_insert_ge by lia. by rewrite Hpre.
    + rewrite !take_ge in Hpre; [done | |].
      * unfold batchVerificationCheck_spec. rewrite length_map. lia.
      * lia.
Qed.

(** C9: [batchVerificationCheck] returns an array as long as its input
    whose [i]-th cell is [isVerificationValid] of the [i]-th identity at
    the same time, in input order; a false cell has no effect on the cells
    after it. *)
Theorem batchVerificationCheck_refines_spec (e : Env) (s : PlatformRegistry.State)
    (_identityDIDs : list bytes32) (_platformId : bytes32) :
  PlatformRegistry.batchVerificationCheck e s _identityDIDs _platformId
    = batchVerificationCheck_spec e s _identityDIDs _platformId
  ∧ length (PlatformRegistry.batchVerificationCheck e s _identityDIDs _platformId)
    = length _identityDIDs
  ∧ ∀ (i : nat) (did : bytes32),
      _identityDIDs !! i = Some did →
      PlatformRegistry.batchVerificationCheck e s _identityDIDs _platformId !! i
      = Some (PlatformRegistry.isVerificationValid e s did _platformId).
Proof.
  assert (Heq : PlatformRegistry.batchVerificationCheck e s _identityDIDs _platformId
                = batchVerificationCheck_spec e s _identityDIDs _platformId).
  { unfold PlatformRegistry.batchVerificationCheck.
    apply batch_loop_invariant; [by rewrite length_replicate | lia | done]. }
  rewrite Heq. unfold batchVerificationCheck_spec.
  split; [done|]. split; [by rewrite length_map|].
  intros i did Hdid. by rewrite list_lookup_fmap, Hdid.
Qed.

(** C9, witness: the second cell of a batch over identities A and B. *)
Lemma batchVerificationCheck_refines_spec_witness :
  PlatformRegistry.batchVerificationCheck {| msg_sender := 5; block_timestamp := 2000 |}
    (platform_after verified_for_one_day) [did_A; did_B] pid_X !! 1%nat
  = Some (PlatformRegistry.isVerificationValid {| msg_sender := 5; block_timestamp := 2000 |}
            (platform_after verified_for_one_day) did_B pid_X).
Proof.
  apply (batchVerificationCheck_refines_spec {| msg_sender := 5; block_timestamp := 2000 |}
           (platform_after verified_for_one_day) [did_A; did_B] pid_X).
  reflexivity.
Defined.

(** ** Reading a successful call backwards *)

Ltac inv_ok H :=
  repeat match type of H with
    | require _ _ _ = Ok _ =>
        let Hreq := fresh "Hreq" in
        apply require_ok in H; destruct H as [Hreq H]
    | checked _ _ = Ok _ =>
        let n := fresh "n" in
        let Hchk := fresh "Hchk" in
        apply checked_ok in H; destruct H as (n & Hchk & H)
    | bind _ _ = Ok _ => unfold bind in H
    | _ => progress cbv zeta in H
    end.

Ltac sload_simpl :=
  repeat first
    [ rewrite sload_insert_eq
    | rewrite sload_delete_eq
    | rewrite sload_insert_ne by congruence
    | rewrite sload_delete_ne by congruence
    | rewrite sload_empty ].

(** Closing a conjunction of closed facts by evaluation. *)
Ltac by_evaluation :=
  cbv zeta;
  repeat match goal with
    | |- _ ∧ _ => split
    | |- ∃ _, _ => eexists
    end;
  vm_compute; first [reflexivity | discriminate].

(** ** Ownership check *)

(** C6: [verifyOwnership(id, p)] is true exactly when [p] is the owner
    field of the identity, the identity is active and it is not revoked.
    This is a fact of every state; in particular it holds after
    [revokeIdentity], where the check fails for every principal, and
    after a call of [approveRecovery] that completes a recovery, where it
    holds for the new owner of an active identity. *)
Theorem verifyOwnership_iff (s : Registry.State) (_did : bytes32) (p : address) :
  (Registry.verifyOwnership s _did p = true ↔
     Registry.owner (Registry.identities s).[_did] = p ∧
     Registry.isActive (Registry.identities s).[_did] = true ∧
     Registry.isRevoked (Registry.identities s).[_did] = false)
  ∧ (∀ e s', Registry.revokeIdentity e _did s = Ok s' →
       Registry.isRevoked (Registry.identities s').[_did] = true ∧
       Registry.verifyOwnership s' _did p = false)
  ∧ (∀ e s', Registry.approveRecovery e _did s = Ok s' →
       Registry.owner (Registry.identities s').[_did] ≠
         Registry.owner (Registry.identities s).[_did] →
       Registry.verifyOwnership s' _did p =
         ((Registry.pendingRecoveryAddress s).[_did] =? p)
         && Registry.isActive (Registry.identities s).[_did]
         && negb (Registry.isRevoked (Registry.identities s).[_did])).
Proof.
  split; [|split].
  - unfold Registry.verifyOwnership.
    destruct (N.eqb_spec (Registry.owner (Registry.identities s).[_did]) p);
      destruct (Registry.isActive _), (Registry.isRevoked _); simpl;
      intuition congruence.
  - intros e s' Hrev. unfold Registry.revokeIdentity in Hrev. inv_ok Hrev.
    injection Hrev as <-. unfold Registry.verifyOwnership. simpl. sload_simpl. simpl.
    split; [done|]. by rewrite andb_false_r.
  - intros e s' Happ Howner. unfold Registry.approveRecovery in Happ. inv_ok Happ.
    simpl in Happ. rewrite sload_insert_eq in Happ.
    destruct (Registry.requiredApprovals _ _ <=? n).
    + injection Happ as <-. unfold Registry.verifyOwnership. simpl. sload_simpl. done.
    + injection Happ as <-. simpl in Howner. done.
Qed.

(** C6, witness: the ownership check of identity A fails for its owner
    once the identity is revoked. *)
Lemma verifyOwnership_iff_witness :
  Registry.isRevoked
    (Registry.identities (registry_after identity_created_then_revoked)).[did_A] = true
  ∧ Registry.verifyOwnership (registry_after identity_created_then_revoked) did_A 1 = false.
Proof.
  apply (proj1 (proj2 (verifyOwnership_iff (registry_after identity_created) did_A 1))
           {| msg_sender := 1; block_timestamp := 1001 |}).
  vm_compute; reflexivity.
Defined.

(** ** The recovery bookkeeping *)

Lemma _isGuardian_scan_elem_of (gs : list address) (a : address) :
  Registry._isGuardian_scan gs a = true ↔ a ∈ gs.
Proof.
  induction gs as [|g gs IH]; simpl.
  - split; [discriminate | by intros ?%elem_of_nil].
  - destruct (N.eqb_spec g a) as [->|Hne].
    + split; [intros _; left | done].
    + rewrite IH, elem_of_cons. naive_solver.
Qed.

Lemma clearApprovals_sload (did : bytes32) (gs : list address)
    (m : gmap (bytes32 * address) bool) (d : bytes32) (a : address) :
  (Registry.clearApprovals did gs m).[(d, a)]
  = if decide (d = did ∧ a ∈ gs) then false else m.[(d, a)].
Proof.
  unfold Registry.clearApprovals. revert m.
  induction gs as [|g gs IH]; intros m; simpl.
  - case_decide as Hd; [|done]. destruct Hd as [_ Hin]. by apply elem_of_nil in Hin.
  - rewrite IH. rewrite sload_delete.
    repeat case_decide; try done; simplify_eq; set_solver.
Qed.

Lemma approvers_elem_of (s : Registry.State) (did : bytes32) (a : address) :
  a ∈ approvers s did ↔
  (Registry.recoveryApprovals s).[(did, a)] = true ∧ a ∈ (Registry.guardians s).[did].
Proof. unfold approvers. by rewrite elem_of_filter, elem_of_list_to_set. Qed.

(** The approver set depends on the recovery fields only. *)
Lemma recovery_inv_fields (s s' : Registry.State) :
  recovery_fields s' = recovery_fields s → recovery_inv s → recovery_inv s'.
Proof.
  unfold recovery_fields. intros Heq Hinv did.
  injection Heq as Hg Ha Hp Hc.
  specialize (Hinv did). unfold approvers in *.
  by rewrite Hg, Ha, Hp, Hc.
Qed.

Lemma approvers_none (s : Registry.State) (did : bytes32) :
  (∀ a, (Registry.recoveryApprovals s).[(did, a)] = false) →
  size (approvers s did) = 0%nat.
Proof.
  intros Hnone. apply size_empty_iff, elem_of_equiv_empty. intros a.
  rewrite approvers_elem_of, Hnone. by intros [? _].
Qed.

Lemma recovery_inv_constructor (deployer : address) :
  recovery_inv (Registry.constructor deployer).
Proof.
  intros did. simpl. split; [|split].
  - intros a. by rewrite sload_empty.
  - rewrite approvers_none; [by rewrite sload_empty|].
    intros a. simpl. by rewrite sload_empty.
  - intros _ a. by rewrite sload_empty.
Qed.

Lemma addGuardian_recovery_inv (e : Env) (did : bytes32) (g : address)
    (s s' : Registry.State) :
  Registry.addGuardian e did g s = Ok s' → recovery_inv s → recovery_inv s'.
Proof.
  intros Hcall Hinv. unfold Registry.addGuardian in Hcall. inv_ok Hcall.
  injection Hcall as <-. intros d. destruct (Hinv d) as (Hgs & Hcount & Hclear).
  assert (Hsame : approvers
            (Registry.set_guardians
               (<[did := (Registry.guardians s).[did] ++ [g]]> (Registry.guardians s)) s) d
          = approvers s d).
  { apply set_eq. intros a. rewrite !approvers_elem_of. simpl.
    rewrite sload_insert. case_decide as Hd; [subst d|done].
    rewrite elem_of_app. split; [|naive_solver].
    intros [Hflag _]. auto. }
  rewrite Hsame. simpl. split; [|done].
  intros a Hflag. rewrite sload_insert. case_decide; [subst d|auto].
  apply elem_of_app. auto.
Qed.

Lemma initiateRecovery_recovery_inv (e : Env) (did : bytes32) (newOwner : address)
    (s s' : Registry.State) :
  Registry.initiateRecovery e did newOwner s = Ok s' → recovery_inv s → recovery_inv s'.
Proof.
  intros Hcall Hinv. unfold Registry.initiateRecovery in Hcall. inv_ok Hcall.
  injection Hcall as <-.
  apply _isGuardian_scan_elem_of in Hreq.
  apply negb_true_iff, N.eqb_neq in Hreq0. apply N.eqb_eq in Hreq1.
  intros d. destruct (Hinv d) as (Hgs & Hcount & Hclear).
  destruct (decide (d = did)) as [->|Hd].
  - assert (Hone : approvers
            (Registry.set_recoveryApprovalCount
               (<[did := 1]> (Registry.recoveryApprovalCount s))
               (Registry.set_recoveryApprovals
                  (<[(did, msg_sender e) := true]> (Registry.recoveryApprovals s))
                  (Registry.set_pendingRecoveryAddress
                     (<[did := newOwner]> (Registry.pendingRecoveryAddress s)) s))) did
            = {[ msg_sender e ]}).
    { apply set_eq. intros a. rewrite approvers_elem_of, elem_of_singleton. simpl.
      rewrite sload_insert. case_decide as Ha.
      - injection Ha as <-. naive_solver.
      - rewrite (Hclear Hreq1 a). split; [by intros [? _] | intros ->; congruence]. }
    rewrite Hone, size_singleton. simpl. sload_simpl. split; [|split; [done|done]].
    intros a. rewrite sload_insert. case_decide as Ha; [by injection Ha as <- | auto].
  - assert (Hsame : approvers
            (Registry.set_recoveryApprovalCount
               (<[did := 1]> (Registry.recoveryApprovalCount s))
               (Registry.set_recoveryApprovals
                  (<[(did, msg_sender e) := true]> (Registry.recoveryApprovals s))
                  (Registry.set_pendingRecoveryAddress
                     (<[did := newOwner]> (Registry.pendingRecoveryAddress s)) s))) d
            = approvers s d).
    { apply set_eq. intros a. rewrite !approvers_elem_of. simpl.
      by rewrite sload_insert_ne by congruence. }
    rewrite Hsame. simpl. sload_simpl. split; [|split; [done|]].
    + intros a. rewrite sload_insert_ne by congruence. auto.
    + intros Hp a. rewrite sload_insert_ne by congruence. auto.
Qed.

(** [approveRecovery], with the intermediate storage named. *)
Lemma approveRecovery_unfold (e : Env) (did : bytes32) (s : Registry.State) :
  Registry.approveRecovery e did s =
  REQUIRE (Registry._isGuardian s did (msg_sender e)) ELSE NotGuardian ;;
  REQUIRE (negb ((Registry.pendingRecoveryAddress s).[did] =? 0)) ELSE NoRecoveryPending ;;
  REQUIRE (negb (Registry.recoveryApprovals s).[(did, msg_sender e)]) ELSE AlreadyApproved ;;
  REQUIRE ((Registry.recoveryApprovalCount s).[did] + 1 <=? MAX_UINT256) ELSE Panic ;;
  if Registry.requiredApprovals s did <=? (Registry.recoveryApprovalCount s).[did] + 1
  then Ok (Registry._executeRecovery e did (recordApproval e did s))
  else Ok (recordApproval e did s).
Proof.
  unfold Registry.approveRecovery, require, checked, checked_add.
  destruct (Registry._isGuardian _ _ _); [|done].
  destruct (negb (_ =? 0)); [|done].
  destruct (negb _); [|done]. simpl.
  destruct (_ <=? MAX_UINT256); [|done]. simpl.
  by rewrite sload_insert_eq.
Qed.

Lemma recordApproval_approvers (e : Env) (did : bytes32) (s : Registry.State) :
  msg_sender e ∈ (Registry.guardians s).[did] →
  approvers (recordApproval e did s) did = approvers s did ∪ {[ msg_sender e ]}.
Proof.
  intros Hg. apply set_eq. intros a.
  rewrite elem_of_union, elem_of_singleton, !approvers_elem_of. simpl.
  rewrite sload_insert. case_decide as Ha.
  - injection Ha as <-. naive_solver.
  - split; [auto | intros [?| ->]; [done | congruence]].
Qed.

Lemma recordApproval_approvers_ne (e : Env) (did d : bytes32) (s : Registry.State) :
  d ≠ did → approvers (recordApproval e did s) d = approvers s d.
Proof.
  intros Hd. apply set_eq. intros a. rewrite !approvers_elem_of. simpl.
  by rewrite sload_insert_ne by congruence.
Qed.

Lemma recordApproval_recovery_inv (e : Env) (did : bytes32) (s : Registry.State) :
  msg_sender e ∈ (Registry.guardians s).[did] →
  (Registry.recoveryApprovals s).[(did, msg_sender e)] = false →
  (Registry.pendingRecoveryAddress s).[did] ≠ 0 →
  recovery_inv s → recovery_inv (recordApproval e did s).
Proof.
  intros Hg Hflag Hpending Hinv d. destruct (Hinv d) as (Hgs & Hcount & Hclear).
  destruct (decide (d = did)) as [->|Hd].
  - rewrite recordApproval_approvers by done. simpl. sload_simpl.
    split; [|split; [|done]].
    + intros a. rewrite sload_insert. case_decide as Ha; [by injection Ha as <- | auto].
    + rewrite size_union, size_singleton; [lia|].
      apply disjoint_singleton_r. rewrite approvers_elem_of. intros [? _]. congruence.
  - rewrite recordApproval_approvers_ne by done. simpl. sload_simpl.
    split; [|split; [done|]].
    + intros a. rewrite sload_insert_ne by congruence. auto.
    + intros Hp a. rewrite sload_insert_ne by congruence. auto.
Qed.

Lemma _executeRecovery_flags (e : Env) (did : bytes32) (s : Registry.State)
    (d : bytes32) (a : address) :
  (Registry.recoveryApprovals (Registry._executeRecovery e did s)).[(d, a)]
  = if decide (d = did ∧ a ∈ (Registry.guardians s).[did]) then false
    else (Registry.recoveryApprovals s).[(d, a)].
Proof. unfold Registry._executeRecovery. simpl. apply clearApprovals_sload. Qed.

Lemma _executeRecovery_recovery_inv (e : Env) (did : bytes32) (s : Registry.State) :
  recovery_inv s → recovery_inv (Registry._executeRecovery e did s).
Proof.
  intros Hinv d. destruct (Hinv d) as (Hgs & Hcount & Hclear).
  assert (Hflags : d = did →
            ∀ a, (Registry.recoveryApprovals (Registry._executeRecovery e did s)).[(d, a)] = false).
  { intros -> a. rewrite _executeRecovery_flags. case_decide as Hc; [done|].
    destruct ((Registry.recoveryApprovals s).[(did, a)]) eqn:Hflag; [|done].
    destruct Hc. auto. }
  destruct (decide (d = did)) as [->|Hd].
  - split; [|split].
    + intros a. by rewrite Hflags.
    + rewrite approvers_none by auto. simpl. by sload_simpl.
    + auto.
  - assert (Hsame : ∀ a,
              (Registry.recoveryApprovals (Registry._executeRecovery e did s)).[(d, a)]
              = (Registry.recoveryApprovals s).[(d, a)]).
    { intros a. rewrite _executeRecovery_flags. case_decide as Hc; [|done]. by destruct Hc. }
    assert (Happ : approvers (Registry._executeRecovery e did s) d = approvers s d).
    { apply set_eq. intros a. rewrite !approvers_elem_of. by rewrite Hsame. }
    rewrite Happ. split; [|split].
    + intros a. rewrite Hsame. apply Hgs.
    + simpl. by sload_simpl.
    + simpl. sload_simpl. intros Hp a. rewrite Hsame. auto.
Qed.

Lemma approveRecovery_recovery_inv (e : Env) (did : bytes32) (s s' : Registry.State) :
  Registry.approveRecovery e did s = Ok s' → recovery_inv s → recovery_inv s'.
Proof.
  rewrite approveRecovery_unfold. intros Hcall Hinv. inv_ok Hcall.
  apply _isGuardian_scan_elem_of in Hreq.
  apply negb_true_iff, N.eqb_neq in Hreq0. apply negb_true_iff in Hreq1.
  pose proof (recordApproval_recovery_inv e did s Hreq Hreq1 Hreq0 Hinv) as Hrec.
  destruct (Registry.requiredApprovals s did <=? _); injection Hcall as <-; [|done].
  by apply _executeRecovery_recovery_inv.
Qed.

Lemma step_createIdentity_ok (keccak256 : bytes32 → address → uint256 → bytes32)
    (e : Env) (h : bytes32) (ipfs : string) (s s' : Registry.State) :
  Registry.step keccak256 e (Registry.Call_createIdentity h ipfs) s = Ok s' →
  Registry.createIdentity keccak256 e h ipfs s
  = Ok (keccak256 h (msg_sender e) (block_timestamp e), s').
Proof.
  simpl. destruct (Registry.createIdentity keccak256 e h ipfs s) as [[did s1]|err] eqn:Hc;
    simpl; [|discriminate].
  intros Hs. injection Hs as <-.
  unfold Registry.createIdentity in Hc. inv_ok Hc. by injection Hc as <- <-.
Qed.

(** The calls outside the recovery protocol leave its fields alone. *)
Lemma step_recovery_frame (keccak256 : bytes32 → address → uint256 → bytes32)
    (e : Env) (op : Registry.Op) (s s' : Registry.State) :
  Registry.step keccak256 e op s = Ok s' →
  match op with
  | Registry.Call_addGuardian _ _
  | Registry.Call_initiateRecovery _ _
  | Registry.Call_approveRecovery _ => True
  | _ => recovery_fields s' = recovery_fields s
  end.
Proof.
  intros Hstep. destruct op; try done.
  - apply step_createIdentity_ok in Hstep.
    unfold Registry.createIdentity in Hstep. inv_ok Hstep. by injection Hstep as <-.
  - simpl in Hstep. unfold Registry.updateIdentity in Hstep. inv_ok Hstep.
    by injection Hstep as <-.
  - simpl in Hstep. unfold Registry.addVerification in Hstep. inv_ok Hstep.
    injection Hstep as <-. by destruct (_ <? _).
  - simpl in Hstep. unfold Registry.revokeVerification in Hstep. inv_ok Hstep.
    by injection Hstep as <-.
  - simpl in Hstep. unfold Registry.revokeIdentity in Hstep. inv_ok Hstep.
    by injection Hstep as <-.
  - simpl in Hstep. unfold Registry.pause in Hstep. inv_ok Hstep.
    by injection Hstep as <-.
  - simpl in Hstep. unfold Registry.unpause in Hstep. inv_ok Hstep.
    by injection Hstep as <-.
  - simpl in Hstep. unfold Registry.grantRole in Hstep. inv_ok Hstep.
    injection Hstep as <-. by destruct (Registry.hasRole s role account).
  - simpl in Hstep. unfold Registry.revokeRole in Hstep. inv_ok Hstep.
    injection Hstep as <-. by destruct (Registry.hasRole s role account).
  - simpl in Hstep. unfold Registry.renounceRole in Hstep. inv_ok Hstep.
    injection Hstep as <-. by destruct (Registry.hasRole s role callerConfirmation).
Qed.

Lemma step_recovery_inv (keccak256 : bytes32 → address → uint256 → bytes32)
    (e : Env) (op : Registry.Op) (s s' : Registry.State) :
  Registry.step keccak256 e op s = Ok s' → recovery_inv s → recovery_inv s'.
Proof.
  intros Hstep Hinv. pose proof (step_recovery_frame _ _ _ _ _ Hstep) as Hframe.
  destruct op; try (by eapply recovery_inv_fields); simpl in Hstep.
  - by eapply addGuardian_recovery_inv.
  - by eapply initiateRecovery_recovery_inv.
  - by eapply approveRecovery_recovery_inv.
Qed.

(** In every reachable state the approval counter of an identity is the
    number of its distinct approving guardians. *)
Lemma reachable_recovery_inv (keccak256 : bytes32 → address → uint256 → bytes32)
    (s : Registry.State) :
  Registry.reachable keccak256 s → recovery_inv s.
Proof.
  induction 1 as [deployer _|s s' e op _ IH _ Hstep].
  - apply recovery_inv_constructor.
  - by eapply step_recovery_inv.
Qed.

(** ** Running transaction sequences *)

Lemma run_reachable (keccak256 : bytes32 → address → uint256 → bytes32)
    (txs : list (Env * Registry.Op)) (s s' : Registry.State) :
  Registry.reachable keccak256 s →
  senders_nonzero txs = true →
  Registry.run keccak256 txs s = Ok s' →
  Registry.reachable keccak256 s'.
Proof.
  revert s. induction txs as [|[e op] txs IH]; intros s Hs Hnz Hrun; simpl in *.
  - by injection Hrun as <-.
  - apply andb_true_iff in Hnz as [Hsender Hnz].
    apply negb_true_iff, N.eqb_neq in Hsender.
    destruct (Registry.step keccak256 e op s) as [s1|err] eqn:Hstep; simpl in Hrun;
      [|discriminate].
    apply (IH s1); [|done|done]. by eapply Registry.reachable_step.
Qed.

Lemma registry_after_reachable (txs : list (Env * Registry.Op)) :
  senders_nonzero txs = true →
  is_ok (Registry.run keccak_model txs (Registry.constructor 100)) = true →
  Registry.reachable keccak_model (registry_after txs).
Proof.
  intros Hnz Hok. unfold registry_after.
  destruct (Registry.run keccak_model txs (Registry.constructor 100)) as [s|err] eqn:Hrun;
    [|discriminate].
  eapply run_reachable; [|done|done]. by apply Registry.reachable_deploy.
Qed.

(** ** Recovery quorum *)

Lemma size_list_to_set_le (l : list address) :
  (size (list_to_set l : gset address) ≤ length l)%nat.
Proof.
  induction l as [|x l IH].
  - rewrite list_to_set_nil, size_empty. done.
  - rewrite list_to_set_cons, size_union_alt, size_singleton. simpl.
    pose proof (subseteq_size (list_to_set l ∖ {[x]}) (list_to_set l : gset address)) as Hle.
    assert (Hsub : list_to_set l ∖ {[x]} ⊆ (list_to_set l : gset address)) by set_solver.
    specialize (Hle Hsub). lia.
Qed.

(** A guardian who has not approved yet is not counted: the counter is
    below the length of the guardian array. *)
Lemma approvers_below_guardians (s : Registry.State) (did : bytes32) (a : address) :
  a ∈ (Registry.guardians s).[did] →
  (Registry.recoveryApprovals s).[(did, a)] = false →
  (size (approvers s did) < length (Registry.guardians s).[did])%nat.
Proof.
  intros Hg Hflag.
  pose proof (size_list_to_set_le (Registry.guardians s).[did]) as Hle.
  assert (Hsub : approvers s did ∪ {[a]} ⊆ list_to_set (Registry.guardians s).[did]).
  { intros x. rewrite elem_of_union, elem_of_singleton, approvers_elem_of,
      elem_of_list_to_set. intros [[_ ?]| ->]; done. }
  apply subseteq_size in Hsub. rewrite size_union, size_singleton in Hsub; [lia|].
  apply disjoint_singleton_r. rewrite approvers_elem_of. intros [? _]. congruence.
Qed.

(** C1 (as amended): in a reachable state with [N] guardians and [k]
    distinct approvers of the pending request, a further guardian's
    [approveRecovery] succeeds; when it brings the number of distinct
    approvals to ⌊N/2⌋+1 or more, that same call moves the ownership to
    the proposed owner, clears the pending request, resets the counter and
    clears every approval flag; when it leaves the number below ⌊N/2⌋+1,
    the owner and the pending request stay as they are and the caller
    joins the approvers. *)
Theorem approveRecovery_commits_at_quorum
    (keccak256 : bytes32 → address → uint256 → bytes32)
    (s : Registry.State) (e : Env) (did : bytes32) :
  Registry.reachable keccak256 s →
  Registry._isGuardian s did (msg_sender e) = true →
  (Registry.pendingRecoveryAddress s).[did] ≠ 0 →
  (Registry.recoveryApprovals s).[(did, msg_sender e)] = false →
  array_length (Registry.guardians s).[did] ≤ MAX_UINT256 →
  let N := array_length (Registry.guardians s).[did] in
  let k := N.of_nat (size (approvers s did)) in
  ∃ s', Registry.approveRecovery e did s = Ok s'
    ∧ (N / 2 + 1 ≤ k + 1 →
         Registry.owner (Registry.identities s').[did]
           = (Registry.pendingRecoveryAddress s).[did]
         ∧ (Registry.pendingRecoveryAddress s').[did] = 0
         ∧ (Registry.recoveryApprovalCount s').[did] = 0
         ∧ (∀ a, (Registry.recoveryApprovals s').[(did, a)] = false)
         ∧ approvers s' did = ∅)
    ∧ (k + 1 < N / 2 + 1 →
         Registry.identities s' = Registry.identities s
         ∧ (Registry.pendingRecoveryAddress s').[did]
             = (Registry.pendingRecoveryAddress s).[did]
         ∧ (Registry.recoveryApprovalCount s').[did] = k + 1
         ∧ approvers s' did = approvers s did ∪ {[ msg_sender e ]}).
Proof.
  intros Hreach Hguard Hpending Hflag Hlen N k.
  pose proof (reachable_recovery_inv _ _ Hreach) as Hinv.
  destruct (Hinv did) as (Hgs & Hcount & Hclear).
  pose proof Hguard as Hin. apply _isGuardian_scan_elem_of in Hin.
  pose proof (approvers_below_guardians s did _ Hin Hflag) as Hbelow.
  fold k in Hcount.
  assert (Hfits : k + 1 ≤ MAX_UINT256).
  { unfold array_length in Hlen. unfold k. lia. }
  rewrite approveRecovery_unfold. unfold require. rewrite Hguard.
  apply N.eqb_neq in Hpending as Hp. rewrite Hp, Hflag. simpl.
  rewrite Hcount. apply N.leb_le in Hfits as Hf. rewrite Hf.
  unfold Registry.requiredApprovals. fold N.
  destruct (N.leb_spec (N / 2 + 1) (k + 1)) as [Hq|Hq]; eexists; (split; [done|]).
  - split; [intros _ | lia].
    pose proof (recordApproval_recovery_inv e did s Hin Hflag Hpending Hinv) as Hrec.
    pose proof (_executeRecovery_recovery_inv e did _ Hrec did) as (Hgs' & Hcount' & Hclear').
    assert (Hzero : (Registry.pendingRecoveryAddress
                       (Registry._executeRecovery e did (recordApproval e did s))).[did] = 0).
    { simpl. by sload_simpl. }
    split; [simpl; by sload_simpl|]. split; [done|].
    split; [simpl; by sload_simpl|]. split; [auto|].
    apply set_eq. intros a. rewrite approvers_elem_of, (Hclear' Hzero a). set_solver.
  - split; [lia | intros _]. simpl. sload_simpl.
    split; [done|]. split; [done|]. split; [by rewrite Hcount|].
    by apply recordApproval_approvers.
Qed.

(** C1, witness: the second approval among three guardians. *)
Lemma approveRecovery_commits_at_quorum_witness :
  let s := registry_after three_guardians_pending in
  let e := {| msg_sender := 22; block_timestamp := 1006 |} in
  let N := array_length (Registry.guardians s).[did_A] in
  let k := N.of_nat (size (approvers s did_A)) in
  ∃ s', Registry.approveRecovery e did_A s = Ok s'
    ∧ (N / 2 + 1 ≤ k + 1 →
         Registry.owner (Registry.identities s').[did_A]
           = (Registry.pendingRecoveryAddress s).[did_A]
         ∧ (Registry.pendingRecoveryAddress s').[did_A] = 0
         ∧ (Registry.recoveryApprovalCount s').[did_A] = 0
         ∧ (∀ a, (Registry.recoveryApprovals s').[(did_A, a)] = false)
         ∧ approvers s' did_A = ∅)
    ∧ (k + 1 < N / 2 + 1 →
         Registry.identities s' = Registry.identities s
         ∧ (Registry.pendingRecoveryAddress s').[did_A]
             = (Registry.pendingRecoveryAddress s).[did_A]
         ∧ (Registry.recoveryApprovalCount s').[did_A] = k + 1
         ∧ approvers s' did_A = approvers s did_A ∪ {[ msg_sender e ]}).
Proof.
  apply (approveRecovery_commits_at_quorum keccak_model
           (registry_after three_guardians_pending)
           {| msg_sender := 22; block_timestamp := 1006 |} did_A).
  - apply registry_after_reachable; vm_compute; reflexivity.
  - vm_compute; reflexivity.
  - vm_compute; discriminate.
  - vm_compute; reflexivity.
  - vm_compute; discriminate.
Defined.

(** C1, counterexample: with three guardians the quorum is two. After the
    initiator's pre-counted approval, the approval of a second guardian
    makes N−1 = 2 distinct approvals, and this call hands the identity of
    account 1 over to account 2. *)
Lemma recovery_N_minus_1_counterexample :
  let s := registry_after three_guardians_pending in
  let s' := registry_after three_guardians_second_approval in
  let e := {| msg_sender := 22; block_timestamp := 1006 |} in
  Registry.reachable keccak_model s
  ∧ array_length (Registry.guardians s).[did_A] = 3
  ∧ N.of_nat (size (approvers s did_A)) + 1
      = array_length (Registry.guardians s).[did_A] - 1
  ∧ Registry.approveRecovery e did_A s = Ok s'
  ∧ Registry.owner (Registry.identities s).[did_A] = 1
  ∧ Registry.owner (Registry.identities s').[did_A] = 2.
Proof.
  cbv zeta. split; [apply registry_after_reachable; vm_compute; reflexivity|].
  by_evaluation.
Qed.

(** ** Guardians added while a request is pending *)

(** C5 (as amended): the quorum of a pending request is ⌊N/2⌋+1 for the
    number [N] of guardians at the moment of each [approveRecovery] call.
    [addGuardian] after [initiateRecovery] keeps the request, its flags
    and its counter, lengthens the guardian array by one, and the next
    approval commits exactly when the counter reaches the quorum of the
    lengthened array. *)
Theorem addGuardian_moves_quorum (s s' : Registry.State) (e e2 : Env)
    (did : bytes32) (g : address) :
  Registry.addGuardian e did g s = Ok s' →
  Registry._isGuardian s' did (msg_sender e2) = true →
  (Registry.pendingRecoveryAddress s).[did] ≠ 0 →
  (Registry.recoveryApprovals s).[(did, msg_sender e2)] = false →
  (Registry.recoveryApprovalCount s).[did] + 1 ≤ MAX_UINT256 →
  Registry.pendingRecoveryAddress s' = Registry.pendingRecoveryAddress s
  ∧ Registry.recoveryApprovals s' = Registry.recoveryApprovals s
  ∧ Registry.recoveryApprovalCount s' = Registry.recoveryApprovalCount s
  ∧ Registry.requiredApprovals s' did
      = (array_length (Registry.guardians s).[did] + 1) / 2 + 1
  ∧ ∃ s2, Registry.approveRecovery e2 did s' = Ok s2
      ∧ ((Registry.pendingRecoveryAddress s2).[did] = 0 ↔
         (array_length (Registry.guardians s).[did] + 1) / 2 + 1
           ≤ (Registry.recoveryApprovalCount s).[did] + 1)
      ∧ ((Registry.pendingRecoveryAddress s2).[did] = 0 →
         Registry.owner (Registry.identities s2).[did]
           = (Registry.pendingRecoveryAddress s).[did]).
Proof.
  intros Hadd Hguard Hpending Hflag Hfits.
  unfold Registry.addGuardian in Hadd. inv_ok Hadd. injection Hadd as <-.
  assert (Hreq' : Registry.requiredApprovals
            (Registry.set_guardians
               (<[did := (Registry.guardians s).[did] ++ [g]]> (Registry.guardians s)) s) did
          = (array_length (Registry.guardians s).[did] + 1) / 2 + 1).
  { unfold Registry.requiredApprovals, array_length. simpl. sload_simpl.
    rewrite length_app. simpl. do 2 f_equal. lia. }
  do 4 (split; [done|]).
  rewrite approveRecovery_unfold. rewrite Hreq'. unfold require. rewrite Hguard. simpl.
  apply N.eqb_neq in Hpending as Hp. rewrite Hp, Hflag. simpl.
  apply N.leb_le in Hfits as Hf. rewrite Hf.
  destruct (N.leb_spec ((array_length (Registry.guardians s).[did] + 1) / 2 + 1)
              ((Registry.recoveryApprovalCount s).[did] + 1)) as [Hq|Hq];
    eexists; (split; [done|]); simpl; sload_simpl.
  - done.
  - split; [|done]. split; [done | lia].
Qed.

(** C5, witness: a third guardian is added while the request of
    [two_guardians_pending] is open, then guardian 22 approves. *)
Lemma addGuardian_moves_quorum_witness :
  let s := registry_after two_guardians_pending in
  let e := {| msg_sender := 1; block_timestamp := 1006 |} in
  let e2 := {| msg_sender := 22; block_timestamp := 1008 |} in
  ∃ s', Registry.addGuardian e did_A 23 s = Ok s'
  ∧ Registry.pendingRecoveryAddress s' = Registry.pendingRecoveryAddress s
  ∧ Registry.recoveryApprovals s' = Registry.recoveryApprovals s
  ∧ Registry.recoveryApprovalCount s' = Registry.recoveryApprovalCount s
  ∧ Registry.requiredApprovals s' did_A
      = (array_length (Registry.guardians s).[did_A] + 1) / 2 + 1
  ∧ ∃ s2, Registry.approveRecovery e2 did_A s' = Ok s2
      ∧ ((Registry.pendingRecoveryAddress s2).[did_A] = 0 ↔
         (array_length (Registry.guardians s).[did_A] + 1) / 2 + 1
           ≤ (Registry.recoveryApprovalCount s).[did_A] + 1)
      ∧ ((Registry.pendingRecoveryAddress s2).[did_A] = 0 →
         Registry.owner (Registry.identities s2).[did_A]
           = (Registry.pendingRecoveryAddress s).[did_A]).
Proof.
  eexists. split; [vm_compute; reflexivity|].
  apply (addGuardian_moves_quorum (registry_after two_guardians_pending) _
           {| msg_sender := 1; block_timestamp := 1006 |}
           {| msg_sender := 22; block_timestamp := 1008 |} did_A 23).
  - vm_compute; reflexivity.
  - vm_compute; reflexivity.
  - vm_compute; discriminate.
  - vm_compute; reflexivity.
  - vm_compute; discriminate.
Defined.

(** C5, counterexample: the request opened with two guardians needs two
    approvals, and guardian 22 alone would complete it. Once the owner has
    added two guardians after the request started, the same request, with
    the same approvals, needs three: the approval of guardian 22 no longer
    commits it and account 1 stays the owner. *)
Lemma quorum_not_fixed_at_initiation_counterexample :
  let s := registry_after two_guardians_pending in
  let s' := registry_after two_guardians_pending_then_two_more in
  let e := {| msg_sender := 22; block_timestamp := 1008 |} in
  Registry.reachable keccak_model s
  ∧ Registry.reachable keccak_model s'
  ∧ (Registry.pendingRecoveryAddress s').[did_A] = (Registry.pendingRecoveryAddress s).[did_A]
  ∧ (Registry.pendingRecoveryAddress s).[did_A] = 2
  ∧ approvers s' did_A = approvers s did_A
  ∧ Registry.requiredApprovals s did_A = 2
  ∧ Registry.requiredApprovals s' did_A = 3
  ∧ (∃ s1, Registry.approveRecovery e did_A s = Ok s1
       ∧ Registry.owner (Registry.identities s1).[did_A] = 2
       ∧ (Registry.pendingRecoveryAddress s1).[did_A] = 0)
  ∧ (∃ s2, Registry.approveRecovery e did_A s' = Ok s2
       ∧ Registry.owner (Registry.identities s2).[did_A] = 1
       ∧ (Registry.pendingRecoveryAddress s2).[did_A] = 2
       ∧ (Registry.recoveryApprovalCount s2).[did_A] = 2).
Proof.
  cbv zeta. split; [apply registry_after_reachable; vm_compute; reflexivity|].
  split; [apply registry_after_reachable; vm_compute; reflexivity|].
  by_evaluation.
Qed.

(** ** The pause gate *)

(** C2 (as amended): while the pause flag is engaged, [createIdentity],
    [updateIdentity] and [addVerification] revert with [SystemPaused]
    whatever their arguments and caller, so no storage changes; the
    read-only queries of the registry do not depend on the flag. Whether
    [revokeIdentity] succeeds does not depend on the flag either, and a
    call to the platform registry succeeds or reverts as it would without
    the identity registry. *)
Theorem pause_gate_covers_three_entry_points
    (keccak256 : bytes32 → address → uint256 → bytes32)
    (e : Env) (op : Registry.Op) (s : Registry.State) :
  Registry.paused s = true →
  (pause_gated op = true → Registry.step keccak256 e op s = Err SystemPaused)
  ∧ (∀ (b : bool) (did : bytes32) (p : address) (i : uint256),
       Registry.verifyOwnership (Registry.set_paused b s) did p
         = Registry.verifyOwnership s did p
       ∧ Registry.getIdentity (Registry.set_paused b s) did = Registry.getIdentity s did
       ∧ Registry.getVerificationCount (Registry.set_paused b s) did
         = Registry.getVerificationCount s did
       ∧ Registry.getVerification (Registry.set_paused b s) did i
         = Registry.getVerification s did i
       ∧ Registry.getGuardians (Registry.set_paused b s) did = Registry.getGuardians s did
       ∧ Registry.hasRole (Registry.set_paused b s) ADMIN_ROLE p
         = Registry.hasRole s ADMIN_ROLE p)
  ∧ (∀ (b : bool) (did : bytes32),
       is_ok (Registry.revokeIdentity e did (Registry.set_paused b s))
       = is_ok (Registry.revokeIdentity e did s))
  ∧ (∀ (pop : PlatformRegistry.Op) (p : PlatformRegistry.State),
       is_ok (system_step e (PlatformCall pop) {| registry := s; platform := p |})
       = is_ok (PlatformRegistry.step keccak_platform_model e pop p)).
Proof.
  intros Hpaused. split; [|split; [done|split]].
  - destruct op; try discriminate; intros _; simpl.
    + unfold Registry.createIdentity. by rewrite Hpaused.
    + unfold Registry.updateIdentity. by rewrite Hpaused.
    + unfold Registry.addVerification. by rewrite Hpaused.
  - intros b did. unfold Registry.revokeIdentity, require. simpl.
    unfold Registry.hasRole. simpl.
    destruct (_ || _); [|done]. by destruct (negb _).
  - intros pop p. simpl.
    by destruct (PlatformRegistry.step keccak_platform_model e pop p).
Qed.

(** C2, witness: updating identity A in the paused registry. *)
Lemma pause_gate_covers_three_entry_points_witness :
  Registry.step keccak_model {| msg_sender := 1; block_timestamp := 1002 |}
    (Registry.Call_updateIdentity did_A "QmB") (registry_after identity_then_pause)
  = Err SystemPaused.
Proof.
  apply (pause_gate_covers_three_entry_points keccak_model
           {| msg_sender := 1; block_timestamp := 1002 |}
           (Registry.Call_updateIdentity did_A "QmB")
           (registry_after identity_then_pause)).
  - vm_compute; reflexivity.
  - reflexivity.
Defined.

(** C2, counterexample: with the pause flag engaged, [revokeIdentity]
    still succeeds and revokes identity A, and the platform registry,
    which has no pause flag of its own, still registers a platform. *)
Lemma pause_gate_counterexample :
  Registry.reachable keccak_model (registry paused_system)
  ∧ PlatformRegistry.reachable keccak_platform_model (platform paused_system)
  ∧ system_paused paused_system = true
  ∧ (∃ sys', system_step {| msg_sender := 1; block_timestamp := 1002 |}
               (RegistryCall (Registry.Call_revokeIdentity did_A)) paused_system = Ok sys'
       ∧ Registry.isRevoked (Registry.identities (registry paused_system)).[did_A] = false
       ∧ Registry.isRevoked (Registry.identities (registry sys')).[did_A] = true)
  ∧ (∃ sys', system_step {| msg_sender := 100; block_timestamp := 1002 |}
               (PlatformCall (PlatformRegistry.Call_registerPlatform
                                "Example" "example.com" PlatformRegistry.SocialMedia))
               paused_system = Ok sys'
       ∧ PlatformRegistry.totalPlatforms (platform paused_system) = 0
       ∧ PlatformRegistry.totalPlatforms (platform sys') = 1).
Proof.
  split; [apply registry_after_reachable; vm_compute; reflexivity|].
  split; [by apply PlatformRegistry.reachable_deploy|].
  by_evaluation.
Qed.

(** ** Verification level *)


Lemma maxType_app (vs : list Registry.Verification) (v : Registry.Verification) :
  maxType (vs ++ [v]) = N.max (maxType vs) (Registry.verificationType v).
Proof.
  induction vs as [|w vs IH]; simpl; [lia|]. rewrite IH. lia.
Qed.

Lemma maxType_set_isValid (vs : list Registry.Verification) (i : nat) (b : bool) :
  maxType (<[i := Registry.set_isValid b (default zero (vs !! i))]> vs) = maxType vs.
Proof.
  revert i. induction vs as [|w vs IH]; intros [|i]; simpl; try done.
  by rewrite IH.
Qed.

Lemma maxValidType_le_maxType (vs : list Registry.Verification) :
  maxValidType vs ≤ maxType vs.
Proof.
  induction vs as [|w vs IH]; simpl; [done|]. destruct (Registry.isValid w); lia.
Qed.

(** The storage written by a successful [addVerification]. *)
Lemma addVerification_ok (e : Env) (did : bytes32) (ty : uint8) (proof : bytes32)
    (s s' : Registry.State) :
  Registry.addVerification e did ty proof s = Ok s' →
  Registry.paused s = false
  ∧ Registry.isActive (Registry.identities s).[did] = true
  ∧ Registry.isRevoked (Registry.identities s).[did] = false
  ∧ 1 ≤ ty ≤ 4
  ∧ Registry.verifications s'
    = <[did := (Registry.verifications s).[did] ++
               [ {| Registry.verifier := msg_sender e;
                    Registry.timestamp := block_timestamp e;
                    Registry.verificationType := ty;
                    Registry.proofHash := proof;
                    Registry.isValid := true |} ] ]> (Registry.verifications s)
  ∧ Registry.identities s'
    = (if Registry.verificationLevel (Registry.identities s).[did] <? ty
       then <[did := Registry.set_verificationLevel ty (Registry.identities s).[did]]>
              (Registry.identities s)
       else Registry.identities s)
  ∧ Registry.identityHashExists s' = Registry.identityHashExists s
  ∧ Registry.addressToIdentity s' = Registry.addressToIdentity s
  ∧ recovery_fields s' = recovery_fields s.
Proof.
  intros Hcall. unfold Registry.addVerification in Hcall. inv_ok Hcall.
  injection Hcall as <-. clear Hchk. simpl.
  apply negb_true_iff in Hreq, Hreq2.
  apply andb_true_iff in Hreq3 as [Hlo Hhi]. apply N.leb_le in Hlo, Hhi.
  do 4 (split; [done|]).
  by destruct (Registry.verificationLevel (Registry.identities s).[did] <? ty).
Qed.

Lemma ledger_inv_constructor (deployer : address) :
  level_inv (Registry.constructor deployer)
  ∧ created_inv (Registry.constructor deployer) [].
Proof.
  split; intros did; simpl; rewrite !sload_empty; [done|].
  intros [?|?]; done.
Qed.

Lemma createIdentity_ledger_inv (keccak256 : bytes32 → address → uint256 → bytes32)
    (e : Env) (h : bytes32) (ipfs : string) (s s' : Registry.State) (did : bytes32)
    (ids : list bytes32) :
  Registry.createIdentity keccak256 e h ipfs s = Ok (did, s') →
  did ∉ ids →
  level_inv s ∧ created_inv s ids →
  level_inv s' ∧ created_inv s' (ids ++ [did]).
Proof.
  intros Hcall Hnew [Hlevel Hcreated].
  unfold Registry.createIdentity in Hcall. inv_ok Hcall. injection Hcall as <- <-.
  split; intros d; simpl; rewrite sload_insert; case_decide as Hd.
  - subst d. simpl.
    destruct ((Registry.verifications s).[keccak256 h (msg_sender e) (block_timestamp e)])
      as [|v vs] eqn:Hvs; [done|].
    destruct Hnew. apply Hcreated. right. by rewrite Hvs.
  - apply Hlevel.
  - intros _. rewrite elem_of_app, list_elem_of_singleton. by right.
  - intros Hd'. rewrite elem_of_app. left. by apply Hcreated.
Qed.

Lemma addVerification_ledger_inv (e : Env) (did : bytes32) (ty : uint8) (proof : bytes32)
    (s s' : Registry.State) (ids : list bytes32) :
  Registry.addVerification e did ty proof s = Ok s' →
  level_inv s ∧ created_inv s ids →
  level_inv s' ∧ created_inv s' ids.
Proof.
  intros Hcall [Hlevel Hcreated].
  apply addVerification_ok in Hcall
    as (_ & Hactive & _ & _ & Hvs & Hids & _ & _ & _).
  pose proof (Hcreated did (or_introl Hactive)) as Hknown.
  unfold level_inv, created_inv. rewrite Hvs, Hids. split; intros d.
  - rewrite (sload_insert (Registry.verifications s)).
    destruct (N.ltb_spec (Registry.verificationLevel (Registry.identities s).[did]) ty)
      as [Hlt|Hge].
    + rewrite sload_insert. case_decide as Hd; [subst d|apply Hlevel].
      rewrite maxType_app, <- Hlevel. simpl. lia.
    + case_decide as Hd; [subst d|apply Hlevel].
      rewrite maxType_app, <- Hlevel. simpl. lia.
  - destruct (decide (did = d)) as [<-|Hne]; [done|].
    rewrite (sload_insert_ne (Registry.verifications s)) by done.
    destruct (_ <? _); rewrite ?sload_insert_ne by done; apply Hcreated.
Qed.

Lemma revokeVerification_ledger_inv (e : Env) (did : bytes32) (i : uint256)
    (s s' : Registry.State) (ids : list bytes32) :
  Registry.revokeVerification e did i s = Ok s' →
  level_inv s ∧ created_inv s ids →
  level_inv s' ∧ created_inv s' ids.
Proof.
  intros Hcall [Hlevel Hcreated].
  unfold Registry.revokeVerification in Hcall. inv_ok Hcall. injection Hcall as <-.
  split; intros d; simpl; rewrite sload_insert; case_decide as Hd; try subst d.
  - rewrite maxType_set_isValid. apply Hlevel.
  - apply Hlevel.
  - intros [Hact|Hvs]; apply (Hcreated did); [by left|right].
    intros Hnil. apply Hvs. by rewrite Hnil.
  - apply Hcreated.
Qed.

Lemma revokeIdentity_ledger_inv (e : Env) (did : bytes32) (s s' : Registry.State)
    (ids : list bytes32) :
  Registry.revokeIdentity e did s = Ok s' →
  level_inv s ∧ created_inv s ids →
  level_inv s' ∧ created_inv s' ids.
Proof.
  intros Hcall [Hlevel Hcreated].
  unfold Registry.revokeIdentity in Hcall. inv_ok Hcall. injection Hcall as <-.
  split; intros d; simpl; rewrite sload_insert; case_decide as Hd; try subst d;
    sload_simpl; simpl.
  - apply Hlevel.
  - apply Hlevel.
  - intros [?|Hvs]; [done|]. apply Hcreated. by right.
  - apply Hcreated.
Qed.

Lemma updateIdentity_ledger_inv (e : Env) (did : bytes32) (ipfs : string)
    (s s' : Registry.State) (ids : list bytes32) :
  Registry.updateIdentity e did ipfs s = Ok s' →
  level_inv s ∧ created_inv s ids →
  level_inv s' ∧ created_inv s' ids.
Proof.
  intros Hcall [Hlevel Hcreated].
  unfold Registry.updateIdentity in Hcall. inv_ok Hcall. injection Hcall as <-.
  split; intros d; simpl; rewrite sload_insert; case_decide as Hd; try subst d;
    sload_simpl; simpl.
  - apply Hlevel.
  - apply Hlevel.
  - intros _. apply Hcreated. by left.
  - apply Hcreated.
Qed.

Lemma _executeRecovery_ledger_inv (e : Env) (did : bytes32) (s : Registry.State)
    (ids : list bytes32) :
  level_inv s ∧ created_inv s ids →
  level_inv (Registry._executeRecovery e did s)
  ∧ created_inv (Registry._executeRecovery e did s) ids.
Proof.
  intros [Hlevel Hcreated].
  split; intros d; simpl; rewrite sload_insert; case_decide as Hd; try subst d;
    sload_simpl; simpl.
  - apply Hlevel.
  - apply Hlevel.
  - apply Hcreated.
  - apply Hcreated.
Qed.

(** The fields on which the two ledger invariants depend. *)
Lemma ledger_inv_fields (s s' : Registry.State) (ids : list bytes32) :
  Registry.identities s' = Registry.identities s →
  Registry.verifications s' = Registry.verifications s →
  level_inv s ∧ created_inv s ids →
  level_inv s' ∧ created_inv s' ids.
Proof.
  intros Hi Hv [Hlevel Hcreated]. unfold level_inv, created_inv.
  rewrite Hi, Hv. done.
Qed.

(** A successful transaction keeps the two ledger invariants, provided
    that, if it is a [createIdentity], the DID it returns was not returned
    before. *)
Lemma step_ledger_inv (keccak256 : bytes32 → address → uint256 → bytes32)
    (e : Env) (op : Registry.Op) (s s' : Registry.State) (ids : list bytes32) :
  Registry.step keccak256 e op s = Ok s' →
  (∀ did, did ∈ created_by keccak256 e op → did ∉ ids) →
  level_inv s ∧ created_inv s ids →
  level_inv s' ∧ created_inv s' (ids ++ created_by keccak256 e op).
Proof.
  intros Hstep Hnew Hinv.
  destruct op; simpl created_by in *; rewrite ?app_nil_r.
  - apply step_createIdentity_ok in Hstep.
    eapply createIdentity_ledger_inv; [done| |done].
    apply Hnew. by apply list_elem_of_singleton.
  - by eapply updateIdentity_ledger_inv.
  - by eapply addVerification_ledger_inv.
  - by eapply revokeVerification_ledger_inv.
  - by eapply revokeIdentity_ledger_inv.
  - simpl in Hstep. unfold Registry.addGuardian in Hstep. inv_ok Hstep.
    injection Hstep as <-. by eapply ledger_inv_fields.
  - simpl in Hstep. unfold Registry.initiateRecovery in Hstep. inv_ok Hstep.
    injection Hstep as <-. by eapply ledger_inv_fields.
  - simpl in Hstep. rewrite approveRecovery_unfold in Hstep. inv_ok Hstep.
    assert (Hrec : level_inv (recordApproval e _did s)
                   ∧ created_inv (recordApproval e _did s) ids).
    { by eapply ledger_inv_fields. }
    destruct (Registry.requiredApprovals s _did <=? _); injection Hstep as <-; [|done].
    by apply _executeRecovery_ledger_inv.
  - simpl in Hstep. unfold Registry.pause in Hstep. inv_ok Hstep.
    injection Hstep as <-. by eapply ledger_inv_fields.
  - simpl in Hstep. unfold Registry.unpause in Hstep. inv_ok Hstep.
    injection Hstep as <-. by eapply ledger_inv_fields.
  - simpl in Hstep. unfold Registry.grantRole in Hstep. inv_ok Hstep.
    injection Hstep as <-. destruct (Registry.hasRole s role account); [done|].
    by eapply ledger_inv_fields.
  - simpl in Hstep. unfold Registry.revokeRole in Hstep. inv_ok Hstep.
    injection Hstep as <-. destruct (Registry.hasRole s role account); [|done].
    by eapply ledger_inv_fields.
  - simpl in Hstep. unfold Registry.renounceRole in Hstep. inv_ok Hstep.
    injection Hstep as <-. destruct (Registry.hasRole s role callerConfirmation); [|done].
    by eapply ledger_inv_fields.
Qed.

(** The DIDs created by a transaction sequence whose first transaction
    succeeds. *)
Lemma created_ids_cons (keccak256 : bytes32 → address → uint256 → bytes32)
    (e : Env) (op : Registry.Op) (txs : list (Env * Registry.Op))
    (s s1 : Registry.State) :
  Registry.step keccak256 e op s = Ok s1 →
  created_ids keccak256 ((e, op) :: txs) s
  = created_by keccak256 e op ++ created_ids keccak256 txs s1.
Proof.
  intros Hstep. destruct op;
    try (simpl in Hstep |- *; by rewrite Hstep).
  apply step_createIdentity_ok in Hstep. simpl. by rewrite Hstep.
Qed.

Lemma run_ledger_inv (keccak256 : bytes32 → address → uint256 → bytes32)
    (txs : list (Env * Registry.Op)) (s s' : Registry.State) (ids : list bytes32) :
  Registry.run keccak256 txs s = Ok s' →
  NoDup (ids ++ created_ids keccak256 txs s) →
  level_inv s ∧ created_inv s ids →
  level_inv s' ∧ created_inv s' (ids ++ created_ids keccak256 txs s).
Proof.
  revert s ids. induction txs as [|[e op] txs IH]; intros s ids Hrun Hnodup Hinv;
    simpl in Hrun.
  - injection Hrun as <-. simpl. by rewrite app_nil_r.
  - destruct (Registry.step keccak256 e op s) as [s1|err] eqn:Hstep; simpl in Hrun;
      [|discriminate].
    rewrite (created_ids_cons _ _ _ _ _ _ Hstep), app_assoc in Hnodup |- *.
    apply (IH s1 _ Hrun Hnodup).
    apply (step_ledger_inv _ _ _ _ _ _ Hstep); [|done].
    intros did Hdid Hin.
    apply NoDup_app in Hnodup as (Hnodup & _ & _).
    apply NoDup_app in Hnodup as (_ & Hdisj & _). by apply (Hdisj did).
Qed.

(** C3 (as amended): in every state that a sequence of successful
    transactions produces from the deployment, and in which no two
    [createIdentity] calls returned the same DID, the level of an identity
    is the highest verification type among all of its records, whether
    still valid or revoked; it is therefore at least the highest valid
    type, and [revokeVerification] leaves it where it was. *)
Theorem verificationLevel_is_historical_max
    (keccak256 : bytes32 → address → uint256 → bytes32)
    (txs : list (Env * Registry.Op)) (deployer : address)
    (s : Registry.State) (did : bytes32) :
  Registry.run keccak256 txs (Registry.constructor deployer) = Ok s →
  NoDup (created_ids keccak256 txs (Registry.constructor deployer)) →
  Registry.verificationLevel (Registry.identities s).[did]
    = maxType (Registry.verifications s).[did]
  ∧ maxValidType (Registry.verifications s).[did]
    ≤ Registry.verificationLevel (Registry.identities s).[did]
  ∧ ∀ e i s', Registry.revokeVerification e did i s = Ok s' →
      Registry.verificationLevel (Registry.identities s').[did]
      = Registry.verificationLevel (Registry.identities s).[did].
Proof.
  intros Hrun Hnodup.
  destruct (run_ledger_inv keccak256 txs _ s [] Hrun Hnodup
              (ledger_inv_constructor deployer)) as [Hlevel _].
  split; [apply Hlevel|]. split.
  - rewrite Hlevel. apply maxValidType_le_maxType.
  - intros e i s' Hcall. unfold Registry.revokeVerification in Hcall. inv_ok Hcall.
    by injection Hcall as <-.
Qed.

(** C3, witness: identity A after its only verification was revoked. *)
Lemma verificationLevel_is_historical_max_witness :
  let s := registry_after verification_added_then_revoked in
  Registry.verificationLevel (Registry.identities s).[did_A]
    = maxType (Registry.verifications s).[did_A]
  ∧ maxValidType (Registry.verifications s).[did_A]
    ≤ Registry.verificationLevel (Registry.identities s).[did_A]
  ∧ ∀ e i s', Registry.revokeVerification e did_A i s = Ok s' →
      Registry.verificationLevel (Registry.identities s').[did_A]
      = Registry.verificationLevel (Registry.identities s).[did_A].
Proof.
  apply (verificationLevel_is_historical_max keccak_model
           verification_added_then_revoked 100
           (registry_after verification_added_then_revoked) did_A).
  - vm_compute; reflexivity.
  - assert (Hids : created_ids keccak_model verification_added_then_revoked
                     (Registry.constructor 100) = [did_A]) by (vm_compute; reflexivity).
    rewrite Hids. apply NoDup_singleton.
Defined.

(** C3, counterexample: after the verifier revokes the only verification
    of identity A, no valid record is left, so the maximum over the valid
    records is 0, while the level of the identity is still 3. *)
Lemma verificationLevel_counterexample :
  let s := registry_after verification_added_then_revoked in
  Registry.reachable keccak_model s
  ∧ map Registry.isValid (Registry.verifications s).[did_A] = [false]
  ∧ maxValidType (Registry.verifications s).[did_A] = 0
  ∧ Registry.verificationLevel (Registry.identities s).[did_A] = 3
  ∧ Registry.verificationLevel (Registry.identities s).[did_A]
    ≠ maxValidType (Registry.verifications s).[did_A].
Proof.
  cbv zeta. split; [apply registry_after_reachable; vm_compute; reflexivity|].
  by_evaluation.
Qed.

(** ** One identity per principal *)

(** C4, the code at the failing input: a recovery in favour of an account
    that already owns an identity succeeds, and afterwards that account is
    the owner of two distinct identities, both active and not revoked,
    while [addressToIdentity] knows only the recovered one. *)
Theorem recovery_makes_one_principal_own_two_identities :
  let s := registry_after recovery_to_bound_owner in
  Registry.reachable keccak_model s
  ∧ is_ok (Registry.run keccak_model recovery_to_bound_owner (Registry.constructor 100)) = true
  ∧ did_A ≠ did_B
  ∧ Registry.verifyOwnership s did_A 2 = true
  ∧ Registry.verifyOwnership s did_B 2 = true
  ∧ (Registry.addressToIdentity s).[2] = did_A
  ∧ (Registry.addressToIdentity s).[1] = 0.
Proof.
  cbv zeta. split; [apply registry_after_reachable; vm_compute; reflexivity|].
  by_evaluation.
Qed.

(** ** The slot of an (identity, platform) pair *)



Lemma platform_run_reachable (keccak256 : string → string → uint256 → bytes32)
    (txs : list (Env * PlatformRegistry.Op)) (s s' : PlatformRegistry.State) :
  PlatformRegistry.reachable keccak256 s →
  senders_nonzero txs = true →
  PlatformRegistry.run keccak256 txs s = Ok s' →
  PlatformRegistry.reachable keccak256 s'.
Proof.
  revert s. induction txs as [|[e op] txs IH]; intros s Hs Hnz Hrun; simpl in *.
  - by injection Hrun as <-.
  - apply andb_true_iff in Hnz as [Hsender Hnz].
    apply negb_true_iff, N.eqb_neq in Hsender.
    destruct (PlatformRegistry.step keccak256 e op s) as [s1|err] eqn:Hstep; simpl in Hrun;
      [|discriminate].
    apply (IH s1); [|done|done]. by eapply PlatformRegistry.reachable_step.
Qed.

Lemma platform_after_reachable (txs : list (Env * PlatformRegistry.Op)) :
  senders_nonzero txs = true →
  is_ok (PlatformRegistry.run keccak_platform_model txs (PlatformRegistry.constructor 100))
    = true →
  PlatformRegistry.reachable keccak_platform_model (platform_after txs).
Proof.
  intros Hnz Hok. unfold platform_after.
  destruct (PlatformRegistry.run keccak_platform_model txs (PlatformRegistry.constructor 100))
    as [s|err] eqn:Hrun; [|discriminate].
  eapply platform_run_reachable; [|done|done]. by apply PlatformRegistry.reachable_deploy.
Qed.



(** ** The principal→id binding *)









(** ** The table of used identity hashes *)

(** What a successful call does to the table of used identity hashes. *)
Lemma step_identityHashExists (keccak256 : bytes32 → address → uint256 → bytes32)
    (e : Env) (op : Registry.Op) (s s' : Registry.State) :
  Registry.step keccak256 e op s = Ok s' →
  match op with
  | Registry.Call_createIdentity h _ =>
      (Registry.identityHashExists s).[h] = false
      ∧ Registry.identityHashExists s' = <[h := true]> (Registry.identityHashExists s)
  | _ => Registry.identityHashExists s' = Registry.identityHashExists s
  end.
Proof.
  intros Hstep. destruct op.
  - apply step_createIdentity_ok in Hstep.
    unfold Registry.createIdentity in Hstep. inv_ok Hstep. injection Hstep as <-.
    apply negb_true_iff in Hreq0. done.
  - simpl in Hstep. unfold Registry.updateIdentity in Hstep. inv_ok Hstep.
    by injection Hstep as <-.
  - simpl in Hstep.
    by apply addVerification_ok in Hstep as (_ & _ & _ & _ & _ & _ & ? & _).
  - simpl in Hstep. unfold Registry.revokeVerification in Hstep. inv_ok Hstep.
    by injection Hstep as <-.
  - simpl in Hstep. unfold Registry.revokeIdentity in Hstep. inv_ok Hstep.
    by injection Hstep as <-.
  - simpl in Hstep. unfold Registry.addGuardian in Hstep. inv_ok Hstep.
    by injection Hstep as <-.
  - simpl in Hstep. unfold Registry.initiateRecovery in Hstep. inv_ok Hstep.
    by injection Hstep as <-.
  - simpl in Hstep. rewrite approveRecovery_unfold in Hstep. inv_ok Hstep.
    by destruct (Registry.requiredApprovals s _did <=? _); injection Hstep as <-.
  - simpl in Hstep. unfold Registry.pause in Hstep. inv_ok Hstep.
    by injection Hstep as <-.
  - simpl in Hstep. unfold Registry.unpause in Hstep. inv_ok Hstep.
    by injection Hstep as <-.
  - simpl in Hstep. unfold Registry.grantRole in Hstep. inv_ok Hstep.
    injection Hstep as <-. by destruct (Registry.hasRole s role account).
  - simpl in Hstep. unfold Registry.revokeRole in Hstep. inv_ok Hstep.
    injection Hstep as <-. by destruct (Registry.hasRole s role account).
  - simpl in Hstep. unfold Registry.renounceRole in Hstep. inv_ok Hstep.
    injection Hstep as <-. by destruct (Registry.hasRole s role callerConfirmation).
Qed.

(** * Further properties of the identity registry *)

(** ** Creating an identity *)

(** The storage written by a successful [createIdentity]. *)
Lemma createIdentity_ok (keccak256 : bytes32 → address → uint256 → bytes32)
    (e : Env) (h : bytes32) (ipfs : string) (s s' : Registry.State) (did : bytes32) :
  Registry.createIdentity keccak256 e h ipfs s = Ok (did, s') →
  did = keccak256 h (msg_sender e) (block_timestamp e)
  ∧ Registry.paused s = false
  ∧ (Registry.identityHashExists s).[h] = false
  ∧ (Registry.addressToIdentity s).[msg_sender e] = 0
  ∧ Registry.identities s'
    = <[did := {| Registry.identityHash := h;
                  Registry.owner := msg_sender e;
                  Registry.createdAt := block_timestamp e;
                  Registry.lastUpdated := block_timestamp e;
                  Registry.isActive := true;
                  Registry.isRevoked := false;
                  Registry.ipfsHash := ipfs;
                  Registry.verificationLevel := 0 |}]> (Registry.identities s)
  ∧ Registry.identityHashExists s' = <[h := true]> (Registry.identityHashExists s)
  ∧ Registry.addressToIdentity s' = <[msg_sender e := did]> (Registry.addressToIdentity s)
  ∧ Registry.totalIdentities s' = Registry.totalIdentities s + 1
  ∧ Registry.verifications s' = Registry.verifications s
  ∧ recovery_fields s' = recovery_fields s.
Proof.
  intros Hcall. unfold Registry.createIdentity in Hcall. inv_ok Hcall.
  injection Hcall as <- <-. simpl in Hchk. apply checked_add_Some in Hchk as [-> _].
  apply negb_true_iff in Hreq, Hreq0. apply N.eqb_eq in Hreq1. done.
Qed.

(** X1: a successful [createIdentity] returns the DID derived from the
    identity hash, the caller and the block time; [getIdentity] of that DID
    then shows the caller as owner, both timestamps at the block time, the
    identity active and not revoked, the given metadata reference and level
    0; the caller passes the ownership check and is bound to the DID, the
    counter grows by one and every other identity reads as before. *)
Theorem createIdentity_roundtrip (keccak256 : bytes32 → address → uint256 → bytes32)
    (e : Env) (h : bytes32) (ipfs : string) (s s' : Registry.State) (did : bytes32) :
  Registry.createIdentity keccak256 e h ipfs s = Ok (did, s') →
  did = keccak256 h (msg_sender e) (block_timestamp e)
  ∧ Registry.getIdentity s' did
    = (msg_sender e, block_timestamp e, block_timestamp e, true, false, ipfs, 0)
  ∧ Registry.verifyOwnership s' did (msg_sender e) = true
  ∧ (Registry.addressToIdentity s').[msg_sender e] = did
  ∧ Registry.totalIdentities s' = Registry.totalIdentities s + 1
  ∧ ∀ d, d ≠ did → Registry.getIdentity s' d = Registry.getIdentity s d.
Proof.
  intros Hcall.
  apply createIdentity_ok in Hcall
    as (Hdid & _ & _ & _ & Hids & _ & Hbind & Htotal & _ & _).
  split; [done|]. unfold Registry.getIdentity, Registry.verifyOwnership.
  rewrite Hids, Hbind, !sload_insert_eq. simpl. rewrite N.eqb_refl.
  do 4 (split; [done|]). intros d Hd. by rewrite sload_insert_ne.
Qed.

(** X1, witness: the first identity of the registry. *)
Lemma createIdentity_roundtrip_witness :
  Registry.getIdentity (registry_after identity_created) did_A
  = (1, 1000, 1000, true, false, "QmA"%string, 0).
Proof.
  apply (createIdentity_roundtrip keccak_model
           {| msg_sender := 1; block_timestamp := 1000 |} 11 "QmA"
           (Registry.constructor 100) (registry_after identity_created) did_A).
  vm_compute; reflexivity.
Defined.

(** ** An identity hash is used once *)

Lemma run_identityHashExists (keccak256 : bytes32 → address → uint256 → bytes32)
    (txs : list (Env * Registry.Op)) (s s' : Registry.State) (h : bytes32) :
  Registry.run keccak256 txs s = Ok s' →
  (Registry.identityHashExists s).[h] = true →
  (Registry.identityHashExists s').[h] = true.
Proof.
  revert s. induction txs as [|[e op] txs IH]; intros s Hrun Hused; simpl in Hrun.
  - by injection Hrun as <-.
  - destruct (Registry.step keccak256 e op s) as [s1|err] eqn:Hstep; simpl in Hrun;
      [|discriminate].
    apply (IH s1 Hrun). apply step_identityHashExists in Hstep.
    destruct op; try (by rewrite Hstep).
    destruct Hstep as [_ ->]. rewrite sload_insert. by case_decide.
Qed.

(** X2: once [createIdentity] has accepted an identity hash, every later
    [createIdentity] with that hash reverts, whoever calls it and whatever
    happened in between (revocation and recovery included); the revert is
    [DuplicateIdentityHash] unless the registry is paused. *)
Theorem identityHash_is_single_use (keccak256 : bytes32 → address → uint256 → bytes32)
    (e e' : Env) (h : bytes32) (ipfs ipfs' : string) (s s1 s2 : Registry.State)
    (did : bytes32) (txs : list (Env * Registry.Op)) :
  Registry.createIdentity keccak256 e h ipfs s = Ok (did, s1) →
  Registry.run keccak256 txs s1 = Ok s2 →
  is_ok (Registry.createIdentity keccak256 e' h ipfs' s2) = false
  ∧ (Registry.paused s2 = false →
     Registry.createIdentity keccak256 e' h ipfs' s2 = Err DuplicateIdentityHash).
Proof.
  intros Hcall Hrun.
  apply createIdentity_ok in Hcall as (_ & _ & _ & _ & _ & Hhash & _).
  assert (Hused : (Registry.identityHashExists s2).[h] = true).
  { apply (run_identityHashExists _ _ _ _ _ Hrun). by rewrite Hhash, sload_insert_eq. }
  unfold Registry.createIdentity, require. rewrite Hused. simpl.
  split; [by destruct (negb (Registry.paused s2)) | by intros ->].
Qed.

(** X2, witness: identity hash 11 after its identity was revoked. *)
Lemma identityHash_is_single_use_witness :
  is_ok (Registry.createIdentity keccak_model {| msg_sender := 9; block_timestamp := 2000 |}
           11 "QmZ" (registry_after identity_created_then_revoked)) = false
  ∧ (Registry.paused (registry_after identity_created_then_revoked) = false →
     Registry.createIdentity keccak_model {| msg_sender := 9; block_timestamp := 2000 |}
       11 "QmZ" (registry_after identity_created_then_revoked)
     = Err DuplicateIdentityHash).
Proof.
  apply (identityHash_is_single_use keccak_model
           {| msg_sender := 1; block_timestamp := 1000 |}
           {| msg_sender := 9; block_timestamp := 2000 |} 11 "QmA" "QmZ"
           (Registry.constructor 100) (registry_after identity_created)
           (registry_after identity_created_then_revoked) did_A
           [ tx 1 1001 (Registry.Call_revokeIdentity did_A) ]).
  - vm_compute; reflexivity.
  - vm_compute; reflexivity.
Defined.

(** ** How a transaction changes an identity *)

(** The effect of a successful transaction on the entry of one DID: it
    is left alone, or it is the entry written by one of the five functions
    that write identities, under that function's guards. *)
Lemma step_identity_cases (keccak256 : bytes32 → address → uint256 → bytes32)
    (e : Env) (op : Registry.Op) (s s' : Registry.State) (d : bytes32) :
  Registry.step keccak256 e op s = Ok s' →
  let old := (Registry.identities s).[d] in
  let new := (Registry.identities s').[d] in
  new = old
  ∨ (∃ h ipfs, op = Registry.Call_createIdentity h ipfs
       ∧ d = keccak256 h (msg_sender e) (block_timestamp e)
       ∧ (Registry.identityHashExists s).[h] = false
       ∧ new = {| Registry.identityHash := h; Registry.owner := msg_sender e;
                  Registry.createdAt := block_timestamp e;
                  Registry.lastUpdated := block_timestamp e;
                  Registry.isActive := true; Registry.isRevoked := false;
                  Registry.ipfsHash := ipfs; Registry.verificationLevel := 0 |})
  ∨ (∃ ipfs, op = Registry.Call_updateIdentity d ipfs
       ∧ Registry.owner old = msg_sender e
       ∧ Registry.isActive old = true ∧ Registry.isRevoked old = false
       ∧ new = Registry.set_lastUpdated (block_timestamp e) (Registry.set_ipfsHash ipfs old))
  ∨ (∃ ty proof, op = Registry.Call_addVerification d ty proof
       ∧ Registry.hasRole s VERIFIER_ROLE (msg_sender e) = true
       ∧ Registry.isActive old = true ∧ Registry.isRevoked old = false
       ∧ Registry.verificationLevel old < ty
       ∧ new = Registry.set_verificationLevel ty old)
  ∨ (op = Registry.Call_revokeIdentity d
       ∧ (Registry.owner old = msg_sender e ∨ Registry.hasRole s ADMIN_ROLE (msg_sender e) = true)
       ∧ Registry.isRevoked old = false
       ∧ new = Registry.set_lastUpdated (block_timestamp e)
                 (Registry.set_isActive false (Registry.set_isRevoked true old)))
  ∨ (op = Registry.Call_approveRecovery d
       ∧ Registry._isGuardian s d (msg_sender e) = true
       ∧ (Registry.pendingRecoveryAddress s).[d] ≠ 0
       ∧ new = Registry.set_lastUpdated (block_timestamp e)
                 (Registry.set_owner (Registry.pendingRecoveryAddress s).[d] old)).
Proof.
  intros Hstep old new. subst old new. destruct op.
  - apply step_createIdentity_ok in Hstep.
    apply createIdentity_ok in Hstep as (_ & _ & Hfresh & _ & Hids & _).
    rewrite Hids, sload_insert. case_decide as Hd; [|by left].
    right; left. by exists _identityHash, _ipfsHash.
  - simpl in Hstep. unfold Registry.updateIdentity in Hstep. inv_ok Hstep.
    injection Hstep as <-. simpl.
    destruct (decide (_did = d)) as [->|Hd]; [|left; by sload_simpl].
    right; right; left. exists _newIpfsHash. sload_simpl.
    apply N.eqb_eq in Hreq0. apply negb_true_iff in Hreq2. done.
  - simpl in Hstep. pose proof Hstep as Hrole.
    unfold Registry.addVerification in Hrole. inv_ok Hrole. clear Hrole Hchk.
    apply addVerification_ok in Hstep as (_ & Hact & Hrev & _ & _ & Hids & _).
    rewrite Hids.
    destruct (N.ltb_spec (Registry.verificationLevel (Registry.identities s).[_did])
                _verificationType) as [Hlt|Hge]; [|by left].
    rewrite sload_insert. case_decide as Hd; [subst d|by left].
    right; right; right; left. by exists _verificationType, _proofHash.
  - simpl in Hstep. unfold Registry.revokeVerification in Hstep. inv_ok Hstep.
    injection Hstep as <-. by left.
  - simpl in Hstep. unfold Registry.revokeIdentity in Hstep. inv_ok Hstep.
    injection Hstep as <-. simpl.
    destruct (decide (_did = d)) as [->|Hd]; [|left; by sload_simpl].
    right; right; right; right; left. sload_simpl.
    apply negb_true_iff in Hreq0. split; [done|]. split; [|done].
    apply orb_true_iff in Hreq as [Ho|Ha]; [left; by apply N.eqb_eq | by right].
  - simpl in Hstep. unfold Registry.addGuardian in Hstep. inv_ok Hstep.
    injection Hstep as <-. by left.
  - simpl in Hstep. unfold Registry.initiateRecovery in Hstep. inv_ok Hstep.
    injection Hstep as <-. by left.
  - simpl in Hstep. rewrite approveRecovery_unfold in Hstep. inv_ok Hstep.
    apply negb_true_iff, N.eqb_neq in Hreq0.
    destruct (Registry.requiredApprovals s _did <=? _); injection Hstep as <-;
      [|by left].
    simpl. destruct (decide (_did = d)) as [->|Hd]; [|left; by sload_simpl].
    do 5 right. by sload_simpl.
  - simpl in Hstep. unfold Registry.pause in Hstep. inv_ok Hstep.
    injection Hstep as <-. by left.
  - simpl in Hstep. unfold Registry.unpause in Hstep. inv_ok Hstep.
    injection Hstep as <-. by left.
  - simpl in Hstep. unfold Registry.grantRole in Hstep. inv_ok Hstep.
    injection Hstep as <-. left. by destruct (Registry.hasRole s role account).
  - simpl in Hstep. unfold Registry.revokeRole in Hstep. inv_ok Hstep.
    injection Hstep as <-. left. by destruct (Registry.hasRole s role account).
  - simpl in Hstep. unfold Registry.renounceRole in Hstep. inv_ok Hstep.
    injection Hstep as <-. left. by destruct (Registry.hasRole s role callerConfirmation).
Qed.

(** ** Revocation *)

Lemma step_flags_inv (keccak256 : bytes32 → address → uint256 → bytes32)
    (e : Env) (op : Registry.Op) (s s' : Registry.State) :
  Registry.step keccak256 e op s = Ok s' → flags_inv s → flags_inv s'.
Proof.
  intros Hstep Hinv d.
  destruct (step_identity_cases _ _ _ _ _ d Hstep)
    as [->|[(h & ipfs & _ & _ & _ & ->)|[(ipfs & _ & _ & Hact & Hrev & ->)
       |[(ty & pr & _ & _ & Hact & Hrev & _ & ->)|[(_ & _ & _ & ->)|(_ & _ & _ & ->)]]]]];
    simpl; try done; try apply Hinv; congruence.
Qed.

Lemma reachable_flags_inv (keccak256 : bytes32 → address → uint256 → bytes32)
    (s : Registry.State) :
  Registry.reachable keccak256 s → flags_inv s.
Proof.
  induction 1 as [deployer _|s s' e op _ IH _ Hstep].
  - intros d. simpl. by rewrite sload_empty.
  - by eapply step_flags_inv.
Qed.

(** X3: in every reachable state a revoked identity is inactive. The
    activity test comes before the revocation test in [updateIdentity]
    and [addVerification], so on a revoked identity both revert at the
    activity test: neither function ever reverts with [IdentityRevoked],
    and the owner of a revoked identity who updates it on an unpaused
    registry gets [IdentityInactive]. *)
Theorem revoked_identity_reports_inactive
    (keccak256 : bytes32 → address → uint256 → bytes32) (s : Registry.State) :
  Registry.reachable keccak256 s →
  (∀ did, Registry.isRevoked (Registry.identities s).[did] = true →
          Registry.isActive (Registry.identities s).[did] = false)
  ∧ (∀ e did ipfs, Registry.updateIdentity e did ipfs s ≠ Err IdentityRevoked)
  ∧ (∀ e did ty proof, Registry.addVerification e did ty proof s ≠ Err IdentityRevoked)
  ∧ (∀ e did ipfs,
       Registry.isRevoked (Registry.identities s).[did] = true →
       Registry.paused s = false →
       Registry.owner (Registry.identities s).[did] = msg_sender e →
       Registry.updateIdentity e did ipfs s = Err IdentityInactive).
Proof.
  intros Hreach. pose proof (reachable_flags_inv _ _ Hreach) as Hinv.
  split; [done|]. split; [|split].
  - intros e did ipfs. unfold Registry.updateIdentity, require.
    destruct (negb (Registry.paused s)); [|done].
    destruct (_ =? _); [|done].
    destruct (Registry.isActive (Registry.identities s).[did]) eqn:Hact; [|done].
    destruct (Registry.isRevoked (Registry.identities s).[did]) eqn:Hrev; [|done].
    specialize (Hinv did Hrev). congruence.
  - intros e did ty proof. unfold Registry.addVerification, require.
    destruct (negb (Registry.paused s)); [|done].
    destruct (Registry.hasRole _ _ _); [|done].
    destruct (Registry.isActive (Registry.identities s).[did]) eqn:Hact; [|done].
    destruct (Registry.isRevoked (Registry.identities s).[did]) eqn:Hrev; simpl.
    + specialize (Hinv did Hrev). congruence.
    + destruct (_ && _); [|done]. unfold checked. by destruct (checked_add _ _).
  - intros e did ipfs Hrev Hpaused Howner. unfold Registry.updateIdentity, require.
    rewrite Hpaused, Howner, N.eqb_refl, (Hinv did Hrev). done.
Qed.

(** X3, witness: the owner of the revoked identity A updates it. *)
Lemma revoked_identity_reports_inactive_witness :
  Registry.updateIdentity {| msg_sender := 1; block_timestamp := 1002 |} did_A "QmNew"
    (registry_after identity_created_then_revoked) = Err IdentityInactive.
Proof.
  apply (revoked_identity_reports_inactive keccak_model
           (registry_after identity_created_then_revoked)).
  - apply registry_after_reachable; vm_compute; reflexivity.
  - vm_compute; reflexivity.
  - vm_compute; reflexivity.
  - vm_compute; reflexivity.
Defined.

(** X4: a revoked identity stays revoked and inactive through every
    successful transaction: no function clears the flags, and a second
    [revokeIdentity] reverts for every caller. The one exception is a
    [createIdentity] call that derives this very DID from an unused
    identity hash, which overwrites the whole entry. *)
Theorem revocation_is_terminal (keccak256 : bytes32 → address → uint256 → bytes32)
    (e : Env) (op : Registry.Op) (s s' : Registry.State) (did : bytes32) :
  Registry.isRevoked (Registry.identities s).[did] = true →
  Registry.isActive (Registry.identities s).[did] = false →
  (∀ e', is_ok (Registry.revokeIdentity e' did s) = false)
  ∧ (Registry.step keccak256 e op s = Ok s' →
     (Registry.isRevoked (Registry.identities s').[did] = true
      ∧ Registry.isActive (Registry.identities s').[did] = false)
     ∨ ∃ h ipfs, op = Registry.Call_createIdentity h ipfs
         ∧ did = keccak256 h (msg_sender e) (block_timestamp e)
         ∧ (Registry.identityHashExists s).[h] = false).
Proof.
  intros Hrev Hact. split.
  - intros e'. unfold Registry.revokeIdentity, require. rewrite Hrev. simpl.
    by destruct (_ || _).
  - intros Hstep.
    destruct (step_identity_cases _ _ _ _ _ did Hstep)
      as [->|[(h & ipfs & Hop & Hd & Hfresh & _)|[(ipfs & _ & _ & Hact' & _)
         |[(ty & pr & _ & _ & Hact' & _)|[(_ & _ & Hrev' & _)|(_ & _ & _ & ->)]]]]];
      try congruence.
    + by left.
    + right. by exists h, ipfs.
    + by left.
Qed.

(** X4, witness: the revoked identity A under a role grant. *)
Lemma revocation_is_terminal_witness :
  let s := registry_after identity_created_then_revoked in
  let e := {| msg_sender := 100; block_timestamp := 1002 |} in
  ∃ s', Registry.step keccak_model e (Registry.Call_grantRole VERIFIER_ROLE 50) s = Ok s'
  ∧ Registry.isRevoked (Registry.identities s).[did_A] = true
  ∧ Registry.isActive (Registry.identities s).[did_A] = false
  ∧ ((Registry.isRevoked (Registry.identities s').[did_A] = true
      ∧ Registry.isActive (Registry.identities s').[did_A] = false)
     ∨ ∃ h ipfs, Registry.Call_grantRole VERIFIER_ROLE 50 = Registry.Call_createIdentity h ipfs
         ∧ did_A = keccak_model h 100 1002
         ∧ (Registry.identityHashExists s).[h] = false).
Proof.
  eexists. split; [vm_compute; reflexivity|].
  split; [vm_compute; reflexivity|]. split; [vm_compute; reflexivity|].
  apply (revocation_is_terminal keccak_model
           {| msg_sender := 100; block_timestamp := 1002 |}
           (Registry.Call_grantRole VERIFIER_ROLE 50)
           (registry_after identity_created_then_revoked) _ did_A).
  - vm_compute; reflexivity.
  - vm_compute; reflexivity.
  - vm_compute; reflexivity.
Defined.

(** ** Who can change an identity *)

(** X5: a successful transaction changes the entry of a DID only when
    its sender is the owner of the identity, a verifier, an administrator
    or one of its guardians, or when it is the [createIdentity] call that
    derives this DID. *)
Theorem only_privileged_callers_change_an_identity
    (keccak256 : bytes32 → address → uint256 → bytes32)
    (e : Env) (op : Registry.Op) (s s' : Registry.State) (did : bytes32) :
  Registry.step keccak256 e op s = Ok s' →
  (Registry.identities s').[did] ≠ (Registry.identities s).[did] →
  Registry.owner (Registry.identities s).[did] = msg_sender e
  ∨ Registry.hasRole s VERIFIER_ROLE (msg_sender e) = true
  ∨ Registry.hasRole s ADMIN_ROLE (msg_sender e) = true
  ∨ Registry._isGuardian s did (msg_sender e) = true
  ∨ ∃ h ipfs, op = Registry.Call_createIdentity h ipfs
      ∧ did = keccak256 h (msg_sender e) (block_timestamp e).
Proof.
  intros Hstep Hchanged.
  destruct (step_identity_cases _ _ _ _ _ did Hstep)
    as [Hsame|[(h & ipfs & Hop & Hd & _)|[(ipfs & _ & Ho & _)
       |[(ty & pr & _ & Hv & _)|[(_ & [Ho|Ha] & _)|(_ & Hg & _)]]]]];
    try congruence; auto 10.
  do 4 right. by exists h, ipfs.
Qed.

(** X5, witness: the owner's update of identity A. *)
Lemma only_privileged_callers_change_an_identity_witness :
  Registry.owner (Registry.identities (registry_after identity_created)).[did_A] = 1
  ∨ Registry.hasRole (registry_after identity_created) VERIFIER_ROLE 1 = true
  ∨ Registry.hasRole (registry_after identity_created) ADMIN_ROLE 1 = true
  ∨ Registry._isGuardian (registry_after identity_created) did_A 1 = true
  ∨ ∃ h ipfs, Registry.Call_updateIdentity did_A "QmNew" = Registry.Call_createIdentity h ipfs
      ∧ did_A = keccak_model h 1 1001.
Proof.
  apply (only_privileged_callers_change_an_identity keccak_model
           {| msg_sender := 1; block_timestamp := 1001 |}
           (Registry.Call_updateIdentity did_A "QmNew")
           (registry_after identity_created)
           (registry_after (identity_created ++
              [tx 1 1001 (Registry.Call_updateIdentity did_A "QmNew")])) did_A).
  - vm_compute; reflexivity.
  - vm_compute; discriminate.
Defined.

(** ** The verification ledger *)

(** The effect of a successful transaction on the records of one DID. *)
Lemma step_verifications_cases (keccak256 : bytes32 → address → uint256 → bytes32)
    (e : Env) (op : Registry.Op) (s s' : Registry.State) (d : bytes32) :
  Registry.step keccak256 e op s = Ok s' →
  let old := (Registry.verifications s).[d] in
  let new := (Registry.verifications s').[d] in
  new = old
  ∨ (∃ ty proof, op = Registry.Call_addVerification d ty proof
       ∧ 1 ≤ ty ≤ 4
       ∧ new = old ++ [ {| Registry.verifier := msg_sender e;
                           Registry.timestamp := block_timestamp e;
                           Registry.verificationType := ty;
                           Registry.proofHash := proof;
                           Registry.isValid := true |} ])
  ∨ (∃ i v, op = Registry.Call_revokeVerification d i
       ∧ old !! N.to_nat i = Some v
       ∧ Registry.verifier v = msg_sender e
       ∧ Registry.hasRole s VERIFIER_ROLE (msg_sender e) = true
       ∧ new = <[N.to_nat i := Registry.set_isValid false v]> old).
Proof.
  intros Hstep old new. subst old new. destruct op.
  - apply step_createIdentity_ok in Hstep.
    apply createIdentity_ok in Hstep as (_ & _ & _ & _ & _ & _ & _ & _ & -> & _). by left.
  - simpl in Hstep. unfold Registry.updateIdentity in Hstep. inv_ok Hstep.
    injection Hstep as <-. by left.
  - simpl in Hstep.
    apply addVerification_ok in Hstep as (_ & _ & _ & Hty & -> & _).
    rewrite sload_insert. case_decide as Hd; [subst d|by left].
    right; left. by exists _verificationType, _proofHash.
  - simpl in Hstep. unfold Registry.revokeVerification in Hstep. inv_ok Hstep.
    injection Hstep as <-. simpl.
    rewrite sload_insert. case_decide as Hd; [subst d|by left].
    right; right. apply N.ltb_lt in Hreq0. unfold array_length in Hreq0.
    destruct (lookup_lt_is_Some_2 (Registry.verifications s).[_did]
                (N.to_nat _verificationIndex)) as [v Hv]; [lia|].
    rewrite Hv in *. simpl in *. apply N.eqb_eq in Hreq1.
    by exists _verificationIndex, v.
  - simpl in Hstep. unfold Registry.revokeIdentity in Hstep. inv_ok Hstep.
    injection Hstep as <-. by left.
  - simpl in Hstep. unfold Registry.addGuardian in Hstep. inv_ok Hstep.
    injection Hstep as <-. by left.
  - simpl in Hstep. unfold Registry.initiateRecovery in Hstep. inv_ok Hstep.
    injection Hstep as <-. by left.
  - simpl in Hstep. rewrite approveRecovery_unfold in Hstep. inv_ok Hstep.
    left. by destruct (Registry.requiredApprovals s _did <=? _); injection Hstep as <-.
  - simpl in Hstep. unfold Registry.pause in Hstep. inv_ok Hstep.
    injection Hstep as <-. by left.
  - simpl in Hstep. unfold Registry.unpause in Hstep. inv_ok Hstep.
    injection Hstep as <-. by left.
  - simpl in Hstep. unfold Registry.grantRole in Hstep. inv_ok Hstep.
    injection Hstep as <-. left. by destruct (Registry.hasRole s role account).
  - simpl in Hstep. unfold Registry.revokeRole in Hstep. inv_ok Hstep.
    injection Hstep as <-. left. by destruct (Registry.hasRole s role account).
  - simpl in Hstep. unfold Registry.renounceRole in Hstep. inv_ok Hstep.
    injection Hstep as <-. left. by destruct (Registry.hasRole s role callerConfirmation).
Qed.

Lemma addVerification_total (e : Env) (did : bytes32) (ty : uint8) (proof : bytes32)
    (s s' : Registry.State) :
  Registry.addVerification e did ty proof s = Ok s' →
  Registry.totalVerifications s' = Registry.totalVerifications s + 1.
Proof.
  intros Hcall. unfold Registry.addVerification in Hcall. inv_ok Hcall.
  injection Hcall as <-. apply checked_add_Some in Hchk as [-> _].
  simpl. by destruct (_ <? _).
Qed.

(** X6: a successful [addVerification] appends one record:
    [getVerificationCount] grows by one, [getVerification] at the old
    count returns the caller, the block time, the type, the proof hash and
    [isValid = true], every earlier index reads as before, and the level of
    the identity becomes the larger of its old level and the new type. *)
Theorem addVerification_roundtrip (e : Env) (did : bytes32) (ty : uint8) (proof : bytes32)
    (s s' : Registry.State) :
  Registry.addVerification e did ty proof s = Ok s' →
  Registry.getVerificationCount s' did = Registry.getVerificationCount s did + 1
  ∧ Registry.getVerification s' did (Registry.getVerificationCount s did)
    = Ok (msg_sender e, block_timestamp e, ty, proof, true)
  ∧ (∀ i, i < Registry.getVerificationCount s did →
          Registry.getVerification s' did i = Registry.getVerification s did i)
  ∧ Registry.verificationLevel (Registry.identities s').[did]
    = N.max (Registry.verificationLevel (Registry.identities s).[did]) ty
  ∧ Registry.totalVerifications s' = Registry.totalVerifications s + 1.
Proof.
  intros Hcall. pose proof (addVerification_total _ _ _ _ _ _ Hcall) as Htotal.
  apply addVerification_ok in Hcall as (_ & _ & _ & _ & Hvs & Hids & _).
  unfold Registry.getVerificationCount, Registry.getVerification, array_length, require.
  rewrite Hvs, Hids, !sload_insert_eq, length_app. simpl.
  split; [lia|]. split; [|split; [|split; [|done]]].
  - assert (Hlt : (N.of_nat (length (Registry.verifications s).[did])
                   <? N.of_nat (length (Registry.verifications s).[did] + 1)) = true).
    { apply N.ltb_lt. lia. }
    rewrite Hlt, Nat2N.id, lookup_app_r, Nat.sub_diag by done. done.
  - intros i Hi. apply N.ltb_lt in Hi as Hi'. rewrite Hi'.
    assert (Hlt : (i <? N.of_nat (length (Registry.verifications s).[did] + 1)) = true).
    { apply N.ltb_lt. lia. }
    rewrite Hlt, lookup_app_l by lia. done.
  - destruct (N.ltb_spec (Registry.verificationLevel (Registry.identities s).[did]) ty);
      rewrite ?sload_insert_eq; simpl; lia.
Qed.

(** X6, witness: the verifier's record for identity A. *)
Lemma addVerification_roundtrip_witness :
  let s := registry_after (firstn 2 verification_added_then_revoked) in
  let s' := registry_after (firstn 3 verification_added_then_revoked) in
  Registry.getVerificationCount s' did_A = Registry.getVerificationCount s did_A + 1
  ∧ Registry.getVerification s' did_A (Registry.getVerificationCount s did_A)
    = Ok (50, 1002, 3, 77, true)
  ∧ (∀ i, i < Registry.getVerificationCount s did_A →
          Registry.getVerification s' did_A i = Registry.getVerification s did_A i)
  ∧ Registry.verificationLevel (Registry.identities s').[did_A]
    = N.max (Registry.verificationLevel (Registry.identities s).[did_A]) 3
  ∧ Registry.totalVerifications s' = Registry.totalVerifications s + 1.
Proof.
  apply (addVerification_roundtrip {| msg_sender := 50; block_timestamp := 1002 |}
           did_A 3 77).
  vm_compute; reflexivity.
Defined.

Lemma attestation_set_isValid (b : bool) (v : Registry.Verification) :
  attestation (Registry.set_isValid b v) = attestation v.
Proof. done. Qed.

Lemma step_ledger_append_only (keccak256 : bytes32 → address → uint256 → bytes32)
    (e : Env) (op : Registry.Op) (s s' : Registry.State) (d : bytes32) :
  Registry.step keccak256 e op s = Ok s' →
  map attestation (Registry.verifications s).[d]
    `prefix_of` map attestation (Registry.verifications s').[d]
  ∧ validity_only_lost (Registry.verifications s).[d] (Registry.verifications s').[d].
Proof.
  intros Hstep.
  destruct (step_verifications_cases _ _ _ _ _ d Hstep)
    as [->|[(ty & pr & _ & _ & ->)|(i & v & _ & Hv & _ & _ & ->)]].
  - split; [done|]. intros i v v' Hv Hv' Hvalid. congruence.
  - split; [rewrite map_app; by apply prefix_app_r|].
    intros i v v' Hv Hv' Hvalid.
    rewrite lookup_app_l in Hv' by (by eapply lookup_lt_Some). congruence.
  - split.
    + change (map attestation) with (fmap (M:=list) attestation).
      rewrite list_fmap_insert, attestation_set_isValid, list_insert_id; [done|].
      by rewrite list_lookup_fmap, Hv.
    + intros j w w' Hw Hw' Hvalid. destruct (decide (N.to_nat i = j)) as [<-|Hne].
      * rewrite list_lookup_insert_eq in Hw' by (by eapply lookup_lt_Some).
        injection Hw' as <-. done.
      * rewrite list_lookup_insert_ne in Hw' by done. congruence.
Qed.

Lemma run_ledger_append_only (keccak256 : bytes32 → address → uint256 → bytes32)
    (txs : list (Env * Registry.Op)) (s s' : Registry.State) (d : bytes32) :
  Registry.run keccak256 txs s = Ok s' →
  map attestation (Registry.verifications s).[d]
    `prefix_of` map attestation (Registry.verifications s').[d]
  ∧ validity_only_lost (Registry.verifications s).[d] (Registry.verifications s').[d].
Proof.
  revert s. induction txs as [|[e op] txs IH]; intros s Hrun; simpl in Hrun.
  - injection Hrun as <-. split; [done|]. intros i v v' Hv Hv' Hvalid. congruence.
  - destruct (Registry.step keccak256 e op s) as [s1|err] eqn:Hstep; simpl in Hrun;
      [|discriminate].
    destruct (step_ledger_append_only _ _ _ _ _ d Hstep) as [Hpre1 Hval1].
    destruct (IH s1 Hrun) as [Hpre2 Hval2].
    split; [by etrans|].
    intros i v v' Hv Hv' Hvalid.
    assert (Hlen : (i < length (Registry.verifications s1).[d])%nat).
    { apply prefix_length in Hpre1. rewrite !length_map in Hpre1.
      apply lookup_lt_Some in Hv. lia. }
    destruct (lookup_lt_is_Some_2 _ _ Hlen) as [v1 Hv1].
    apply (Hval1 i v v1 Hv Hv1). by apply (Hval2 i v1 v' Hv1 Hv').
Qed.

(** X7: the verification ledger is append-only. Over any sequence of
    successful transactions the records of an identity keep their position,
    verifier, timestamp, type and proof hash, none is deleted, the count
    never decreases, and a validity flag that is false never becomes true
    again. *)
Theorem ledger_is_append_only (keccak256 : bytes32 → address → uint256 → bytes32)
    (txs : list (Env * Registry.Op)) (s s' : Registry.State) (did : bytes32) :
  Registry.run keccak256 txs s = Ok s' →
  map attestation (Registry.verifications s).[did]
    `prefix_of` map attestation (Registry.verifications s').[did]
  ∧ validity_only_lost (Registry.verifications s).[did] (Registry.verifications s').[did]
  ∧ Registry.getVerificationCount s did ≤ Registry.getVerificationCount s' did.
Proof.
  intros Hrun. destruct (run_ledger_append_only _ _ _ _ did Hrun) as [Hpre Hval].
  split; [done|]. split; [done|].
  apply prefix_length in Hpre. rewrite !length_map in Hpre.
  unfold Registry.getVerificationCount, array_length. lia.
Qed.

(** X7, witness: the ledger of identity A across the revocation of its
    record. *)
Lemma ledger_is_append_only_witness :
  let s := registry_after (firstn 3 verification_added_then_revoked) in
  let s' := registry_after verification_added_then_revoked in
  map attestation (Registry.verifications s).[did_A]
    `prefix_of` map attestation (Registry.verifications s').[did_A]
  ∧ validity_only_lost (Registry.verifications s).[did_A] (Registry.verifications s').[did_A]
  ∧ Registry.getVerificationCount s did_A ≤ Registry.getVerificationCount s' did_A.
Proof.
  apply (ledger_is_append_only keccak_model
           [ tx 50 1003 (Registry.Call_revokeVerification did_A 0) ]).
  vm_compute; reflexivity.
Defined.

(** ** The level never decreases *)

(** X8: the verification level of an identity never decreases over a
    sequence of successful transactions, from any state and for any DID
    hash, as long as none of them is a [createIdentity] that returns this
    very DID (which would overwrite the whole entry): neither a lower-type
    verification, nor the revocation of a verification or of the identity,
    nor a recovery lowers it. *)
Theorem verificationLevel_never_decreases
    (keccak256 : bytes32 → address → uint256 → bytes32)
    (txs : list (Env * Registry.Op)) (s s' : Registry.State) (did : bytes32) :
  Registry.run keccak256 txs s = Ok s' →
  did ∉ created_ids keccak256 txs s →
  Registry.verificationLevel (Registry.identities s).[did]
  ≤ Registry.verificationLevel (Registry.identities s').[did].
Proof.
  revert s. induction txs as [|[e op] txs IH]; intros s Hrun Hnot; simpl in Hrun.
  - by injection Hrun as <-.
  - destruct (Registry.step keccak256 e op s) as [s1|err] eqn:Hstep; simpl in Hrun;
      [|discriminate].
    rewrite (created_ids_cons _ _ _ _ _ _ Hstep), elem_of_app in Hnot.
    trans (Registry.verificationLevel (Registry.identities s1).[did]);
      [|apply (IH s1 Hrun); tauto].
    destruct (step_identity_cases _ _ _ _ _ did Hstep)
      as [->|[(h & ipfs & -> & Hd & _)|[(ipfs & _ & _ & _ & _ & ->)
         |[(ty & pr & _ & _ & _ & _ & Hlt & ->)|[(_ & _ & _ & ->)|(_ & _ & _ & ->)]]]]];
      simpl; try lia.
    destruct Hnot. left. simpl. rewrite Hd. by apply list_elem_of_singleton.
Qed.

(** X8, witness: identity A after a type-3 verification, followed by
    its revocation and a type-1 verification. *)
Lemma verificationLevel_never_decreases_witness :
  Registry.verificationLevel
    (Registry.identities (registry_after (firstn 3 verification_added_then_revoked))).[did_A]
  ≤ Registry.verificationLevel
      (Registry.identities
         (registry_after (verification_added_then_revoked ++
            [ tx 50 1004 (Registry.Call_addVerification did_A 1 78) ]))).[did_A].
Proof.
  apply (verificationLevel_never_decreases keccak_model
           [ tx 50 1003 (Registry.Call_revokeVerification did_A 0);
             tx 50 1004 (Registry.Call_addVerification did_A 1 78) ]).
  - vm_compute; reflexivity.
  - assert (Hids : created_ids keccak_model
                     [ tx 50 1003 (Registry.Call_revokeVerification did_A 0);
                       tx 50 1004 (Registry.Call_addVerification did_A 1 78) ]
                     (registry_after (firstn 3 verification_added_then_revoked)) = [])
      by (vm_compute; reflexivity).
    rewrite Hids. apply not_elem_of_nil.
Defined.

(** ** Revoking a verification *)

(** X9: a successful [revokeVerification] clears the validity flag of
    the record at the given index and nothing else: the count, the other
    fields of the record, every other record and the level of the identity
    are as before. The call can be repeated: on an already revoked record
    it succeeds again and changes nothing. *)
Theorem revokeVerification_effect (e : Env) (did : bytes32) (i : uint256)
    (s s' : Registry.State) :
  Registry.revokeVerification e did i s = Ok s' →
  i < Registry.getVerificationCount s did
  ∧ Registry.getVerificationCount s' did = Registry.getVerificationCount s did
  ∧ (∃ ts ty proof valid,
       Registry.getVerification s did i = Ok (msg_sender e, ts, ty, proof, valid)
       ∧ Registry.getVerification s' did i = Ok (msg_sender e, ts, ty, proof, false))
  ∧ (∀ j, j ≠ i → Registry.getVerification s' did j = Registry.getVerification s did j)
  ∧ Registry.identities s' = Registry.identities s
  ∧ Registry.revokeVerification e did i s' = Ok s'.
Proof.
  intros Hcall. unfold Registry.revokeVerification in Hcall. inv_ok Hcall.
  injection Hcall as <-.
  apply N.ltb_lt in Hreq0 as Hlt. unfold array_length in Hlt.
  destruct (lookup_lt_is_Some_2 (Registry.verifications s).[did] (N.to_nat i))
    as [v Hv]; [lia|].
  rewrite Hv in *. simpl in Hreq1. apply N.eqb_eq in Hreq1 as Hver.
  unfold Registry.getVerificationCount, Registry.getVerification, Registry.revokeVerification,
    Registry.hasRole, array_length, require in *. simpl.
  rewrite !sload_insert_eq, !length_insert, Hreq, Hreq0, Hv.
  rewrite list_lookup_insert_eq by lia. simpl. rewrite Hreq1.
  split; [lia|]. split; [done|]. split; [|split; [|split; [done|]]].
  - exists (Registry.timestamp v), (Registry.verificationType v), (Registry.proofHash v),
      (Registry.isValid v). by rewrite Hver.
  - intros j Hj. rewrite list_lookup_insert_ne; [done|]. intros Heq. apply Hj.
    by apply N2Nat.inj.
  - by rewrite list_insert_insert_eq, insert_insert_eq.
Qed.

(** X9, witness: the verifier revokes the record of identity A. *)
Lemma revokeVerification_effect_witness :
  let s := registry_after (firstn 3 verification_added_then_revoked) in
  let s' := registry_after verification_added_then_revoked in
  let e := {| msg_sender := 50; block_timestamp := 1003 |} in
  0 < Registry.getVerificationCount s did_A
  ∧ Registry.getVerificationCount s' did_A = Registry.getVerificationCount s did_A
  ∧ (∃ ts ty proof valid,
       Registry.getVerification s did_A 0 = Ok (msg_sender e, ts, ty, proof, valid)
       ∧ Registry.getVerification s' did_A 0 = Ok (msg_sender e, ts, ty, proof, false))
  ∧ (∀ j, j ≠ 0 → Registry.getVerification s' did_A j = Registry.getVerification s did_A j)
  ∧ Registry.identities s' = Registry.identities s
  ∧ Registry.revokeVerification e did_A 0 s' = Ok s'.
Proof.
  apply (revokeVerification_effect {| msg_sender := 50; block_timestamp := 1003 |} did_A 0).
  vm_compute; reflexivity.
Defined.

(** X10: the index of a verification is checked against the count of
    the identity: at or beyond the count, [getVerification] reverts with
    [IndexOutOfRange] and [revokeVerification] reverts for every caller (with
    [IndexOutOfRange] for a verifier); below the count, [getVerification]
    returns the fields of the record stored at that index. An identity
    without records rejects every index. *)
Theorem verification_index_is_bounds_checked (s : Registry.State) (did : bytes32)
    (i : uint256) :
  (Registry.getVerificationCount s did ≤ i →
     Registry.getVerification s did i = Err IndexOutOfRange
     ∧ ∀ e, is_ok (Registry.revokeVerification e did i s) = false
          ∧ (Registry.hasRole s VERIFIER_ROLE (msg_sender e) = true →
             Registry.revokeVerification e did i s = Err IndexOutOfRange))
  ∧ (i < Registry.getVerificationCount s did →
     ∃ v, (Registry.verifications s).[did] !! N.to_nat i = Some v
       ∧ Registry.getVerification s did i
         = Ok (Registry.verifier v, Registry.timestamp v, Registry.verificationType v,
               Registry.proofHash v, Registry.isValid v)).
Proof.
  unfold Registry.getVerificationCount, Registry.getVerification,
    Registry.revokeVerification, require. split.
  - intros Hge. apply N.ltb_ge in Hge as Hb. rewrite Hb. split; [done|].
    intros e. split; [by destruct (Registry.hasRole _ _ _) | by intros ->].
  - intros Hlt. apply N.ltb_lt in Hlt as Hb. rewrite Hb. unfold array_length in Hlt.
    destruct (lookup_lt_is_Some_2 (Registry.verifications s).[did] (N.to_nat i))
      as [v Hv]; [lia|].
    exists v. by rewrite Hv.
Qed.

(** X10, witness: index 1 of identity A, which has one record. *)
Lemma verification_index_is_bounds_checked_witness :
  Registry.getVerification (registry_after verification_added_then_revoked) did_A 1
  = Err IndexOutOfRange.
Proof.
  apply (verification_index_is_bounds_checked
           (registry_after verification_added_then_revoked) did_A 1).
  vm_compute; discriminate.
Defined.

(** * Further properties of the recovery protocol *)

(** ** Guardians *)

(** The effect of a successful transaction on the recovery fields of
    one DID. *)
Lemma step_recovery_cases (keccak256 : bytes32 → address → uint256 → bytes32)
    (e : Env) (op : Registry.Op) (s s' : Registry.State) (d : bytes32) :
  Registry.step keccak256 e op s = Ok s' →
  ((Registry.guardians s').[d] = (Registry.guardians s).[d]
   ∧ (Registry.pendingRecoveryAddress s').[d] = (Registry.pendingRecoveryAddress s).[d])
  ∨ (∃ g, op = Registry.Call_addGuardian d g
       ∧ Registry.owner (Registry.identities s).[d] = msg_sender e
       ∧ g ≠ 0 ∧ g ≠ msg_sender e
       ∧ (Registry.guardians s').[d] = (Registry.guardians s).[d] ++ [g]
       ∧ (Registry.pendingRecoveryAddress s').[d] = (Registry.pendingRecoveryAddress s).[d])
  ∨ (∃ o, op = Registry.Call_initiateRecovery d o
       ∧ (Registry.pendingRecoveryAddress s).[d] = 0 ∧ o ≠ 0
       ∧ (Registry.guardians s').[d] = (Registry.guardians s).[d]
       ∧ (Registry.pendingRecoveryAddress s').[d] = o)
  ∨ (op = Registry.Call_approveRecovery d
       ∧ (Registry.pendingRecoveryAddress s).[d] ≠ 0
       ∧ (Registry.guardians s').[d] = (Registry.guardians s).[d]
       ∧ (Registry.pendingRecoveryAddress s').[d] = 0
       ∧ Registry.owner (Registry.identities s').[d] = (Registry.pendingRecoveryAddress s).[d]).
Proof.
  intros Hstep.
  pose proof (step_recovery_frame _ _ _ _ _ Hstep) as Hframe.
  destruct op;
    try (left; unfold recovery_fields in Hframe; injection Hframe as -> _ -> _; done);
    simpl in Hstep.
  - unfold Registry.addGuardian in Hstep. inv_ok Hstep. injection Hstep as <-. simpl.
    destruct (decide (_did = d)) as [->|Hd]; [|left; by sload_simpl].
    right; left. exists _guardian. sload_simpl.
    apply N.eqb_eq in Hreq. apply negb_true_iff, N.eqb_neq in Hreq0, Hreq1. done.
  - unfold Registry.initiateRecovery in Hstep. inv_ok Hstep. injection Hstep as <-. simpl.
    destruct (decide (_did = d)) as [->|Hd]; [|left; by sload_simpl].
    right; right; left. exists _newOwner. sload_simpl.
    apply negb_true_iff, N.eqb_neq in Hreq0. apply N.eqb_eq in Hreq1. done.
  - rewrite approveRecovery_unfold in Hstep. inv_ok Hstep.
    apply negb_true_iff, N.eqb_neq in Hreq0.
    destruct (Registry.requiredApprovals s _did <=? _); injection Hstep as <-;
      [|by left].
    simpl. destruct (decide (_did = d)) as [->|Hd]; [|left; by sload_simpl].
    do 3 right. by sload_simpl.
Qed.

Lemma run_guardians_prefix (keccak256 : bytes32 → address → uint256 → bytes32)
    (txs : list (Env * Registry.Op)) (s s' : Registry.State) (d : bytes32) :
  Registry.run keccak256 txs s = Ok s' →
  (Registry.guardians s).[d] `prefix_of` (Registry.guardians s').[d].
Proof.
  revert s. induction txs as [|[e op] txs IH]; intros s Hrun; simpl in Hrun.
  - by injection Hrun as <-.
  - destruct (Registry.step keccak256 e op s) as [s1|err] eqn:Hstep; simpl in Hrun;
      [|discriminate].
    trans (Registry.guardians s1).[d]; [|by apply IH].
    destruct (step_recovery_cases _ _ _ _ _ d Hstep)
      as [[-> _]|[(g & _ & _ & _ & _ & -> & _)|[(o & _ & _ & _ & -> & _)|(_ & _ & -> & _)]]];
      try done. by apply prefix_app_r.
Qed.

(** No guardian is the zero address. *)
Lemma reachable_guardians_nonzero (keccak256 : bytes32 → address → uint256 → bytes32)
    (s : Registry.State) (d : bytes32) :
  Registry.reachable keccak256 s → 0 ∉ (Registry.guardians s).[d].
Proof.
  induction 1 as [deployer _|s s' e op _ IH _ Hstep].
  - simpl. rewrite sload_empty. apply not_elem_of_nil.
  - destruct (step_recovery_cases _ _ _ _ _ d Hstep)
      as [[-> _]|[(g & _ & _ & Hg & _ & -> & _)|[(o & _ & _ & _ & -> & _)|(_ & _ & -> & _)]]];
      try done.
    rewrite elem_of_app, list_elem_of_singleton. intros [?|?]; [done|congruence].
Qed.

(** X11: guardians can only be added. From a reachable state on, over
    any sequence of successful transactions, the guardian array of an
    identity is extended at its end and never shortened or reordered, so a
    guardian stays a guardian, also after a completed recovery; and the
    zero address is never a guardian. *)
Theorem guardians_only_grow (keccak256 : bytes32 → address → uint256 → bytes32)
    (txs : list (Env * Registry.Op)) (s s' : Registry.State) (did : bytes32) :
  Registry.reachable keccak256 s →
  Registry.run keccak256 txs s = Ok s' →
  Registry.getGuardians s did `prefix_of` Registry.getGuardians s' did
  ∧ (∀ a, Registry._isGuardian s did a = true → Registry._isGuardian s' did a = true)
  ∧ Registry._isGuardian s did 0 = false.
Proof.
  intros Hreach Hrun. pose proof (run_guardians_prefix _ _ _ _ did Hrun) as Hpre.
  split; [done|]. split.
  - intros a. unfold Registry._isGuardian. rewrite !_isGuardian_scan_elem_of.
    destruct Hpre as [k ->]. rewrite elem_of_app. auto.
  - unfold Registry._isGuardian.
    destruct (Registry._isGuardian_scan _ 0) eqn:Hscan; [|done].
    apply _isGuardian_scan_elem_of in Hscan.
    by apply (reachable_guardians_nonzero _ _ did) in Hreach.
Qed.

(** X11, witness: the guardians of identity A across a completed
    recovery. *)
Lemma guardians_only_grow_witness :
  let s := registry_after three_guardians_pending in
  let s' := registry_after three_guardians_second_approval in
  Registry.getGuardians s did_A `prefix_of` Registry.getGuardians s' did_A
  ∧ (∀ a, Registry._isGuardian s did_A a = true → Registry._isGuardian s' did_A a = true)
  ∧ Registry._isGuardian s did_A 0 = false.
Proof.
  apply (guardians_only_grow keccak_model
           [ tx 22 1006 (Registry.Call_approveRecovery did_A) ]).
  - apply registry_after_reachable; vm_compute; reflexivity.
  - vm_compute; reflexivity.
Defined.

(** ** A pending request *)

(** X12: a pending recovery request can be neither cancelled nor
    replaced. While a request is pending, every [initiateRecovery] for the
    identity reverts, and a successful transaction either leaves the
    proposed owner as it is or is the [approveRecovery] that completes the
    request and hands the identity to exactly that proposed owner. *)
Theorem pending_request_cannot_be_cancelled
    (keccak256 : bytes32 → address → uint256 → bytes32)
    (e : Env) (op : Registry.Op) (s s' : Registry.State) (did : bytes32) :
  (Registry.pendingRecoveryAddress s).[did] ≠ 0 →
  (∀ e' o, is_ok (Registry.initiateRecovery e' did o s) = false)
  ∧ (Registry.step keccak256 e op s = Ok s' →
     (Registry.pendingRecoveryAddress s').[did] = (Registry.pendingRecoveryAddress s).[did]
     ∨ (op = Registry.Call_approveRecovery did
        ∧ (Registry.pendingRecoveryAddress s').[did] = 0
        ∧ Registry.owner (Registry.identities s').[did]
          = (Registry.pendingRecoveryAddress s).[did])).
Proof.
  intros Hpending. split.
  - intros e' o. unfold Registry.initiateRecovery, require.
    apply N.eqb_neq in Hpending as ->.
    destruct (Registry._isGuardian _ _ _); [|done]. by destruct (negb _).
  - intros Hstep.
    destruct (step_recovery_cases _ _ _ _ _ did Hstep)
      as [[_ ->]|[(g & _ & _ & _ & _ & _ & ->)|[(o & _ & Hz & _)|(Hop & _ & _ & Hp & Ho)]]];
      auto. done.
Qed.

(** X12, witness: the owner of identity A revokes it while the recovery
    is pending; the request stays. *)
Lemma pending_request_cannot_be_cancelled_witness :
  let s := registry_after two_guardians_pending in
  (∀ e' o, is_ok (Registry.initiateRecovery e' did_A o s) = false)
  ∧ (∀ s', Registry.step keccak_model {| msg_sender := 1; block_timestamp := 1006 |}
             (Registry.Call_revokeIdentity did_A) s = Ok s' →
     (Registry.pendingRecoveryAddress s').[did_A] = (Registry.pendingRecoveryAddress s).[did_A]
     ∨ (Registry.Call_revokeIdentity did_A = Registry.Call_approveRecovery did_A
        ∧ (Registry.pendingRecoveryAddress s').[did_A] = 0
        ∧ Registry.owner (Registry.identities s').[did_A]
          = (Registry.pendingRecoveryAddress s).[did_A])).
Proof.
  cbv zeta.
  assert (Hp : (Registry.pendingRecoveryAddress (registry_after two_guardians_pending)).[did_A]
               ≠ 0) by (vm_compute; discriminate).
  split.
  - apply (pending_request_cannot_be_cancelled keccak_model
             {| msg_sender := 1; block_timestamp := 1006 |}
             (Registry.Call_revokeIdentity did_A)
             (registry_after two_guardians_pending)
             (registry_after two_guardians_pending) did_A Hp).
  - intros s'.
    apply (pending_request_cannot_be_cancelled keccak_model
             {| msg_sender := 1; block_timestamp := 1006 |}
             (Registry.Call_revokeIdentity did_A)
             (registry_after two_guardians_pending) s' did_A Hp).
Defined.

(** X13: a request that every guardian has approved and that is still
    pending is stuck: every [approveRecovery] reverts, for a guardian with
    [AlreadyApproved] and for anybody else with [NotGuardian]. This is the
    state right after [initiateRecovery] when the initiator is the only
    guardian of the identity: [initiateRecovery] does not test the quorum,
    so the request of a lone guardian is recorded but is never committed
    until the owner adds a guardian. *)
Theorem lone_guardian_request_is_stuck (e : Env) (did : bytes32) (o : address)
    (s s' : Registry.State) :
  (∀ g, g ∈ (Registry.guardians s).[did] → g = msg_sender e) →
  Registry.initiateRecovery e did o s = Ok s' →
  (Registry.pendingRecoveryAddress s').[did] = o
  ∧ (Registry.recoveryApprovalCount s').[did] = 1
  ∧ Registry.identities s' = Registry.identities s
  ∧ ∀ e2, is_ok (Registry.approveRecovery e2 did s') = false
       ∧ (msg_sender e2 = msg_sender e →
          Registry.approveRecovery e2 did s' = Err AlreadyApproved)
       ∧ (msg_sender e2 ≠ msg_sender e →
          Registry.approveRecovery e2 did s' = Err NotGuardian).
Proof.
  intros Hlone Hcall. unfold Registry.initiateRecovery in Hcall. inv_ok Hcall.
  injection Hcall as <-. pose proof Hreq as Hin. apply _isGuardian_scan_elem_of in Hin.
  apply negb_true_iff, N.eqb_neq in Hreq0.
  simpl. sload_simpl. split; [done|]. split; [done|].
  split; [done|]. intros e2.
  rewrite approveRecovery_unfold. unfold require, Registry._isGuardian. simpl.
  destruct (decide (msg_sender e2 = msg_sender e)) as [Heq|Hne].
  - rewrite Heq. unfold Registry._isGuardian in Hreq. rewrite Hreq.
    apply N.eqb_neq in Hreq0 as Ho. rewrite sload_insert_eq, Ho, sload_insert_eq. simpl.
    split; [done|]. split; [done|]. done.
  - assert (Hnot : Registry._isGuardian_scan (Registry.guardians s).[did] (msg_sender e2)
                   = false).
    { destruct (Registry._isGuardian_scan _ (msg_sender e2)) eqn:Hscan; [|done].
      apply _isGuardian_scan_elem_of, Hlone in Hscan. done. }
    rewrite Hnot. split; [done|]. split; [done|]. done.
Qed.

(** X13, witness: identity A with the single guardian 21. *)
Lemma lone_guardian_request_is_stuck_witness :
  let s := registry_after (firstn 2 two_guardians_pending) in
  ∃ s', Registry.initiateRecovery {| msg_sender := 21; block_timestamp := 1005 |} did_A 2 s
        = Ok s'
  ∧ (Registry.pendingRecoveryAddress s').[did_A] = 2
  ∧ (Registry.recoveryApprovalCount s').[did_A] = 1
  ∧ Registry.identities s' = Registry.identities s
  ∧ ∀ e2, is_ok (Registry.approveRecovery e2 did_A s') = false
       ∧ (msg_sender e2 = 21 → Registry.approveRecovery e2 did_A s' = Err AlreadyApproved)
       ∧ (msg_sender e2 ≠ 21 → Registry.approveRecovery e2 did_A s' = Err NotGuardian).
Proof.
  eexists. split; [vm_compute; reflexivity|].
  apply (lone_guardian_request_is_stuck {| msg_sender := 21; block_timestamp := 1005 |}
           did_A 2 (registry_after (firstn 2 two_guardians_pending))).
  - intros g Hg.
    assert (Hgs : (Registry.guardians
                     (registry_after (firstn 2 two_guardians_pending))).[did_A] = [21])
      by (vm_compute; reflexivity).
    rewrite Hgs in Hg. by apply list_elem_of_singleton in Hg.
  - vm_compute; reflexivity.
Defined.

(** ** A completed recovery *)

(** X14: the [approveRecovery] call that completes a recovery (it leaves
    no pending request) makes the proposed owner the owner, binds the
    proposed owner to the DID and clears the binding of the previous
    owner; the bindings of all other accounts, the guardian array and
    every other field of the identity (activity and revocation flags,
    level, metadata reference, creation time) are kept, so a revoked
    identity changes hands and stays revoked. The previous owner is then
    free to create a new identity. *)
Theorem completed_recovery_moves_binding
    (keccak256 : bytes32 → address → uint256 → bytes32)
    (e : Env) (did : bytes32) (s s' : Registry.State) :
  Registry.approveRecovery e did s = Ok s' →
  (Registry.pendingRecoveryAddress s').[did] = 0 →
  let old := Registry.owner (Registry.identities s).[did] in
  let new := (Registry.pendingRecoveryAddress s).[did] in
  (Registry.identities s').[did]
    = Registry.set_lastUpdated (block_timestamp e)
        (Registry.set_owner new (Registry.identities s).[did])
  ∧ new ≠ 0
  ∧ (Registry.addressToIdentity s').[new] = did
  ∧ (old ≠ new → (Registry.addressToIdentity s').[old] = 0)
  ∧ (∀ a, a ≠ old → a ≠ new →
       (Registry.addressToIdentity s').[a] = (Registry.addressToIdentity s).[a])
  ∧ Registry.guardians s' = Registry.guardians s
  ∧ (old ≠ new → ∀ e2 h ipfs,
       msg_sender e2 = old →
       Registry.paused s' = false →
       (Registry.identityHashExists s').[h] = false →
       Registry.totalIdentities s' < MAX_UINT256 →
       is_ok (Registry.createIdentity keccak256 e2 h ipfs s') = true).
Proof.
  intros Hcall Hdone old new. subst old new.
  rewrite approveRecovery_unfold in Hcall. inv_ok Hcall.
  apply negb_true_iff, N.eqb_neq in Hreq0.
  destruct (Registry.requiredApprovals s did <=? _); injection Hcall as <-;
    [|simpl in Hdone; done].
  clear Hdone. simpl. sload_simpl.
  set (old := Registry.owner (Registry.identities s).[did]).
  set (new := (Registry.pendingRecoveryAddress s).[did]).
  assert (Hold : old ≠ new → (<[new:=did]> (delete old (Registry.addressToIdentity s))).[old]
                             = 0).
  { intros Hne. rewrite sload_insert_ne by done. by rewrite sload_delete_eq. }
  split; [done|]. split; [done|]. split; [done|]. split; [done|]. split.
  { intros a Ha1 Ha2. rewrite sload_insert_ne by done. by rewrite sload_delete_ne. }
  split; [done|].
  intros Hne e2 h ipfs Hsender Hpaused Hfresh Htotal.
  unfold Registry.createIdentity, require, checked, Registry.paused in *. simpl in *.
  fold old new. rewrite Hpaused, Hfresh, Hsender, (Hold Hne). simpl.
  rewrite checked_add_fits by lia. done.
Qed.

(** X14, witness: the recovery of identity A by its second guardian out
    of three. *)
Lemma completed_recovery_moves_binding_witness :
  let s := registry_after three_guardians_pending in
  let s' := registry_after three_guardians_second_approval in
  let e := {| msg_sender := 22; block_timestamp := 1006 |} in
  let old := Registry.owner (Registry.identities s).[did_A] in
  let new := (Registry.pendingRecoveryAddress s).[did_A] in
  (Registry.identities s').[did_A]
    = Registry.set_lastUpdated (block_timestamp e)
        (Registry.set_owner new (Registry.identities s).[did_A])
  ∧ new ≠ 0
  ∧ (Registry.addressToIdentity s').[new] = did_A
  ∧ (old ≠ new → (Registry.addressToIdentity s').[old] = 0)
  ∧ (∀ a, a ≠ old → a ≠ new →
       (Registry.addressToIdentity s').[a] = (Registry.addressToIdentity s).[a])
  ∧ Registry.guardians s' = Registry.guardians s
  ∧ (old ≠ new → ∀ e2 h ipfs,
       msg_sender e2 = old →
       Registry.paused s' = false →
       (Registry.identityHashExists s').[h] = false →
       Registry.totalIdentities s' < MAX_UINT256 →
       is_ok (Registry.createIdentity keccak_model e2 h ipfs s') = true).
Proof.
  apply (completed_recovery_moves_binding keccak_model
           {| msg_sender := 22; block_timestamp := 1006 |} did_A
           (registry_after three_guardians_pending)
           (registry_after three_guardians_second_approval)).
  - vm_compute; reflexivity.
  - vm_compute; reflexivity.
Defined.

(** X15: the contract has no transfer function: the owner field of an
    identity changes only in the [approveRecovery] call that completes a
    recovery, where it becomes the proposed owner, or in the
    [createIdentity] call that derives this DID. The owner itself, a
    verifier and an administrator cannot reassign an identity. *)
Theorem owner_changes_only_by_recovery
    (keccak256 : bytes32 → address → uint256 → bytes32)
    (e : Env) (op : Registry.Op) (s s' : Registry.State) (did : bytes32) :
  Registry.step keccak256 e op s = Ok s' →
  Registry.owner (Registry.identities s').[did]
    ≠ Registry.owner (Registry.identities s).[did] →
  (op = Registry.Call_approveRecovery did
   ∧ Registry._isGuardian s did (msg_sender e) = true
   ∧ Registry.owner (Registry.identities s').[did] = (Registry.pendingRecoveryAddress s).[did])
  ∨ (∃ h ipfs, op = Registry.Call_createIdentity h ipfs
       ∧ did = keccak256 h (msg_sender e) (block_timestamp e)
       ∧ Registry.owner (Registry.identities s').[did] = msg_sender e).
Proof.
  intros Hstep Hchanged.
  destruct (step_identity_cases _ _ _ _ _ did Hstep)
    as [Heq|[(h & ipfs & Hop & Hd & _ & Heq)|[(ipfs & _ & _ & _ & _ & Heq)
       |[(ty & pr & _ & _ & _ & _ & _ & Heq)|[(_ & _ & _ & Heq)|(Hop & Hg & _ & Heq)]]]]];
    rewrite Heq in Hchanged |- *; simpl in *; try done.
  - right. by exists h, ipfs.
  - by left.
Qed.

(** X15, witness: the recovery of identity A. *)
Lemma owner_changes_only_by_recovery_witness :
  let s := registry_after three_guardians_pending in
  let s' := registry_after three_guardians_second_approval in
  (Registry.Call_approveRecovery did_A = Registry.Call_approveRecovery did_A
   ∧ Registry._isGuardian s did_A 22 = true
   ∧ Registry.owner (Registry.identities s').[did_A] = (Registry.pendingRecoveryAddress s).[did_A])
  ∨ (∃ h ipfs, Registry.Call_approveRecovery did_A = Registry.Call_createIdentity h ipfs
       ∧ did_A = keccak_model h 22 1006
       ∧ Registry.owner (Registry.identities s').[did_A] = 22).
Proof.
  apply (owner_changes_only_by_recovery keccak_model
           {| msg_sender := 22; block_timestamp := 1006 |}
           (Registry.Call_approveRecovery did_A)
           (registry_after three_guardians_pending)
           (registry_after three_guardians_second_approval) did_A).
  - vm_compute; reflexivity.
  - vm_compute; discriminate.
Defined.

(** ** The counter of identities *)

Lemma step_totalIdentities_inv (keccak256 : bytes32 → address → uint256 → bytes32)
    (e : Env) (op : Registry.Op) (s s' : Registry.State) :
  Registry.step keccak256 e op s = Ok s' → totalIdentities_inv s → totalIdentities_inv s'.
Proof.
  intros Hstep [Htotal Htrue].
  destruct op;
    try (pose proof (step_identityHashExists _ _ _ _ _ Hstep) as Hhash; simpl in Hhash;
         unfold totalIdentities_inv; rewrite Hhash).
  - apply step_createIdentity_ok in Hstep.
    apply createIdentity_ok in Hstep as (_ & _ & Hfresh & _ & _ & Hh & _ & Ht & _).
    unfold totalIdentities_inv. rewrite Hh, Ht.
    assert (Hnone : Registry.identityHashExists s !! _identityHash = None).
    { destruct (Registry.identityHashExists s !! _identityHash) as [b|] eqn:Hb; [|done].
      unfold sload in Hfresh. rewrite Hb in Hfresh. simpl in Hfresh.
      specialize (Htrue _ _ Hb). congruence. }
    split.
    + rewrite map_size_insert_None by done. lia.
    + intros h b. rewrite lookup_insert. case_decide; [by intros [= <-]|apply Htrue].
  - simpl in Hstep. unfold Registry.updateIdentity in Hstep. inv_ok Hstep.
    by injection Hstep as <-.
  - simpl in Hstep. unfold Registry.addVerification in Hstep. inv_ok Hstep.
    injection Hstep as <-. split; [|done]. simpl. by destruct (_ <? _).
  - simpl in Hstep. unfold Registry.revokeVerification in Hstep. inv_ok Hstep.
    by injection Hstep as <-.
  - simpl in Hstep. unfold Registry.revokeIdentity in Hstep. inv_ok Hstep.
    by injection Hstep as <-.
  - simpl in Hstep. unfold Registry.addGuardian in Hstep. inv_ok Hstep.
    by injection Hstep as <-.
  - simpl in Hstep. unfold Registry.initiateRecovery in Hstep. inv_ok Hstep.
    by injection Hstep as <-.
  - simpl in Hstep. rewrite approveRecovery_unfold in Hstep. inv_ok Hstep.
    by destruct (Registry.requiredApprovals s _did <=? _); injection Hstep as <-.
  - simpl in Hstep. unfold Registry.pause in Hstep. inv_ok Hstep.
    by injection Hstep as <-.
  - simpl in Hstep. unfold Registry.unpause in Hstep. inv_ok Hstep.
    by injection Hstep as <-.
  - simpl in Hstep. unfold Registry.grantRole in Hstep. inv_ok Hstep.
    injection Hstep as <-. by destruct (Registry.hasRole s role account).
  - simpl in Hstep. unfold Registry.revokeRole in Hstep. inv_ok Hstep.
    injection Hstep as <-. by destruct (Registry.hasRole s role account).
  - simpl in Hstep. unfold Registry.renounceRole in Hstep. inv_ok Hstep.
    injection Hstep as <-. by destruct (Registry.hasRole s role callerConfirmation).
Qed.

(** X16: in every reachable state [totalIdentities] is the number of
    identity hashes marked as used: the counter counts the identities ever
    created and is not lowered by revocation or recovery. *)
Theorem totalIdentities_counts_used_hashes
    (keccak256 : bytes32 → address → uint256 → bytes32) (s : Registry.State) :
  Registry.reachable keccak256 s →
  Registry.totalIdentities s = N.of_nat (size (Registry.identityHashExists s))
  ∧ ∀ h, (Registry.identityHashExists s).[h] = true ↔ h ∈ dom (Registry.identityHashExists s).
Proof.
  intros Hreach.
  assert (Hinv : totalIdentities_inv s).
  { induction Hreach as [deployer _|s s' e op _ IH _ Hstep].
    - split; [done|]. intros h b. simpl. by rewrite lookup_empty.
    - by eapply step_totalIdentities_inv. }
  destruct Hinv as [Htotal Htrue]. split; [done|].
  intros h. rewrite elem_of_dom. unfold sload.
  destruct (Registry.identityHashExists s !! h) as [b|] eqn:Hb; simpl.
  - rewrite (Htrue _ _ Hb). split; [by eauto | done].
  - split; [done | by intros [? ?]].
Qed.

(** X16, witness: two identities were created before the recovery. *)
Lemma totalIdentities_counts_used_hashes_witness :
  let s := registry_after recovery_to_bound_owner in
  Registry.totalIdentities s = N.of_nat (size (Registry.identityHashExists s))
  ∧ ∀ h, (Registry.identityHashExists s).[h] = true ↔ h ∈ dom (Registry.identityHashExists s).
Proof.
  apply (totalIdentities_counts_used_hashes keccak_model
           (registry_after recovery_to_bound_owner)).
  apply registry_after_reachable; vm_compute; reflexivity.
Defined.

(** * Further properties of the platform registry *)

(** ** Registering a platform *)

(** The storage written by a successful [registerPlatform]. *)
Lemma registerPlatform_ok (keccak256 : string → string → uint256 → bytes32)
    (e : Env) (n d : string) (ty : PlatformRegistry.PlatformType)
    (s s' : PlatformRegistry.State) (pid : bytes32) :
  PlatformRegistry.registerPlatform keccak256 e n d ty s = Ok (pid, s') →
  pid = keccak256 n d (block_timestamp e)
  ∧ PlatformRegistry.hasRole s PLATFORM_ADMIN_ROLE (msg_sender e) = true
  ∧ (PlatformRegistry.domainToPlatform s).[d] = 0
  ∧ PlatformRegistry.platforms s'
    = <[pid := {| PlatformRegistry.Platform.name := n;
                  PlatformRegistry.Platform.domain := d;
                  PlatformRegistry.Platform.adminAddress := msg_sender e;
                  PlatformRegistry.Platform.isActive := true;
                  PlatformRegistry.Platform.registeredAt := block_timestamp e;
                  PlatformRegistry.Platform.totalVerifications := 0;
                  PlatformRegistry.Platform.platformType := ty |}]>
        (PlatformRegistry.platforms s)
  ∧ PlatformRegistry.domainToPlatform s' = <[d := pid]> (PlatformRegistry.domainToPlatform s)
  ∧ PlatformRegistry.totalPlatforms s' = PlatformRegistry.totalPlatforms s + 1
  ∧ PlatformRegistry.verifications s' = PlatformRegistry.verifications s
  ∧ PlatformRegistry.platformVerifiedIdentities s' = PlatformRegistry.platformVerifiedIdentities s
  ∧ PlatformRegistry.platformUserToIdentity s' = PlatformRegistry.platformUserToIdentity s
  ∧ PlatformRegistry._roles s' = PlatformRegistry._roles s.
Proof.
  intros Hcall. unfold PlatformRegistry.registerPlatform in Hcall. inv_ok Hcall.
  injection Hcall as <- <-. simpl in Hchk. apply checked_add_Some in Hchk as [-> _].
  apply N.eqb_eq in Hreq2. done.
Qed.

Lemma step_registerPlatform_ok (keccak256 : string → string → uint256 → bytes32)
    (e : Env) (n d : string) (ty : PlatformRegistry.PlatformType)
    (s s' : PlatformRegistry.State) :
  PlatformRegistry.step keccak256 e (PlatformRegistry.Call_registerPlatform n d ty) s = Ok s' →
  PlatformRegistry.registerPlatform keccak256 e n d ty s
  = Ok (keccak256 n d (block_timestamp e), s').
Proof.
  simpl. destruct (PlatformRegistry.registerPlatform keccak256 e n d ty s)
    as [[pid s1]|err] eqn:Hc; simpl; [|discriminate].
  intros Hs. injection Hs as <-.
  by apply registerPlatform_ok in Hc as (-> & _).
Qed.

(** X17: a successful [registerPlatform] returns the id derived from
    the name, the domain and the block time; [getPlatform] of that id then
    shows the name, the domain, the caller as administrator, the platform
    active, the block time, no verification and the given type; the domain
    maps to the id, the platform counter grows by one and every other
    platform and every verification record reads as before. *)
Theorem registerPlatform_roundtrip (keccak256 : string → string → uint256 → bytes32)
    (e : Env) (n d : string) (ty : PlatformRegistry.PlatformType)
    (s s' : PlatformRegistry.State) (pid : bytes32) :
  PlatformRegistry.registerPlatform keccak256 e n d ty s = Ok (pid, s') →
  pid = keccak256 n d (block_timestamp e)
  ∧ PlatformRegistry.getPlatform s' pid
    = (n, d, msg_sender e, true, block_timestamp e, 0, ty)
  ∧ (PlatformRegistry.domainToPlatform s').[d] = pid
  ∧ PlatformRegistry.totalPlatforms s' = PlatformRegistry.totalPlatforms s + 1
  ∧ (∀ p, p ≠ pid → PlatformRegistry.getPlatform s' p = PlatformRegistry.getPlatform s p)
  ∧ (∀ i p, PlatformRegistry.getVerification s' i p = PlatformRegistry.getVerification s i p).
Proof.
  intros Hcall.
  apply registerPlatform_ok in Hcall as (Hpid & _ & _ & Hps & Hdom & Htotal & Hvs & _).
  unfold PlatformRegistry.getPlatform, PlatformRegistry.getVerification.
  rewrite Hps, Hdom, Hvs, !sload_insert_eq. simpl.
  do 4 (split; [done|]). split; [|done]. intros p Hp. by rewrite sload_insert_ne.
Qed.

(** X17, witness: the registration of "example.com". *)
Lemma registerPlatform_roundtrip_witness :
  PlatformRegistry.getPlatform (platform_after (firstn 1 verified_for_one_day)) pid_X
  = ("Example"%string, "example.com"%string, 100, true, 1000, 0, PlatformRegistry.SocialMedia).
Proof.
  apply (registerPlatform_roundtrip keccak_platform_model
           {| msg_sender := 100; block_timestamp := 1000 |} "Example" "example.com"
           PlatformRegistry.SocialMedia (PlatformRegistry.constructor 100)
           (platform_after (firstn 1 verified_for_one_day)) pid_X).
  vm_compute; reflexivity.
Defined.

(** ** A domain is registered once *)

Lemma step_domainToPlatform (keccak256 : string → string → uint256 → bytes32)
    (e : Env) (op : PlatformRegistry.Op) (s s' : PlatformRegistry.State) (d : string) :
  platform_never_null keccak256 →
  PlatformRegistry.step keccak256 e op s = Ok s' →
  (PlatformRegistry.domainToPlatform s).[d] ≠ 0 →
  (PlatformRegistry.domainToPlatform s').[d] ≠ 0.
Proof.
  intros Hnull Hstep Hd. destruct op.
  - apply step_registerPlatform_ok in Hstep.
    apply registerPlatform_ok in Hstep as (_ & _ & _ & _ & -> & _).
    rewrite sload_insert. case_decide; [apply Hnull|done].
  - simpl in Hstep. unfold PlatformRegistry.createVerification in Hstep. inv_ok Hstep.
    by injection Hstep as <-.
  - simpl in Hstep. unfold PlatformRegistry.revokeVerification in Hstep. inv_ok Hstep.
    by injection Hstep as <-.
  - simpl in Hstep. unfold PlatformRegistry.updateTrustScore in Hstep. inv_ok Hstep.
    by injection Hstep as <-.
  - simpl in Hstep. unfold PlatformRegistry.deactivatePlatform in Hstep. inv_ok Hstep.
    by injection Hstep as <-.
  - simpl in Hstep. unfold PlatformRegistry.grantRole in Hstep. inv_ok Hstep.
    injection Hstep as <-. by destruct (PlatformRegistry.hasRole s role account).
  - simpl in Hstep. unfold PlatformRegistry.revokeRole in Hstep. inv_ok Hstep.
    injection Hstep as <-. by destruct (PlatformRegistry.hasRole s role account).
  - simpl in Hstep. unfold PlatformRegistry.renounceRole in Hstep. inv_ok Hstep.
    injection Hstep as <-. by destruct (PlatformRegistry.hasRole s role callerConfirmation).
Qed.

(** X18: a domain is registered at most once. When the platform hash
    never yields the null id, every [registerPlatform] for a domain that
    was registered before reverts, whatever happened in between
    (deactivation of the platform included); for a platform administrator
    giving a name the revert is [DomainAlreadyRegistered]. *)
Theorem domain_is_registered_once (keccak256 : string → string → uint256 → bytes32)
    (e e' : Env) (n n' d : string) (ty ty' : PlatformRegistry.PlatformType)
    (s s1 s2 : PlatformRegistry.State) (pid : bytes32)
    (txs : list (Env * PlatformRegistry.Op)) :
  platform_never_null keccak256 →
  PlatformRegistry.registerPlatform keccak256 e n d ty s = Ok (pid, s1) →
  PlatformRegistry.run keccak256 txs s1 = Ok s2 →
  is_ok (PlatformRegistry.registerPlatform keccak256 e' n' d ty' s2) = false
  ∧ (PlatformRegistry.hasRole s2 PLATFORM_ADMIN_ROLE (msg_sender e') = true →
     0 < PlatformRegistry.bytes_length n' →
     PlatformRegistry.registerPlatform keccak256 e' n' d ty' s2 = Err DomainAlreadyRegistered).
Proof.
  intros Hnull Hcall Hrun.
  pose proof Hcall as Hnonempty. unfold PlatformRegistry.registerPlatform in Hnonempty.
  inv_ok Hnonempty. clear Hnonempty Hchk.
  apply registerPlatform_ok in Hcall as (Hpid & _ & _ & _ & Hdom & _).
  assert (Hset : (PlatformRegistry.domainToPlatform s2).[d] ≠ 0).
  { assert (H1 : (PlatformRegistry.domainToPlatform s1).[d] ≠ 0).
    { rewrite Hdom, sload_insert_eq, Hpid. apply Hnull. }
    clear -Hnull Hrun H1. revert s1 Hrun H1.
    induction txs as [|[e1 op] txs IH]; intros s1 Hrun H1; simpl in Hrun.
    - by injection Hrun as <-.
    - destruct (PlatformRegistry.step keccak256 e1 op s1) as [s3|err] eqn:Hstep;
        simpl in Hrun; [|discriminate].
      apply (IH s3 Hrun). by eapply step_domainToPlatform. }
  apply N.eqb_neq in Hset.
  unfold PlatformRegistry.registerPlatform, require. rewrite Hreq1, Hset. split.
  - destruct (PlatformRegistry.hasRole s2 _ _); [|done].
    by destruct (0 <? PlatformRegistry.bytes_length n').
  - intros -> Hn. apply N.ltb_lt in Hn. by rewrite Hn.
Qed.

(** X18, witness: "example.com" after its platform was deactivated. *)
Lemma domain_is_registered_once_witness :
  PlatformRegistry.registerPlatform keccak_platform_model
    {| msg_sender := 100; block_timestamp := 5000 |} "Other" "example.com"
    PlatformRegistry.Financial (platform_after verified_then_deactivated)
  = Err DomainAlreadyRegistered.
Proof.
  apply (domain_is_registered_once keccak_platform_model
           {| msg_sender := 100; block_timestamp := 1000 |}
           {| msg_sender := 100; block_timestamp := 5000 |}
           "Example" "Other" "example.com" PlatformRegistry.SocialMedia
           PlatformRegistry.Financial (PlatformRegistry.constructor 100)
           (platform_after (firstn 1 verified_for_one_day))
           (platform_after verified_then_deactivated) pid_X
           (skipn 1 verified_then_deactivated)).
  - intros n d t. unfold keccak_platform_model. discriminate.
  - vm_compute; reflexivity.
  - vm_compute; reflexivity.
  - vm_compute; reflexivity.
  - vm_compute. reflexivity.
Defined.

(** ** Creating a platform verification *)

Lemma expiry_checked (now days : uint256) :
  (if 0 <? days
   then match checked_mul days PlatformRegistry.ONE_DAY with
        | Some d => checked_add now d
        | None => None
        end
   else Some 0)
  = if (0 <? days) && negb (now + days * PlatformRegistry.ONE_DAY <=? MAX_UINT256)
    then None else Some (expiry now days).
Proof.
  unfold expiry, checked_mul, checked_add.
  destruct (0 <? days); simpl; [|done].
  destruct (N.leb_spec (days * PlatformRegistry.ONE_DAY) MAX_UINT256) as [Hm|Hm];
    destruct (N.leb_spec (now + days * PlatformRegistry.ONE_DAY) MAX_UINT256) as [Ha|Ha];
    simpl; try done; lia.
Qed.

(** The storage written by a successful [createVerification]. *)
Lemma createVerification_ok (e : Env) (id pid : bytes32) (uid : string)
    (days : uint256) (att : bytes32) (s s' : PlatformRegistry.State) :
  PlatformRegistry.createVerification e id pid uid days att s = Ok s' →
  PlatformRegistry.Platform.isActive (PlatformRegistry.platforms s).[pid] = true
  ∧ PlatformRegistry.isPlatformAuthorized e pid s = true
  ∧ 0 < PlatformRegistry.bytes_length uid
  ∧ id ≠ 0
  ∧ PlatformRegistry.PlatformVerification.isActive
      (PlatformRegistry.verifications s).[(id, pid)] = false
  ∧ PlatformRegistry.verifications s'
    = <[(id, pid) :=
          {| PlatformRegistry.PlatformVerification.identityDID := id;
             PlatformRegistry.PlatformVerification.platformId := pid;
             PlatformRegistry.PlatformVerification.platformUserId := uid;
             PlatformRegistry.PlatformVerification.verifiedAt := block_timestamp e;
             PlatformRegistry.PlatformVerification.expiresAt := expiry (block_timestamp e) days;
             PlatformRegistry.PlatformVerification.isActive := true;
             PlatformRegistry.PlatformVerification.trustScore := 50;
             PlatformRegistry.PlatformVerification.attestationHash := att |}]>
        (PlatformRegistry.verifications s)
  ∧ PlatformRegistry.platformVerifiedIdentities s'
    = <[pid := (PlatformRegistry.platformVerifiedIdentities s).[pid] ++ [id]]>
        (PlatformRegistry.platformVerifiedIdentities s)
  ∧ PlatformRegistry.platformUserToIdentity s'
    = <[(pid, uid) := id]> (PlatformRegistry.platformUserToIdentity s)
  ∧ PlatformRegistry.platforms s'
    = <[pid := PlatformRegistry.set_platform_totalVerifications
                 (PlatformRegistry.Platform.totalVerifications
                    (PlatformRegistry.platforms s).[pid] + 1)
                 (PlatformRegistry.platforms s).[pid]]> (PlatformRegistry.platforms s)
  ∧ PlatformRegistry.totalPlatformVerifications s'
    = PlatformRegistry.totalPlatformVerifications s + 1
  ∧ PlatformRegistry.domainToPlatform s' = PlatformRegistry.domainToPlatform s
  ∧ PlatformRegistry.totalPlatforms s' = PlatformRegistry.totalPlatforms s
  ∧ PlatformRegistry._roles s' = PlatformRegistry._roles s.
Proof.
  intros Hcall. unfold PlatformRegistry.createVerification in Hcall.
  rewrite expiry_checked in Hcall. inv_ok Hcall.
  destruct (_ && _); [discriminate|]. injection Hchk as <-.
  injection Hcall as <-. simpl in Hchk0, Hchk1.
  apply checked_add_Some in Hchk0 as [-> _]. apply checked_add_Some in Hchk1 as [-> _].
  apply N.ltb_lt in Hreq1. apply negb_true_iff in Hreq2, Hreq3. apply N.eqb_neq in Hreq2.
  done.
Qed.

(** X19: a successful [createVerification] stores the record that
    [getVerification] then returns: the platform user id, the block time,
    the expiry (block time plus [days] times 86400 seconds, or 0 when
    [days] is 0), active, trust score 50 and the attestation hash. The
    record is valid at the block time and stays valid exactly until the
    expiry (for ever when the expiry is 0); the reverse lookup of the user
    id returns the identity, the identity is appended to the list of the
    platform and both counters grow by one. *)
Theorem createVerification_roundtrip (e : Env) (id pid : bytes32) (uid : string)
    (days : uint256) (att : bytes32) (s s' : PlatformRegistry.State) :
  PlatformRegistry.createVerification e id pid uid days att s = Ok s' →
  PlatformRegistry.getVerification s' id pid
    = (uid, block_timestamp e, expiry (block_timestamp e) days, true, 50, att)
  ∧ PlatformRegistry.isVerificationValid e s' id pid = true
  ∧ (∀ e', PlatformRegistry.isVerificationValid e' s' id pid
           = (days =? 0) || (block_timestamp e' <=? block_timestamp e
                                                      + days * PlatformRegistry.ONE_DAY))
  ∧ PlatformRegistry.getIdentityByPlatformUser s' pid uid = id
  ∧ PlatformRegistry.getPlatformVerifiedIdentities s' pid
    = PlatformRegistry.getPlatformVerifiedIdentities s pid ++ [id]
  ∧ PlatformRegistry.Platform.totalVerifications (PlatformRegistry.platforms s').[pid]
    = PlatformRegistry.Platform.totalVerifications (PlatformRegistry.platforms s).[pid] + 1
  ∧ PlatformRegistry.totalPlatformVerifications s'
    = PlatformRegistry.totalPlatformVerifications s + 1.
Proof.
  intros Hcall.
  apply createVerification_ok in Hcall
    as (_ & _ & _ & _ & _ & Hvs & Hlist & Hrev & Hps & Htotal & _).
  assert (Hvalid : ∀ e', PlatformRegistry.isVerificationValid e' s' id pid
            = (days =? 0) || (block_timestamp e' <=? block_timestamp e
                                                       + days * PlatformRegistry.ONE_DAY)).
  { intros e'. unfold PlatformRegistry.isVerificationValid.
    rewrite Hvs, sload_insert_eq. simpl. unfold expiry.
    destruct (N.eqb_spec days 0) as [->|Hd]; simpl; [done|].
    assert (Hpos : (0 <? days) = true) by (apply N.ltb_lt; lia). rewrite Hpos.
    assert (Hpos' : (0 <? block_timestamp e + days * PlatformRegistry.ONE_DAY) = true).
    { apply N.ltb_lt. unfold PlatformRegistry.ONE_DAY. lia. }
    rewrite Hpos'. simpl.
    destruct (N.ltb_spec (block_timestamp e + days * PlatformRegistry.ONE_DAY)
                (block_timestamp e'));
      destruct (N.leb_spec (block_timestamp e')
                  (block_timestamp e + days * PlatformRegistry.ONE_DAY)); try done; lia. }
  unfold PlatformRegistry.getVerification, PlatformRegistry.getIdentityByPlatformUser,
    PlatformRegistry.getPlatformVerifiedIdentities.
  rewrite Hlist, Hrev, Hps, Htotal, !sload_insert_eq.
  split; [by rewrite Hvs, sload_insert_eq|]. split; [|done].
  rewrite Hvalid. destruct (days =? 0); [done|]. simpl. apply N.leb_le. lia.
Qed.

(** X19, witness: the one-day verification of identity A. *)
Lemma createVerification_roundtrip_witness :
  PlatformRegistry.getVerification (platform_after verified_for_one_day) did_A pid_X
  = ("user-1"%string, 1001, expiry 1001 1, true, 50, 99).
Proof.
  apply (createVerification_roundtrip {| msg_sender := 100; block_timestamp := 1001 |}
           did_A pid_X "user-1" 1 99 (platform_after (firstn 1 verified_for_one_day))
           (platform_after verified_for_one_day)).
  vm_compute; reflexivity.
Defined.

(** ** How a transaction changes the platform registry *)

(** The effect of a successful transaction on the record of one
    (identity, platform) pair. *)
Lemma platform_step_record_cases (keccak256 : string → string → uint256 → bytes32)
    (e : Env) (op : PlatformRegistry.Op) (s s' : PlatformRegistry.State) (id pid : bytes32) :
  PlatformRegistry.step keccak256 e op s = Ok s' →
  let old := (PlatformRegistry.verifications s).[(id, pid)] in
  let new := (PlatformRegistry.verifications s').[(id, pid)] in
  new = old
  ∨ (∃ uid days att, op = PlatformRegistry.Call_createVerification id pid uid days att
       ∧ PlatformRegistry.isPlatformAuthorized e pid s = true
       ∧ PlatformRegistry.PlatformVerification.trustScore new = 50
       ∧ PlatformRegistry.PlatformVerification.isActive new = true)
  ∨ (op = PlatformRegistry.Call_revokeVerification id pid
       ∧ PlatformRegistry.isPlatformAuthorized e pid s = true
       ∧ new = PlatformRegistry.set_isActive false old)
  ∨ (∃ score, op = PlatformRegistry.Call_updateTrustScore id pid score
       ∧ PlatformRegistry.isPlatformAuthorized e pid s = true
       ∧ score ≤ 100
       ∧ new = PlatformRegistry.set_trustScore score old).
Proof.
  intros Hstep old new. subst old new. destruct op.
  - apply step_registerPlatform_ok in Hstep.
    apply registerPlatform_ok in Hstep as (_ & _ & _ & _ & _ & _ & -> & _). by left.
  - simpl in Hstep.
    apply createVerification_ok in Hstep as (_ & Hauth & _ & _ & _ & -> & _).
    rewrite sload_insert. case_decide as Hk; [|by left].
    injection Hk as -> ->. right; left. by exists _platformUserId, _expirationDays, _attestationHash.
  - simpl in Hstep. unfold PlatformRegistry.revokeVerification in Hstep. inv_ok Hstep.
    injection Hstep as <-. simpl. rewrite sload_insert. case_decide as Hk; [|by left].
    injection Hk as -> ->. right; right; left. done.
  - simpl in Hstep. unfold PlatformRegistry.updateTrustScore in Hstep. inv_ok Hstep.
    injection Hstep as <-. simpl. rewrite sload_insert. case_decide as Hk; [|by left].
    injection Hk as -> ->. do 3 right. exists _newScore. apply N.leb_le in Hreq0. done.
  - simpl in Hstep. unfold PlatformRegistry.deactivatePlatform in Hstep. inv_ok Hstep.
    injection Hstep as <-. by left.
  - simpl in Hstep. unfold PlatformRegistry.grantRole in Hstep. inv_ok Hstep.
    injection Hstep as <-. left. by destruct (PlatformRegistry.hasRole s role account).
  - simpl in Hstep. unfold PlatformRegistry.revokeRole in Hstep. inv_ok Hstep.
    injection Hstep as <-. left. by destruct (PlatformRegistry.hasRole s role account).
  - simpl in Hstep. unfold PlatformRegistry.renounceRole in Hstep. inv_ok Hstep.
    injection Hstep as <-. left.
    by destruct (PlatformRegistry.hasRole s role callerConfirmation).
Qed.

(** The effect of a successful transaction on the entry of one platform. *)
Lemma platform_step_entry_cases (keccak256 : string → string → uint256 → bytes32)
    (e : Env) (op : PlatformRegistry.Op) (s s' : PlatformRegistry.State) (pid : bytes32) :
  PlatformRegistry.step keccak256 e op s = Ok s' →
  let old := (PlatformRegistry.platforms s).[pid] in
  let new := (PlatformRegistry.platforms s').[pid] in
  new = old
  ∨ (∃ n d ty, op = PlatformRegistry.Call_registerPlatform n d ty
       ∧ pid = keccak256 n d (block_timestamp e)
       ∧ PlatformRegistry.hasRole s PLATFORM_ADMIN_ROLE (msg_sender e) = true
       ∧ (PlatformRegistry.domainToPlatform s).[d] = 0
       ∧ PlatformRegistry.Platform.totalVerifications new = 0)
  ∨ (∃ id uid days att, op = PlatformRegistry.Call_createVerification id pid uid days att
       ∧ PlatformRegistry.isPlatformAuthorized e pid s = true
       ∧ PlatformRegistry.Platform.isActive old = true
       ∧ new = PlatformRegistry.set_platform_totalVerifications
                 (PlatformRegistry.Platform.totalVerifications old + 1) old)
  ∨ (op = PlatformRegistry.Call_deactivatePlatform pid
       ∧ PlatformRegistry.isPlatformAuthorized e pid s = true
       ∧ new = PlatformRegistry.set_platform_isActive false old).
Proof.
  intros Hstep old new. subst old new. destruct op.
  - apply step_registerPlatform_ok in Hstep.
    apply registerPlatform_ok in Hstep as (_ & Hrole & Hdom & -> & _).
    rewrite sload_insert. case_decide as Hk; [|by left].
    right; left. by exists _name, _domain, _platformType.
  - simpl in Hstep.
    apply createVerification_ok in Hstep
      as (Hact & Hauth & _ & _ & _ & _ & _ & _ & -> & _).
    rewrite sload_insert. case_decide as Hk; [subst pid|by left].
    right; right; left. by exists _identityDID, _platformUserId, _expirationDays, _attestationHash.
  - simpl in Hstep. unfold PlatformRegistry.revokeVerification in Hstep. inv_ok Hstep.
    injection Hstep as <-. by left.
  - simpl in Hstep. unfold PlatformRegistry.updateTrustScore in Hstep. inv_ok Hstep.
    injection Hstep as <-. by left.
  - simpl in Hstep. unfold PlatformRegistry.deactivatePlatform in Hstep. inv_ok Hstep.
    injection Hstep as <-. simpl. rewrite sload_insert. case_decide as Hk; [subst pid|by left].
    by do 3 right.
  - simpl in Hstep. unfold PlatformRegistry.grantRole in Hstep. inv_ok Hstep.
    injection Hstep as <-. left. by destruct (PlatformRegistry.hasRole s role account).
  - simpl in Hstep. unfold PlatformRegistry.revokeRole in Hstep. inv_ok Hstep.
    injection Hstep as <-. left. by destruct (PlatformRegistry.hasRole s role account).
  - simpl in Hstep. unfold PlatformRegistry.renounceRole in Hstep. inv_ok Hstep.
    injection Hstep as <-. left.
    by destruct (PlatformRegistry.hasRole s role callerConfirmation).
Qed.

(** X20: only the administrator of a platform and the holders of
    [PLATFORM_ADMIN_ROLE] can touch a platform: a successful transaction
    from any other sender leaves the entry of the platform and every
    verification record of the platform as they were. *)
Theorem platform_is_changed_by_its_administrators_only
    (keccak256 : string → string → uint256 → bytes32)
    (e : Env) (op : PlatformRegistry.Op) (s s' : PlatformRegistry.State) (pid : bytes32) :
  PlatformRegistry.isPlatformAuthorized e pid s = false →
  PlatformRegistry.step keccak256 e op s = Ok s' →
  PlatformRegistry.getPlatform s' pid = PlatformRegistry.getPlatform s pid
  ∧ ∀ id, PlatformRegistry.getVerification s' id pid = PlatformRegistry.getVerification s id pid.
Proof.
  intros Hauth Hstep. unfold PlatformRegistry.getPlatform, PlatformRegistry.getVerification.
  split.
  - destruct (platform_step_entry_cases _ _ _ _ _ pid Hstep)
      as [->|[(n & d & ty & _ & _ & Hrole & _)|[(id & uid & days & att & _ & Ha & _)
         |(_ & Ha & _)]]]; try congruence.
    unfold PlatformRegistry.isPlatformAuthorized in Hauth. rewrite Hrole in Hauth.
    by rewrite orb_true_r in Hauth.
  - intros id.
    destruct (platform_step_record_cases _ _ _ _ _ id pid Hstep)
      as [->|[(uid & days & att & _ & Ha & _)|[(_ & Ha & _)|(sc & _ & Ha & _)]]];
      congruence.
Qed.

(** X20, witness: account 7 is no administrator of the platform; its
    renouncing a role leaves the platform alone. *)
Lemma platform_is_changed_by_its_administrators_only_witness :
  let s := platform_after verified_for_one_day in
  let e := {| msg_sender := 7; block_timestamp := 1002 |} in
  PlatformRegistry.isPlatformAuthorized e pid_X s = false
  ∧ ∃ s', PlatformRegistry.step keccak_platform_model e
            (PlatformRegistry.Call_renounceRole PLATFORM_ADMIN_ROLE 7) s = Ok s'
    ∧ PlatformRegistry.getPlatform s' pid_X = PlatformRegistry.getPlatform s pid_X
    ∧ ∀ id, PlatformRegistry.getVerification s' id pid_X
            = PlatformRegistry.getVerification s id pid_X.
Proof.
  split; [vm_compute; reflexivity|].
  eexists. split; [vm_compute; reflexivity|].
  apply (platform_is_changed_by_its_administrators_only keccak_platform_model
           {| msg_sender := 7; block_timestamp := 1002 |}
           (PlatformRegistry.Call_renounceRole PLATFORM_ADMIN_ROLE 7)
           (platform_after verified_for_one_day) _ pid_X).
  - vm_compute; reflexivity.
  - vm_compute; reflexivity.
Defined.

(** ** Trust scores *)

(** X21: every trust score is between 0 and 100 in every reachable
    state: a record starts at 50, [updateTrustScore] rejects a score above
    100 with [TrustScoreOutOfRange], and a successful [updateTrustScore]
    stores the new score and leaves the other fields and the validity of
    the record as they were. *)
Theorem trustScore_is_a_percentage (keccak256 : string → string → uint256 → bytes32)
    (s : PlatformRegistry.State) :
  PlatformRegistry.reachable keccak256 s →
  (∀ id pid, PlatformRegistry.PlatformVerification.trustScore
               (PlatformRegistry.verifications s).[(id, pid)] ≤ 100)
  ∧ (∀ e id pid score, 100 < score →
       is_ok (PlatformRegistry.updateTrustScore e id pid score s) = false
       ∧ (PlatformRegistry.isPlatformAuthorized e pid s = true →
          PlatformRegistry.updateTrustScore e id pid score s = Err TrustScoreOutOfRange))
  ∧ (∀ e id pid score s',
       PlatformRegistry.updateTrustScore e id pid score s = Ok s' →
       (PlatformRegistry.verifications s').[(id, pid)]
         = PlatformRegistry.set_trustScore score (PlatformRegistry.verifications s).[(id, pid)]
       ∧ ∀ e', PlatformRegistry.isVerificationValid e' s' id pid
               = PlatformRegistry.isVerificationValid e' s id pid).
Proof.
  intros Hreach. split; [|split].
  - induction Hreach as [deployer _|s s' e op _ IH _ Hstep]; intros id pid.
    + simpl. rewrite sload_empty. simpl. lia.
    + destruct (platform_step_record_cases _ _ _ _ _ id pid Hstep)
        as [->|[(uid & days & att & _ & _ & -> & _)|[(_ & _ & ->)|(sc & _ & _ & Hsc & ->)]]];
        simpl; try apply IH; lia.
  - intros e id pid score Hbig. unfold PlatformRegistry.updateTrustScore, require.
    assert (Hb : (score <=? 100) = false) by (apply N.leb_gt; lia). rewrite Hb.
    split; [by destruct (PlatformRegistry.isPlatformAuthorized _ _ _) | by intros ->].
  - intros e id pid score s' Hcall. unfold PlatformRegistry.updateTrustScore in Hcall.
    inv_ok Hcall. injection Hcall as <-. simpl. split; [by rewrite sload_insert_eq|].
    intros e'. unfold PlatformRegistry.isVerificationValid. simpl.
    by rewrite sload_insert_eq.
Qed.

(** X21, witness: the record of identity A. *)
Lemma trustScore_is_a_percentage_witness :
  PlatformRegistry.PlatformVerification.trustScore
    (PlatformRegistry.verifications (platform_after verified_for_one_day)).[(did_A, pid_X)]
  ≤ 100.
Proof.
  apply (trustScore_is_a_percentage keccak_platform_model
           (platform_after verified_for_one_day)).
  apply platform_after_reachable; vm_compute; reflexivity.
Defined.

(** ** Revoking a platform verification *)

(** [createVerification] succeeds when its guards pass and no counter
    overflows. *)
Lemma createVerification_succeeds (e : Env) (id pid : bytes32) (uid : string)
    (days : uint256) (att : bytes32) (s : PlatformRegistry.State) :
  PlatformRegistry.Platform.isActive (PlatformRegistry.platforms s).[pid] = true →
  PlatformRegistry.isPlatformAuthorized e pid s = true →
  0 < PlatformRegistry.bytes_length uid →
  id ≠ 0 →
  PlatformRegistry.PlatformVerification.isActive
    (PlatformRegistry.verifications s).[(id, pid)] = false →
  block_timestamp e + days * PlatformRegistry.ONE_DAY ≤ MAX_UINT256 →
  PlatformRegistry.Platform.totalVerifications (PlatformRegistry.platforms s).[pid]
    < MAX_UINT256 →
  PlatformRegistry.totalPlatformVerifications s < MAX_UINT256 →
  is_ok (PlatformRegistry.createVerification e id pid uid days att s) = true.
Proof.
  intros Hact Hauth Huid Hid Hfree Hexp Hc1 Hc2.
  unfold PlatformRegistry.createVerification, require, checked.
  rewrite expiry_checked, Hact, Hauth, Hfree. simpl.
  apply N.ltb_lt in Huid. rewrite Huid. apply N.eqb_neq in Hid. rewrite Hid. simpl.
  apply N.leb_le in Hexp. rewrite Hexp, andb_false_r. simpl.
  rewrite !checked_add_fits by lia. done.
Qed.

(** X22: a successful [revokeVerification] of the platform registry
    makes the record inactive, hence invalid at every time, and keeps its
    other fields. It does not undo the two indexes: the reverse lookup
    still returns the identity for the platform user id, and the identity
    stays in the list of the platform. On the inactive record a second
    revocation and a trust-score update revert, and the pair can be
    verified again. *)
Theorem platform_revocation_frees_the_slot (e : Env) (id pid : bytes32)
    (s s' : PlatformRegistry.State) :
  PlatformRegistry.revokeVerification e id pid s = Ok s' →
  (PlatformRegistry.verifications s').[(id, pid)]
    = PlatformRegistry.set_isActive false (PlatformRegistry.verifications s).[(id, pid)]
  ∧ (∀ e', PlatformRegistry.isVerificationValid e' s' id pid = false)
  ∧ (∀ p u, PlatformRegistry.getIdentityByPlatformUser s' p u
            = PlatformRegistry.getIdentityByPlatformUser s p u)
  ∧ (∀ p, PlatformRegistry.getPlatformVerifiedIdentities s' p
          = PlatformRegistry.getPlatformVerifiedIdentities s p)
  ∧ (∀ e', is_ok (PlatformRegistry.revokeVerification e' id pid s') = false)
  ∧ (∀ e' score, is_ok (PlatformRegistry.updateTrustScore e' id pid score s') = false)
  ∧ (∀ e' uid days att,
       PlatformRegistry.Platform.isActive (PlatformRegistry.platforms s).[pid] = true →
       PlatformRegistry.isPlatformAuthorized e' pid s = true →
       0 < PlatformRegistry.bytes_length uid →
       id ≠ 0 →
       block_timestamp e' + days * PlatformRegistry.ONE_DAY ≤ MAX_UINT256 →
       PlatformRegistry.Platform.totalVerifications (PlatformRegistry.platforms s).[pid]
         < MAX_UINT256 →
       PlatformRegistry.totalPlatformVerifications s < MAX_UINT256 →
       is_ok (PlatformRegistry.createVerification e' id pid uid days att s') = true).
Proof.
  intros Hcall. unfold PlatformRegistry.revokeVerification in Hcall. inv_ok Hcall.
  injection Hcall as <-.
  split; [simpl; by rewrite sload_insert_eq|].
  split.
  { intros e'. unfold PlatformRegistry.isVerificationValid. simpl.
    by rewrite sload_insert_eq. }
  split; [done|]. split; [done|]. split.
  { intros e'. unfold PlatformRegistry.revokeVerification, require. simpl.
    rewrite sload_insert_eq. simpl.
    by destruct (PlatformRegistry.isPlatformAuthorized e' _ _). }
  split.
  { intros e' score. unfold PlatformRegistry.updateTrustScore, require. simpl.
    rewrite sload_insert_eq. simpl.
    destruct (PlatformRegistry.isPlatformAuthorized e' _ _); [|done].
    by destruct (score <=? 100). }
  intros e' uid days att Hact Hauth Huid Hid Hexp Hc1 Hc2.
  apply createVerification_succeeds; try done.
  simpl. by rewrite sload_insert_eq.
Qed.

(** X22, witness: the administrator revokes the verification of
    identity A. *)
Lemma platform_revocation_frees_the_slot_witness :
  let s := platform_after verified_for_one_day in
  ∃ s', PlatformRegistry.revokeVerification {| msg_sender := 100; block_timestamp := 1002 |}
          did_A pid_X s = Ok s'
  ∧ (PlatformRegistry.verifications s').[(did_A, pid_X)]
    = PlatformRegistry.set_isActive false (PlatformRegistry.verifications s).[(did_A, pid_X)]
  ∧ (∀ e', PlatformRegistry.isVerificationValid e' s' did_A pid_X = false)
  ∧ (∀ p u, PlatformRegistry.getIdentityByPlatformUser s' p u
            = PlatformRegistry.getIdentityByPlatformUser s p u)
  ∧ (∀ p, PlatformRegistry.getPlatformVerifiedIdentities s' p
          = PlatformRegistry.getPlatformVerifiedIdentities s p)
  ∧ (∀ e', is_ok (PlatformRegistry.revokeVerification e' did_A pid_X s') = false)
  ∧ (∀ e' score, is_ok (PlatformRegistry.updateTrustScore e' did_A pid_X score s') = false)
  ∧ (∀ e' uid days att,
       PlatformRegistry.Platform.isActive (PlatformRegistry.platforms s).[pid_X] = true →
       PlatformRegistry.isPlatformAuthorized e' pid_X s = true →
       0 < PlatformRegistry.bytes_length uid →
       did_A ≠ 0 →
       block_timestamp e' + days * PlatformRegistry.ONE_DAY ≤ MAX_UINT256 →
       PlatformRegistry.Platform.totalVerifications (PlatformRegistry.platforms s).[pid_X]
         < MAX_UINT256 →
       PlatformRegistry.totalPlatformVerifications s < MAX_UINT256 →
       is_ok (PlatformRegistry.createVerification e' did_A pid_X uid days att s') = true).
Proof.
  eexists. split; [vm_compute; reflexivity|].
  apply (platform_revocation_frees_the_slot {| msg_sender := 100; block_timestamp := 1002 |}
           did_A pid_X (platform_after verified_for_one_day)).
  vm_compute; reflexivity.
Defined.

(** ** Deactivating a platform *)

(** X23: a successful [deactivatePlatform] clears the activity flag of
    the platform and nothing else. The verification records are not
    touched, so every [isVerificationValid] answer is as before; new
    verifications on the platform revert with [PlatformInactive];
    [revokeVerification] still works on it as before; the call can be
    repeated without effect; and afterwards no function sets the flag
    again, short of a [registerPlatform] that derives the same id for a
    domain not yet registered. *)
Theorem deactivatePlatform_effect (keccak256 : string → string → uint256 → bytes32)
    (e : Env) (pid : bytes32) (s s' : PlatformRegistry.State) :
  PlatformRegistry.deactivatePlatform e pid s = Ok s' →
  (PlatformRegistry.platforms s').[pid]
    = PlatformRegistry.set_platform_isActive false (PlatformRegistry.platforms s).[pid]
  ∧ (∀ e' id p, PlatformRegistry.isVerificationValid e' s' id p
                = PlatformRegistry.isVerificationValid e' s id p)
  ∧ (∀ e' id uid days att,
       PlatformRegistry.createVerification e' id pid uid days att s' = Err PlatformInactive)
  ∧ (∀ e' id, is_ok (PlatformRegistry.revokeVerification e' id pid s')
              = is_ok (PlatformRegistry.revokeVerification e' id pid s))
  ∧ PlatformRegistry.deactivatePlatform e pid s' = Ok s'
  ∧ (∀ e2 op s2, PlatformRegistry.step keccak256 e2 op s' = Ok s2 →
       PlatformRegistry.Platform.isActive (PlatformRegistry.platforms s2).[pid] = false
       ∨ ∃ n d ty, op = PlatformRegistry.Call_registerPlatform n d ty
           ∧ pid = keccak256 n d (block_timestamp e2)
           ∧ (PlatformRegistry.domainToPlatform s').[d] = 0).
Proof.
  intros Hcall. unfold PlatformRegistry.deactivatePlatform in Hcall. inv_ok Hcall.
  injection Hcall as <-.
  split; [simpl; by rewrite sload_insert_eq|]. split; [done|]. split.
  { intros e' id uid days att. unfold PlatformRegistry.createVerification, require. simpl.
    by rewrite sload_insert_eq. }
  split.
  { intros e' id. unfold PlatformRegistry.revokeVerification, require,
      PlatformRegistry.isPlatformAuthorized, PlatformRegistry.hasRole. simpl.
    rewrite sload_insert_eq. simpl.
    destruct (_ || _); [|done].
    by destruct (PlatformRegistry.PlatformVerification.isActive _). }
  split.
  { unfold PlatformRegistry.deactivatePlatform, require,
      PlatformRegistry.isPlatformAuthorized, PlatformRegistry.hasRole in *. simpl.
    rewrite sload_insert_eq. simpl. rewrite Hreq. simpl.
    by rewrite insert_insert_eq. }
  intros e2 op s2 Hstep.
  destruct (platform_step_entry_cases _ _ _ _ _ pid Hstep)
    as [->|[(n & d & ty & Hop & Hpid & _ & Hdom & _)
       |[(id & uid & days & att & _ & _ & Hact & _)|(_ & _ & ->)]]].
  - left. simpl. by rewrite sload_insert_eq.
  - right. by exists n, d, ty.
  - simpl in Hact. by rewrite sload_insert_eq in Hact.
  - by left.
Qed.

(** X23, witness: the deactivation of the platform of "example.com". *)
Lemma deactivatePlatform_effect_witness :
  let s := platform_after verified_for_one_day in
  let s' := platform_after verified_then_deactivated in
  let e := {| msg_sender := 100; block_timestamp := 1002 |} in
  (PlatformRegistry.platforms s').[pid_X]
    = PlatformRegistry.set_platform_isActive false (PlatformRegistry.platforms s).[pid_X]
  ∧ (∀ e' id p, PlatformRegistry.isVerificationValid e' s' id p
                = PlatformRegistry.isVerificationValid e' s id p)
  ∧ (∀ e' id uid days att,
       PlatformRegistry.createVerification e' id pid_X uid days att s' = Err PlatformInactive)
  ∧ (∀ e' id, is_ok (PlatformRegistry.revokeVerification e' id pid_X s')
              = is_ok (PlatformRegistry.revokeVerification e' id pid_X s))
  ∧ PlatformRegistry.deactivatePlatform e pid_X s' = Ok s'
  ∧ (∀ e2 op s2, PlatformRegistry.step keccak_platform_model e2 op s' = Ok s2 →
       PlatformRegistry.Platform.isActive (PlatformRegistry.platforms s2).[pid_X] = false
       ∨ ∃ n d ty, op = PlatformRegistry.Call_registerPlatform n d ty
           ∧ pid_X = keccak_platform_model n d (block_timestamp e2)
           ∧ (PlatformRegistry.domainToPlatform s').[d] = 0).
Proof.
  apply (deactivatePlatform_effect keccak_platform_model
           {| msg_sender := 100; block_timestamp := 1002 |} pid_X
           (platform_after verified_for_one_day) (platform_after verified_then_deactivated)).
  vm_compute; reflexivity.
Defined.

(** ** Platform user ids *)

(** X24: [createVerification] does not test whether the platform user
    id is already taken. When another identity holds an active record
    under the same user id on the platform, the call succeeds all the same:
    both identities are then verified under that user id, the record of the
    other identity is untouched, and the reverse lookup of the user id
    names the identity verified last. *)
Theorem platform_user_id_can_be_shared (e : Env) (id id0 pid : bytes32) (uid : string)
    (days : uint256) (att : bytes32) (s s' : PlatformRegistry.State) :
  PlatformRegistry.createVerification e id pid uid days att s = Ok s' →
  id0 ≠ id →
  PlatformRegistry.PlatformVerification.isActive
    (PlatformRegistry.verifications s).[(id0, pid)] = true →
  PlatformRegistry.PlatformVerification.platformUserId
    (PlatformRegistry.verifications s).[(id0, pid)] = uid →
  PlatformRegistry.getVerification s' id0 pid = PlatformRegistry.getVerification s id0 pid
  ∧ PlatformRegistry.PlatformVerification.isActive
      (PlatformRegistry.verifications s').[(id0, pid)] = true
  ∧ PlatformRegistry.PlatformVerification.platformUserId
      (PlatformRegistry.verifications s').[(id0, pid)] = uid
  ∧ (∀ e', PlatformRegistry.isVerificationValid e' s' id0 pid
           = PlatformRegistry.isVerificationValid e' s id0 pid)
  ∧ PlatformRegistry.PlatformVerification.isActive
      (PlatformRegistry.verifications s').[(id, pid)] = true
  ∧ PlatformRegistry.PlatformVerification.platformUserId
      (PlatformRegistry.verifications s').[(id, pid)] = uid
  ∧ PlatformRegistry.getIdentityByPlatformUser s' pid uid = id.
Proof.
  intros Hcall Hne Hactive Huid.
  apply createVerification_ok in Hcall as (_ & _ & _ & _ & _ & Hvs & _ & Hrev & _).
  unfold PlatformRegistry.getVerification, PlatformRegistry.isVerificationValid,
    PlatformRegistry.getIdentityByPlatformUser.
  rewrite Hvs, Hrev, !sload_insert_eq. simpl.
  rewrite sload_insert_ne by congruence. done.
Qed.

(** X24, witness: identities A and B, both verified as "user-1". *)
Lemma platform_user_id_can_be_shared_witness :
  let s := platform_after verified_for_one_day in
  let s' := platform_after two_identities_one_user in
  PlatformRegistry.getVerification s' did_A pid_X = PlatformRegistry.getVerification s did_A pid_X
  ∧ PlatformRegistry.PlatformVerification.isActive
      (PlatformRegistry.verifications s').[(did_A, pid_X)] = true
  ∧ PlatformRegistry.PlatformVerification.platformUserId
      (PlatformRegistry.verifications s').[(did_A, pid_X)] = "user-1"%string
  ∧ (∀ e', PlatformRegistry.isVerificationValid e' s' did_A pid_X
           = PlatformRegistry.isVerificationValid e' s did_A pid_X)
  ∧ PlatformRegistry.PlatformVerification.isActive
      (PlatformRegistry.verifications s').[(did_B, pid_X)] = true
  ∧ PlatformRegistry.PlatformVerification.platformUserId
      (PlatformRegistry.verifications s').[(did_B, pid_X)] = "user-1"%string
  ∧ PlatformRegistry.getIdentityByPlatformUser s' pid_X "user-1" = did_B.
Proof.
  apply (platform_user_id_can_be_shared {| msg_sender := 100; block_timestamp := 1002 |}
           did_B did_A pid_X "user-1" 0 98 (platform_after verified_for_one_day)
           (platform_after two_identities_one_user)).
  - vm_compute; reflexivity.
  - vm_compute; discriminate.
  - vm_compute; reflexivity.
  - vm_compute; reflexivity.
Defined.

(** ** The per-platform counter *)

(** The platform ids registered by a transaction sequence whose first
    transaction succeeds. *)
Lemma registered_ids_cons (keccak256 : string → string → uint256 → bytes32)
    (e : Env) (op : PlatformRegistry.Op) (txs : list (Env * PlatformRegistry.Op))
    (s s1 : PlatformRegistry.State) :
  PlatformRegistry.step keccak256 e op s = Ok s1 →
  registered_ids keccak256 ((e, op) :: txs) s
  = registered_by keccak256 e op ++ registered_ids keccak256 txs s1.
Proof.
  intros Hstep. destruct op;
    try (simpl in Hstep |- *; by rewrite Hstep).
  apply step_registerPlatform_ok in Hstep. simpl. by rewrite Hstep.
Qed.

Lemma step_platform_counter_inv (keccak256 : string → string → uint256 → bytes32)
    (e : Env) (op : PlatformRegistry.Op) (s s' : PlatformRegistry.State)
    (ids : list bytes32) :
  PlatformRegistry.step keccak256 e op s = Ok s' →
  (∀ pid, pid ∈ registered_by keccak256 e op → pid ∉ ids) →
  platform_counter_inv s ids →
  platform_counter_inv s' (ids ++ registered_by keccak256 e op).
Proof.
  intros Hstep Hnew Hinv. destruct op; simpl registered_by in *; rewrite ?app_nil_r.
  - apply step_registerPlatform_ok in Hstep.
    apply registerPlatform_ok in Hstep
      as (_ & _ & _ & Hps & _ & _ & _ & Hlist & _).
    intros pid. destruct (Hinv pid) as [Hcount Hreg].
    rewrite Hps, Hlist, sload_insert, elem_of_app, list_elem_of_singleton.
    case_decide as Hk.
    + subst pid. simpl.
      assert (Hempty : (PlatformRegistry.platformVerifiedIdentities s).[
                         keccak256 _name _domain (block_timestamp e)] = []).
      { destruct ((PlatformRegistry.platformVerifiedIdentities s).[
                    keccak256 _name _domain (block_timestamp e)]) as [|x l] eqn:Hl; [done|].
        destruct (Hnew (keccak256 _name _domain (block_timestamp e))).
        - by apply list_elem_of_singleton.
        - apply Hreg. by right. }
      rewrite Hempty. split; [done|]. intros _. by right.
    + split; [done|]. intros Hpre. left. by apply Hreg.
  - simpl in Hstep.
    apply createVerification_ok in Hstep
      as (Hact & _ & _ & _ & _ & _ & Hlist & _ & Hps & _).
    intros pid. destruct (Hinv pid) as [Hcount Hreg].
    rewrite Hps, Hlist, !sload_insert. case_decide as Hk.
    + subst pid. simpl. rewrite length_app. simpl. split; [lia|]. intros _.
      apply Hreg. by left.
    + done.
  - simpl in Hstep. unfold PlatformRegistry.revokeVerification in Hstep. inv_ok Hstep.
    by injection Hstep as <-.
  - simpl in Hstep. unfold PlatformRegistry.updateTrustScore in Hstep. inv_ok Hstep.
    by injection Hstep as <-.
  - simpl in Hstep. unfold PlatformRegistry.deactivatePlatform in Hstep. inv_ok Hstep.
    injection Hstep as <-. intros pid. destruct (Hinv pid) as [Hcount Hreg]. simpl.
    rewrite sload_insert. case_decide as Hk; [subst pid|done]. simpl.
    split; [done|]. intros [?|Hl]; [done|]. apply Hreg. by right.
  - simpl in Hstep. unfold PlatformRegistry.grantRole in Hstep. inv_ok Hstep.
    injection Hstep as <-. by destruct (PlatformRegistry.hasRole s role account).
  - simpl in Hstep. unfold PlatformRegistry.revokeRole in Hstep. inv_ok Hstep.
    injection Hstep as <-. by destruct (PlatformRegistry.hasRole s role account).
  - simpl in Hstep. unfold PlatformRegistry.renounceRole in Hstep. inv_ok Hstep.
    injection Hstep as <-. by destruct (PlatformRegistry.hasRole s role callerConfirmation).
Qed.

Lemma run_platform_counter_inv (keccak256 : string → string → uint256 → bytes32)
    (txs : list (Env * PlatformRegistry.Op)) (s s' : PlatformRegistry.State)
    (ids : list bytes32) :
  PlatformRegistry.run keccak256 txs s = Ok s' →
  NoDup (ids ++ registered_ids keccak256 txs s) →
  platform_counter_inv s ids →
  platform_counter_inv s' (ids ++ registered_ids keccak256 txs s).
Proof.
  revert s ids. induction txs as [|[e op] txs IH]; intros s ids Hrun Hnodup Hinv;
    simpl in Hrun.
  - injection Hrun as <-. simpl. by rewrite app_nil_r.
  - destruct (PlatformRegistry.step keccak256 e op s) as [s1|err] eqn:Hstep;
      simpl in Hrun; [|discriminate].
    rewrite (registered_ids_cons _ _ _ _ _ _ Hstep), app_assoc in Hnodup |- *.
    apply (IH s1 _ Hrun Hnodup).
    apply (step_platform_counter_inv _ _ _ _ _ _ Hstep); [|done].
    intros pid Hpid Hin.
    apply NoDup_app in Hnodup as (Hnodup & _ & _).
    apply NoDup_app in Hnodup as (_ & Hdisj & _). by apply (Hdisj pid).
Qed.

(** X25: in every state that a sequence of successful transactions
    produces from the deployment, and in which no two [registerPlatform]
    calls returned the same id, the [totalVerifications] counter of a
    platform is the length of the list that [getPlatformVerifiedIdentities]
    returns for it, for any platform hash: it counts the verifications ever
    created on the platform, revoked and repeated ones included. *)
Theorem platform_counter_is_list_length
    (keccak256 : string → string → uint256 → bytes32)
    (txs : list (Env * PlatformRegistry.Op)) (deployer : address)
    (s : PlatformRegistry.State) (pid : bytes32) :
  PlatformRegistry.run keccak256 txs (PlatformRegistry.constructor deployer) = Ok s →
  NoDup (registered_ids keccak256 txs (PlatformRegistry.constructor deployer)) →
  PlatformRegistry.Platform.totalVerifications (PlatformRegistry.platforms s).[pid]
  = array_length (PlatformRegistry.getPlatformVerifiedIdentities s pid).
Proof.
  intros Hrun Hnodup.
  assert (Hinit : platform_counter_inv (PlatformRegistry.constructor deployer) []).
  { intros p. simpl. rewrite !sload_empty. simpl. split; [done|]. by intros [?|?]. }
  apply (run_platform_counter_inv keccak256 txs _ s [] Hrun Hnodup Hinit).
Qed.

(** X25, witness: the platform of "example.com" after two verifications. *)
Lemma platform_counter_is_list_length_witness :
  PlatformRegistry.Platform.totalVerifications
    (PlatformRegistry.platforms (platform_after two_identities_one_user)).[pid_X]
  = array_length (PlatformRegistry.getPlatformVerifiedIdentities
                    (platform_after two_identities_one_user) pid_X).
Proof.
  apply (platform_counter_is_list_length keccak_platform_model
           two_identities_one_user 100
           (platform_after two_identities_one_user) pid_X).
  - vm_compute; reflexivity.
  - assert (Hids : registered_ids keccak_platform_model two_identities_one_user
                     (PlatformRegistry.constructor 100) = [pid_X])
      by (vm_compute; reflexivity).
    rewrite Hids. apply NoDup_singleton.
Defined.

(** ** Duplicate guardian entries *)

(** X26: [addGuardian] does not test whether the address is a guardian
    already, and the quorum is computed from the length of the guardian
    array, duplicates included, while approvals are counted per distinct
    guardian. In a reachable state where the number of distinct guardians
    of an identity is below the quorum ⌊N/2⌋+1 of its guardian array, a
    successful [approveRecovery] never commits: the request stays pending,
    no identity changes, the guardian array is the same, and the shortfall
    is still there for the next approval. *)
Theorem duplicate_guardian_entries_raise_the_quorum
    (keccak256 : bytes32 → address → uint256 → bytes32)
    (e : Env) (did : bytes32) (s s' : Registry.State) :
  Registry.reachable keccak256 s →
  N.of_nat (size (list_to_set (Registry.guardians s).[did] : gset address))
    < Registry.requiredApprovals s did →
  Registry.approveRecovery e did s = Ok s' →
  (Registry.pendingRecoveryAddress s).[did] ≠ 0
  ∧ (Registry.pendingRecoveryAddress s').[did] = (Registry.pendingRecoveryAddress s).[did]
  ∧ Registry.identities s' = Registry.identities s
  ∧ Registry.addressToIdentity s' = Registry.addressToIdentity s
  ∧ Registry.guardians s' = Registry.guardians s
  ∧ N.of_nat (size (list_to_set (Registry.guardians s').[did] : gset address))
    < Registry.requiredApprovals s' did.
Proof.
  intros Hreach Hfew Hcall.
  destruct (reachable_recovery_inv _ _ Hreach did) as (_ & Hcount & _).
  rewrite approveRecovery_unfold in Hcall. inv_ok Hcall.
  apply _isGuardian_scan_elem_of in Hreq.
  apply negb_true_iff, N.eqb_neq in Hreq0. apply negb_true_iff in Hreq1.
  assert (Hsub : approvers s did ∪ {[msg_sender e]}
                 ⊆ list_to_set (Registry.guardians s).[did]).
  { intros x. rewrite elem_of_union, elem_of_singleton, approvers_elem_of,
      elem_of_list_to_set. intros [[_ ?]| ->]; done. }
  apply subseteq_size in Hsub. rewrite size_union, size_singleton in Hsub.
  2:{ apply disjoint_singleton_r. rewrite approvers_elem_of. intros [? _]. congruence. }
  destruct (N.leb_spec (Registry.requiredApprovals s did)
              ((Registry.recoveryApprovalCount s).[did] + 1)) as [Hle|Hgt]; [lia|].
  injection Hcall as <-. done.
Qed.

(** X26, witness: identity A with the guardian array [21; 21; 21; 22; 22]
    (quorum 3, two distinct guardians) and a request opened by guardian 21:
    the approval of guardian 22 is recorded and commits nothing. *)
Lemma duplicate_guardian_entries_raise_the_quorum_witness :
  let s := registry_after duplicated_guardians_pending in
  (Registry.guardians s).[did_A] = [21; 21; 21; 22; 22]
  ∧ ∃ s', Registry.approveRecovery {| msg_sender := 22; block_timestamp := 1007 |} did_A s
          = Ok s'
    ∧ (Registry.pendingRecoveryAddress s).[did_A] ≠ 0
    ∧ (Registry.pendingRecoveryAddress s').[did_A] = (Registry.pendingRecoveryAddress s).[did_A]
    ∧ Registry.identities s' = Registry.identities s
    ∧ Registry.addressToIdentity s' = Registry.addressToIdentity s
    ∧ Registry.guardians s' = Registry.guardians s
    ∧ N.of_nat (size (list_to_set (Registry.guardians s').[did_A] : gset address))
      < Registry.requiredApprovals s' did_A.
Proof.
  split; [vm_compute; reflexivity|].
  eexists. split; [vm_compute; reflexivity|].
  apply (duplicate_guardian_entries_raise_the_quorum keccak_model
           {| msg_sender := 22; block_timestamp := 1007 |} did_A
           (registry_after duplicated_guardians_pending)).
  - apply registry_after_reachable; vm_compute; reflexivity.
  - vm_compute; reflexivity.
  - vm_compute; reflexivity.
Defined.

(** ** The zero address *)

Lemma step_active_owner_nonzero (keccak256 : bytes32 → address → uint256 → bytes32)
    (e : Env) (op : Registry.Op) (s s' : Registry.State) :
  msg_sender e ≠ 0 →
  Registry.step keccak256 e op s = Ok s' →
  (∀ d, Registry.isActive (Registry.identities s).[d] = true →
        Registry.owner (Registry.identities s).[d] ≠ 0) →
  ∀ d, Registry.isActive (Registry.identities s').[d] = true →
       Registry.owner (Registry.identities s').[d] ≠ 0.
Proof.
  intros Hsender Hstep IH d.
  destruct (step_identity_cases _ _ _ _ _ d Hstep)
    as [->|[(h & ipfs & _ & _ & _ & ->)|[(ipfs & _ & _ & Hact & _ & ->)
       |[(ty & pr & _ & _ & Hact & _ & _ & ->)|[(_ & _ & _ & ->)|(_ & _ & Hp & ->)]]]]];
    simpl; try done; apply IH.
Qed.

Lemma reachable_active_owner_nonzero (keccak256 : bytes32 → address → uint256 → bytes32)
    (s : Registry.State) (d : bytes32) :
  Registry.reachable keccak256 s →
  Registry.isActive (Registry.identities s).[d] = true →
  Registry.owner (Registry.identities s).[d] ≠ 0.
Proof.
  intros Hreach. revert d.
  induction Hreach as [deployer _|s s' e op _ IH Hsender Hstep].
  - intros d. simpl. by rewrite sload_empty.
  - by eapply step_active_owner_nonzero.
Qed.

(** X27: the zero address owns nothing. In every reachable state an
    active identity has a non-zero owner, so [verifyOwnership] answers
    false for the zero address on every DID, also on the DIDs that were
    never created and whose stored owner is the default zero. *)
Theorem zero_address_owns_nothing (keccak256 : bytes32 → address → uint256 → bytes32)
    (s : Registry.State) (did : bytes32) :
  Registry.reachable keccak256 s →
  Registry.verifyOwnership s did 0 = false
  ∧ (Registry.isActive (Registry.identities s).[did] = true →
     Registry.owner (Registry.identities s).[did] ≠ 0).
Proof.
  intros Hreach.
  pose proof (reachable_active_owner_nonzero _ _ did Hreach) as Hown.
  split; [|done]. unfold Registry.verifyOwnership.
  destruct (Registry.isActive (Registry.identities s).[did]).
  - apply N.eqb_neq in Hown; [|done]. by rewrite Hown.
  - by rewrite andb_false_r.
Qed.

(** X27, witness: identity A and the never-created DID 7 after a recovery
    of A. *)
Lemma zero_address_owns_nothing_witness :
  let s := registry_after three_guardians_second_approval in
  (Registry.verifyOwnership s did_A 0 = false
   ∧ (Registry.isActive (Registry.identities s).[did_A] = true →
      Registry.owner (Registry.identities s).[did_A] ≠ 0))
  ∧ Registry.verifyOwnership s 7 0 = false
  ∧ Registry.isActive (Registry.identities s).[did_A] = true.
Proof.
  split; [|split].
  - apply (zero_address_owns_nothing keccak_model
             (registry_after three_guardians_second_approval) did_A).
    apply registry_after_reachable; vm_compute; reflexivity.
  - apply (zero_address_owns_nothing keccak_model
             (registry_after three_guardians_second_approval) 7).
    apply registry_after_reachable; vm_compute; reflexivity.
  - vm_compute; reflexivity.
Defined.

(** ** DIDs that were never created *)






(** ** Updating an identity *)

(** X29: a successful [updateIdentity] is made by the owner of an active,
    non-revoked identity on an unpaused registry, and [getIdentity] then
    shows the new IPFS hash and the block timestamp as [lastUpdated] with
    the owner, the creation time, the flags and the verification level as
    before; every other identity, the address bindings, the verification
    ledger and the recovery state are untouched. *)
Theorem updateIdentity_roundtrip (e : Env) (did : bytes32) (ipfs : string)
    (s s' : Registry.State) :
  Registry.updateIdentity e did ipfs s = Ok s' →
  Registry.paused s = false
  ∧ Registry.verifyOwnership s did (msg_sender e) = true
  ∧ Registry.getIdentity s' did
    = (msg_sender e, Registry.createdAt (Registry.identities s).[did], block_timestamp e,
       true, false, ipfs, Registry.verificationLevel (Registry.identities s).[did])
  ∧ (∀ d, d ≠ did → (Registry.identities s').[d] = (Registry.identities s).[d])
  ∧ Registry.addressToIdentity s' = Registry.addressToIdentity s
  ∧ Registry.verifications s' = Registry.verifications s
  ∧ recovery_fields s' = recovery_fields s.
Proof.
  intros Hcall. unfold Registry.updateIdentity in Hcall. inv_ok Hcall.
  injection Hcall as <-. apply negb_true_iff in Hreq, Hreq2.
  pose proof Hreq0 as Hown. apply N.eqb_eq in Hown.
  unfold Registry.verifyOwnership, Registry.getIdentity. simpl.
  rewrite Hreq0, Hreq1, Hreq2. sload_simpl. simpl.
  rewrite Hown, Hreq1, Hreq2.
  do 3 (split; [done|]). split; [|done]. intros d Hd. by sload_simpl.
Qed.

(** X29, witness: account 1 replaces the metadata of identity A. *)
Lemma updateIdentity_roundtrip_witness :
  let s := registry_after identity_created in
  let e := {| msg_sender := 1; block_timestamp := 1500 |} in
  ∃ s', Registry.updateIdentity e did_A "QmA2" s = Ok s'
  ∧ Registry.paused s = false
  ∧ Registry.verifyOwnership s did_A 1 = true
  ∧ Registry.getIdentity s' did_A
    = (1, Registry.createdAt (Registry.identities s).[did_A], 1500,
       true, false, "QmA2"%string, Registry.verificationLevel (Registry.identities s).[did_A])
  ∧ (∀ d, d ≠ did_A → (Registry.identities s').[d] = (Registry.identities s).[d])
  ∧ Registry.addressToIdentity s' = Registry.addressToIdentity s
  ∧ Registry.verifications s' = Registry.verifications s
  ∧ recovery_fields s' = recovery_fields s.
Proof.
  eexists. split; [vm_compute; reflexivity|].
  apply (updateIdentity_roundtrip {| msg_sender := 1; block_timestamp := 1500 |}
           did_A "QmA2" (registry_after identity_created)).
  vm_compute; reflexivity.
Defined.

(** ** Names and domains with the same packed bytes *)

Lemma keccak_platform_model_packed : hashes_packed_bytes keccak_platform_model.
Proof. intros n d n' d' t Heq. unfold keccak_platform_model. by rewrite Heq. Qed.

(** X30: [registerPlatform] hashes [abi.encodePacked(_name, _domain,
    block.timestamp)], which sets no boundary between the name and the
    domain, and it does not test whether the id is in use. For every hash
    of the packed bytes: when a holder of [PLATFORM_ADMIN_ROLE] registers a
    non-empty name and a non-empty, unregistered domain whose concatenation
    is that of another name and domain, the call succeeds and returns the
    id that the other pair has at the same block time; the entry stored
    under that id is replaced by the new platform, with the caller as
    administrator and a verification counter of 0, while the list of
    verified identities stored under the id, its verification records and
    the mapping of every other domain stay as they were. *)
Theorem registerPlatform_overwrites_on_equal_packed_bytes
    (keccak256 : string → string → uint256 → bytes32)
    (e : Env) (n d n' d' : string) (ty' : PlatformRegistry.PlatformType)
    (s : PlatformRegistry.State) :
  hashes_packed_bytes keccak256 →
  (n' ++ d')%string = (n ++ d)%string →
  PlatformRegistry.hasRole s PLATFORM_ADMIN_ROLE (msg_sender e) = true →
  0 < PlatformRegistry.bytes_length n' →
  0 < PlatformRegistry.bytes_length d' →
  (PlatformRegistry.domainToPlatform s).[d'] = 0 →
  PlatformRegistry.totalPlatforms s < MAX_UINT256 →
  ∃ s', PlatformRegistry.registerPlatform keccak256 e n' d' ty' s
        = Ok (keccak256 n d (block_timestamp e), s')
    ∧ PlatformRegistry.getPlatform s' (keccak256 n d (block_timestamp e))
      = (n', d', msg_sender e, true, block_timestamp e, 0, ty')
    ∧ PlatformRegistry.getPlatformVerifiedIdentities s' (keccak256 n d (block_timestamp e))
      = PlatformRegistry.getPlatformVerifiedIdentities s (keccak256 n d (block_timestamp e))
    ∧ (∀ id p, PlatformRegistry.getVerification s' id p
               = PlatformRegistry.getVerification s id p)
    ∧ (∀ d0, d0 ≠ d' → (PlatformRegistry.domainToPlatform s').[d0]
                        = (PlatformRegistry.domainToPlatform s).[d0]).
Proof.
  intros Hpacked Hcat Hrole Hn Hd Hfree Hcount.
  destruct (PlatformRegistry.registerPlatform keccak256 e n' d' ty' s)
    as [[pid s']|err] eqn:Hcall.
  - exists s'.
    apply registerPlatform_ok in Hcall
      as (-> & _ & _ & Hps & Hdom & _ & Hvs & Hlist & _).
    rewrite (Hpacked n' d' n d (block_timestamp e) Hcat) in Hps, Hdom |- *.
    unfold PlatformRegistry.getPlatform, PlatformRegistry.getPlatformVerifiedIdentities,
      PlatformRegistry.getVerification.
    rewrite Hps, Hdom, Hvs, Hlist, sload_insert_eq. simpl.
    do 4 (split; [done|]). intros d0 Hd0. by rewrite sload_insert_ne.
  - exfalso. unfold PlatformRegistry.registerPlatform, require, checked in Hcall.
    apply N.ltb_lt in Hn, Hd. apply N.eqb_eq in Hfree.
    rewrite Hrole, Hn, Hd, Hfree in Hcall. simpl in Hcall.
    rewrite checked_add_fits in Hcall by lia. done.
Qed.

(** X30, witness: the platform "ab" under the domain "c", with one
    verified identity, is replaced in the same block by the platform "a"
    under the domain "bc" that account 8 registers: the id is the same,
    the administrator is now account 8, and the counter is 0 while the
    list still has one element. *)
Lemma registerPlatform_overwrites_on_equal_packed_bytes_witness :
  let s := platform_after platform_ab_c_verified in
  let e := {| msg_sender := 8; block_timestamp := 1000 |} in
  PlatformRegistry.getPlatform s pid_ab_c
    = ("ab", "c", 100, true, 1000, 1, PlatformRegistry.SocialMedia)%string
  ∧ PlatformRegistry.getPlatformVerifiedIdentities s pid_ab_c = [did_A]
  ∧ ∃ s', PlatformRegistry.registerPlatform keccak_platform_model e "a" "bc"
            PlatformRegistry.Financial s
          = Ok (keccak_platform_model "ab" "c" 1000, s')
    ∧ PlatformRegistry.getPlatform s' (keccak_platform_model "ab" "c" 1000)
      = ("a", "bc", 8, true, 1000, 0, PlatformRegistry.Financial)%string
    ∧ PlatformRegistry.getPlatformVerifiedIdentities s' (keccak_platform_model "ab" "c" 1000)
      = PlatformRegistry.getPlatformVerifiedIdentities s (keccak_platform_model "ab" "c" 1000)
    ∧ (∀ id p, PlatformRegistry.getVerification s' id p
               = PlatformRegistry.getVerification s id p)
    ∧ (∀ d0, d0 ≠ "bc"%string → (PlatformRegistry.domainToPlatform s').[d0]
                                 = (PlatformRegistry.domainToPlatform s).[d0]).
Proof.
  split; [vm_compute; reflexivity|]. split; [vm_compute; reflexivity|].
  apply (registerPlatform_overwrites_on_equal_packed_bytes keccak_platform_model
           {| msg_sender := 8; block_timestamp := 1000 |} "ab" "c" "a" "bc"
           PlatformRegistry.Financial (platform_after platform_ab_c_verified)).
  - apply keccak_platform_model_packed.
  - reflexivity.
  - vm_compute; reflexivity.
  - vm_compute; reflexivity.
  - vm_compute; reflexivity.
  - vm_compute; reflexivity.
  - vm_compute; reflexivity.
Defined.
